(** * XAdES signature validation of the i-voting BDOC library

    A shallow embedding of [ivote-server/pybdoc/src/Signature.cpp]:
    the classes [Signature], [XAdES111Signature], [XAdES132Signature]
    and [SignatureValidator], over the schema model produced by the
    XSD binder.  C++ exceptions and undefined behaviour are made
    explicit in the result type [outcome]. *)

From Stdlib Require Import ZArith List String Ascii Bool Lia.
Import ListNotations.
Local Open Scope list_scope.
Local Open Scope string_scope.

Definition bytes : Type := list Byte.byte.

Definition bytes_eq_dec (a b : bytes) : {a = b} + {a <> b} :=
  list_eq_dec Byte.byte_eq_dec a b.

(** ** [std::string] operations used by the source *)

Module CxxString.

(** [size_t] is 64 bits wide, [int] 32 bits. *)
Definition size_t (z : Z) : Z := (z mod 2 ^ 64)%Z.
Definition to_int (z : Z) : Z := ((z + 2 ^ 31) mod 2 ^ 32 - 2 ^ 31)%Z.
Definition npos : Z := (2 ^ 64 - 1)%Z.

Definition size (s : string) : Z := Z.of_nat (String.length s).

Fixpoint take (n : nat) (s : string) : string :=
  match n, s with
  | S n', String c s' => String c (take n' s')
  | _, _ => EmptyString
  end.

Fixpoint drop (n : nat) (s : string) : string :=
  match n, s with
  | S n', String _ s' => drop n' s'
  | _, _ => s
  end.

(** Offset of the first occurrence of [pat] in [s], the head of [s]
    standing at offset [i]. *)
Fixpoint first_match (pat s : string) (i : nat) : option nat :=
  if prefix pat s then Some i
  else match s with
       | EmptyString => None
       | String _ s' => first_match pat s' (S i)
       end.

(** Offset of the last occurrence of [pat] in [s]. *)
Fixpoint last_match (pat s : string) (i : nat) : option nat :=
  match s with
  | EmptyString => if prefix pat s then Some i else None
  | String _ s' =>
      match last_match pat s' (S i) with
      | Some j => Some j
      | None => if prefix pat s then Some i else None
      end
  end.

(** [s.find(pat, pos)] *)
Definition find (s pat : string) (pos : Z) : Z :=
  if (size s <? pos)%Z then npos
  else match first_match pat (drop (Z.to_nat pos) s) (Z.to_nat pos) with
       | Some i => Z.of_nat i
       | None => npos
       end.

(** [s.rfind(pat)] *)
Definition rfind (s pat : string) : Z :=
  match last_match pat s 0 with
  | Some i => Z.of_nat i
  | None => npos
  end.

(** [s.substr(pos, n)] where [pos <= s.size()]; the caller handles
    the [std::out_of_range] case. *)
Definition substr_in_range (s : string) (pos n : Z) : string :=
  take (Z.to_nat (Z.min n (size s - pos))) (drop (Z.to_nat pos) s).

(** Prefix, suffix and occurrence, as the specification words them. *)
Definition starts_with (pat s : string) : Prop := exists rest, s = pat ++ rest.
Definition ends_with (pat s : string) : Prop := exists pre, s = pre ++ pat.
Definition occurs_in (pat s : string) : Prop :=
  exists pre rest, s = pre ++ pat ++ rest.

Fixpoint suffixb (pat s : string) : bool :=
  (String.length pat =? String.length s)%nat && (pat =? s)
  || match s with
     | EmptyString => false
     | String _ s' => suffixb pat s'
     end.

End CxxString.

(** ** Results of C++ calls *)

(** One constructor per [THROW_STACK_EXCEPTION] site of the source (the
    message is quoted next to each); [E_SignatureInvalid] is the
    exception declared by [validateOffline], carrying its causes.  The
    [E_Collab_*] constructors stand for exceptions raised inside
    collaborating classes whose code is not part of this file. *)
#[warnings="-register-all"]
Inductive Failure : Type :=
| E_NoOCSPResponder            (* "Failed to find ocsp responder." *)
| E_IssuerUnknown              (* "Failed to load issuer certificate." *)
| E_NonceMismatch              (* "Calculated signature hash doesn't match to OCSP responder nonce field" *)
| E_OCSPRefMismatch            (* "OCSPRef value doesn't match with hash of OCSP response" *)
| E_ObjectMissing              (* "Signature block 'Object' is missing." *)
| E_MultipleObjects            (* "Signature block contains more than one 'Object' block." *)
| E_QualifyingPropertiesMissing (* "Signature block 'QualifyingProperties' is missing." *)
| E_MultipleQualifyingProperties (* "Signature block 'Object' contains more than one 'QualifyingProperties' block." *)
| E_ParseFailed                (* "Failed to parse signature XML: %s" *)
| E_SignatureInvalid (causes : list Failure) (* "Signature is invalid" *)
| E_NodeNotFound (tag ns : string) (* "Could not find '%s' node which is in '%s' namespace in signature XML." *)
| E_NodeNotUnique (n : nat) (tag ns : string) (* "Found %d '%s' nodes which are in '%s' namespace ..." *)
| E_UnsupportedCanonicalization (uri : string) (* "Unsupported SignedInfo canonicalization method '%s'" *)
| E_NoSignerCertificate        (* "Signature does not contain signer certificate" *)
| E_MultipleSignerCertificates (* "Signature contains more than one signer certificate" *)
| E_IdMissing                  (* "Signature element mandatory attribute 'Id' is missing" *)
| E_IdEmpty                    (* "Signature element mandatory attribute 'Id' is empty" *)
| E_UnsupportedSignatureMethod (uri : string) (* "Unsupported SignedInfo signature method \"%s\"" *)
| E_ReferenceCount (found expected : Z) (* "Number of references in SignedInfo is invalid: found %d, expected %d" *)
| E_MultipleSigPropsRefs       (* "SignedInfo element refers to more than one SignedProperties" *)
| E_NoSigPropsRef              (* "SignedInfo does not contain reference to SignedProperties" *)
| E_SigningCertUntrusted (subject : string) (* "Unable to verify signing certificate %s" *)
| E_SigPropsRefNoURI           (* "SignedInfo reference to SignedProperties does not have attribute 'URI'" *)
| E_SigPropsDigestUnsupported (uri : string) (* "reference to SignedProperties digest method algorithm '%s' is not supported" *)
| E_SigPropsDigestLength       (* "SignedProperties digest lengths do not match" *)
| E_SigPropsDigestValue        (* "SignedProperties digest values do not match" *)
| E_DocRefNoURI                (* "Document reference is missing attribute 'URI'" *)
| E_DocRefsMismatch            (* "Document references didn't match" *)
| E_NoHashMethod (uri : string) (* "Couldn't extract hash method from signature method URI '%s'." *)
| E_SignatureNotValid          (* "Signature is not valid." *)
| E_MissingUnsignedProperties  (* "Missing UnsignedProperties" *)
| E_UnsignedSigPropsMissing    (* "Unsigned signature properties missing" *)
| E_RevocationValuesMissing    (* "Revocation values missing" *)
| E_MissingOCSPRefDigest       (* "Missing UnsignedProperties/.../OCSPRef/DigestAlgAndValue element" *)
| E_ObjectCount (n : nat)      (* "Number of Objects is %d, must be 1" *)
| E_QualifyingPropertiesCount (n : nat) (* "Number of QualifyingProperties is %d, must be 1" *)
| E_SignedPropertiesNotFound   (* "SignedProperties not found" *)
| E_SigningCertificateNotFound (* "SigningCertificate not found" *)
| E_SigningCertificateCount (n : nat) (* "Number of SigningCertificates is %d, must be 1" *)
| E_CertDigestUnsupported (uri : string) (* "Unsupported digest algorithm  %s for signing certificate" *)
| E_IssuerInfoInvalid          (* "Signing certificate issuer information invalid" *)
| E_CertDigestLength           (* "Wrong length for signing certificate digest" *)
| E_CertDigestValue            (* "Signing certificate digest does not match" *)
| E_SignedPropertiesMissing    (* "QualifyingProperties block 'SignedProperties' is missing." *)
| E_SignaturePolicyInvalid     (* "Signature policy is not valid" *)
| E_TargetNotSignature         (* "QualifyingProperties target is not Signature" *)
| E_UnexpectedUnsignedDataObjectProperties (* "unexpected UnsignedDataObjectProperties in Signature" *)
| E_Collab_Digest (uri : string)   (* Digest::create on an unknown URI *)
| E_Collab_X509                    (* X509Cert construction from DER *)
| E_Collab_Container               (* ContainerInfo::checkDocument *)
| E_Collab_OCSP.                   (* OCSP::verifyResponse, OCSP::getNonce *)

(** The error kinds of the specification. *)
Inductive ErrorKind : Type :=
| InvalidStructure | MissingElement | UnsupportedAlgorithm | DigestMismatch
| CertificateUntrusted | NoOCSPResponder | IssuerUnknown | OCSPVerification
| NonceMismatch | OCSPRefMismatch | ParseError | Combined.

Definition kind (f : Failure) : ErrorKind :=
  match f with
  | E_NoOCSPResponder => NoOCSPResponder
  | E_IssuerUnknown => IssuerUnknown
  | E_NonceMismatch => NonceMismatch
  | E_OCSPRefMismatch => OCSPRefMismatch
  | E_ParseFailed | E_Collab_X509 => ParseError
  | E_SignatureInvalid _ => Combined
  | E_UnsupportedCanonicalization _ | E_UnsupportedSignatureMethod _
  | E_SigPropsDigestUnsupported _ | E_NoHashMethod _
  | E_CertDigestUnsupported _ | E_Collab_Digest _ => UnsupportedAlgorithm
  | E_SigningCertUntrusted _ => CertificateUntrusted
  | E_SigPropsDigestLength | E_SigPropsDigestValue | E_DocRefsMismatch
  | E_SignatureNotValid | E_CertDigestLength | E_CertDigestValue
  | E_Collab_Container => DigestMismatch
  | E_MissingUnsignedProperties | E_UnsignedSigPropsMissing
  | E_RevocationValuesMissing | E_MissingOCSPRefDigest => MissingElement
  | E_Collab_OCSP => OCSPVerification
  | _ => InvalidStructure
  end.

Inductive exn : Type :=
| StackException (f : Failure)   (* derives from StackExceptionBase *)
| std_out_of_range.              (* thrown by std::string::substr *)

(** What the C++ standard leaves undefined and the source can reach. *)
Inductive undefined_behaviour : Type :=
| AbsentOptional      (* get(), operator-> or operator* on an absent xsd optional *)
| IndexOutOfBounds.   (* operator[] past the end of a sequence *)

Inductive outcome (A : Type) : Type :=
| Return (a : A)
| Throws (e : exn)
| Undefined (u : undefined_behaviour).
Arguments Return {A} a.
Arguments Throws {A} e.
Arguments Undefined {A} u.

Definition bind {A B : Type} (c : outcome A) (k : A -> outcome B) : outcome B :=
  match c with
  | Return a => k a
  | Throws e => Throws e
  | Undefined u => Undefined u
  end.

Definition throw {A : Type} (f : Failure) : outcome A := Throws (StackException f).

Declare Scope cxx_scope.
Delimit Scope cxx_scope with cxx.
Notation "x <- c ;; k" := (bind c (fun x => k))
  (at level 61, c at next level, right associativity) : cxx_scope.
Notation "c ;;; k" := (bind c (fun _ => k))
  (at level 61, right associativity) : cxx_scope.
Local Open Scope cxx_scope.

(** [if (cond) THROW_STACK_EXCEPTION(f);] *)
Definition throw_if (cond : bool) (f : Failure) : outcome unit :=
  if cond then throw f else Return tt.

(** A collaborator call that either yields a value or raises the given
    stack exception. *)
Definition or_throw {A : Type} (o : option A) (f : Failure) : outcome A :=
  match o with
  | Some a => Return a
  | None => throw f
  end.

(** xsd containers: [optional::present], [optional::get], [sequence::operator[]]. *)
Definition present {A : Type} (o : option A) : bool :=
  match o with Some _ => true | None => false end.

Definition opt_get {A : Type} (o : option A) : outcome A :=
  match o with
  | Some a => Return a
  | None => Undefined AbsentOptional
  end.

Definition seq_at {A : Type} (l : list A) (i : nat) : outcome A :=
  match nth_error l i with
  | Some a => Return a
  | None => Undefined IndexOutOfBounds
  end.

Definition empty {A : Type} (l : list A) : bool :=
  match l with [] => true | _ => false end.

(** ** The schema model (xml/xmldsig-core-schema.hxx, xml/XAdES.hxx) *)

Module dsig.
Record MethodType := { algorithm : string }.
Record ReferenceType := {
  uRI : option string;
  type : option string;
  digestMethod : MethodType;
  digestValue : bytes }.
Record SignedInfoType := {
  canonicalizationMethod : MethodType;
  signatureMethod : MethodType;
  reference : list ReferenceType }.
Record X509DataType := { x509Certificate : list bytes }.
Record KeyInfoType := { x509Data : list X509DataType }.
Record X509IssuerSerialType := {
  x509IssuerName : string;
  x509SerialNumber : Z }.
End dsig.

(** Types with the same shape in both XAdES name spaces. *)
Module xades.
Record DigestAlgAndValueType := {
  digestMethod : dsig.MethodType;
  digestValue : bytes }.
Record OCSPIdentifierType := { producedAt : string }.
Record OCSPRefType := {
  oCSPIdentifier : OCSPIdentifierType;
  digestAlgAndValue : option DigestAlgAndValueType }.
Record OCSPRefsType := { oCSPRef : list OCSPRefType }.
Record CompleteRevocationRefsType := { oCSPRefs : option OCSPRefsType }.
Record OCSPValuesType := { encapsulatedOCSPValue : list bytes }.
Record RevocationValuesType := { oCSPValues : option OCSPValuesType }.
Record CertIDType := {
  certDigest : DigestAlgAndValueType;
  issuerSerial : dsig.X509IssuerSerialType }.
Record CertIDListType := { cert : list CertIDType }.
Inductive SignaturePolicyIdentifierType :=
| SignaturePolicyImplied
| SignaturePolicyId (identifier : string).
Record UnsignedDataObjectPropertiesType := { unsignedDataObjectProperty : list string }.
End xades.

Module xades111.
Record UnsignedSignaturePropertiesType := {
  completeRevocationRefs : option xades.CompleteRevocationRefsType;
  revocationValues : option xades.RevocationValuesType }.
Record UnsignedPropertiesType := {
  unsignedSignatureProperties : option UnsignedSignaturePropertiesType;
  unsignedDataObjectProperties : option xades.UnsignedDataObjectPropertiesType }.
Record SignedSignaturePropertiesType := {
  signingCertificate : xades.CertIDListType;
  signaturePolicyIdentifier : xades.SignaturePolicyIdentifierType }.
Record SignedPropertiesType := {
  signedSignatureProperties : SignedSignaturePropertiesType }.
Record QualifyingPropertiesType := {
  target : string;
  signedProperties : option SignedPropertiesType;
  unsignedProperties : option UnsignedPropertiesType }.
End xades111.

Module xades132.
Record UnsignedSignaturePropertiesType := {
  completeRevocationRefs : list xades.CompleteRevocationRefsType;
  revocationValues : list xades.RevocationValuesType }.
Record UnsignedPropertiesType := {
  unsignedSignatureProperties : option UnsignedSignaturePropertiesType;
  unsignedDataObjectProperties : option xades.UnsignedDataObjectPropertiesType }.
Record SignedSignaturePropertiesType := {
  signingCertificate : option xades.CertIDListType;
  signaturePolicyIdentifier : option xades.SignaturePolicyIdentifierType }.
Record SignedPropertiesType := {
  signedSignatureProperties : SignedSignaturePropertiesType }.
Record QualifyingPropertiesType := {
  target : string;
  signedProperties : option SignedPropertiesType;
  unsignedProperties : option UnsignedPropertiesType }.
End xades132.

Record ObjectType := {
  qualifyingProperties : list xades132.QualifyingPropertiesType;
  qualifyingProperties1 : list xades111.QualifyingPropertiesType }.

Record SignatureType := {
  id : option string;
  signedInfo : dsig.SignedInfoType;
  signatureValue : bytes;
  keyInfo : option dsig.KeyInfoType;
  object : list ObjectType }.

(** ** Signature objects *)

(** The two subclasses of [bdoc::Signature]. *)
Inductive Dialect : Type := XAdES111Signature | XAdES132Signature.

Record Signature := {
  _sign : SignatureType;
  _xml : bytes;
  dialect : Dialect }.

Definition XADES111_NAMESPACE : string := "http://uri.etsi.org/01903/v1.1.1#".
Definition XADES132_NAMESPACE : string := "http://uri.etsi.org/01903/v1.3.2#".
Definition DSIG_NAMESPACE : string := "http://www.w3.org/2000/09/xmldsig#".

(** Algorithm identifiers of xsec/dsig/DSIGConstants.hpp (the W3C URIs). *)
Definition URI_ID_C14N_NOC : string := "http://www.w3.org/TR/2001/REC-xml-c14n-20010315".
Definition URI_ID_C14N_COM : string := "http://www.w3.org/TR/2001/REC-xml-c14n-20010315#WithComments".
Definition URI_ID_EXC_C14N_NOC : string := "http://www.w3.org/2001/10/xml-exc-c14n#".
Definition URI_ID_C14N11_NOC : string := "http://www.w3.org/2006/12/xml-c14n11".
Definition URI_ID_C14N11_COM : string := "http://www.w3.org/2006/12/xml-c14n11#WithComments".
Definition URI_ID_RSA_SHA1 : string := "http://www.w3.org/2000/09/xmldsig#rsa-sha1".
Definition URI_ID_RSA_SHA224 : string := "http://www.w3.org/2001/04/xmldsig-more#rsa-sha224".
Definition URI_ID_RSA_SHA256 : string := "http://www.w3.org/2001/04/xmldsig-more#rsa-sha256".

(** ** Collaborating classes *)

(** [crypto/X509Cert.h]: what the source reads from a decoded certificate. *)
Record X509Cert := {
  getIssuerName : string;
  getIssuerNameAsn1 : bytes;
  getSerial : Z;
  getSubject : string;
  encodeDER : bytes }.

(** [crypto/Digest.h]: a digest calculator; [hash] is the result of
    [update] over the whole input followed by [getDigest]. *)
Record Digest := {
  getUri : string;
  getMethod : Z;
  getSize : nat;
  hash : bytes -> bytes;
  (* getDigest returns getSize bytes *)
  hash_size : forall data, List.length (hash data) = getSize }.

(** Settings of an [XSECC14n20010315] canonicalizer. *)
Inductive C14nMode : Type :=
| Inclusive10
| Exclusive (inclusivePrefixes : list string)
| Inclusive11.

Record Canonicalizer := {
  commentsProcessing : bool;
  useNamespaceStack : bool;
  mode : C14nMode }.

Definition setCommentsProcessing (b : bool) (c : Canonicalizer) : Canonicalizer :=
  {| commentsProcessing := b; useNamespaceStack := useNamespaceStack c; mode := mode c |}.
Definition setUseNamespaceStack (b : bool) (c : Canonicalizer) : Canonicalizer :=
  {| commentsProcessing := commentsProcessing c; useNamespaceStack := b; mode := mode c |}.
Definition setExclusive (prefixes : list string) (c : Canonicalizer) : Canonicalizer :=
  {| commentsProcessing := commentsProcessing c; useNamespaceStack := useNamespaceStack c;
     mode := Exclusive prefixes |}.
Definition setInclusive11 (c : Canonicalizer) : Canonicalizer :=
  {| commentsProcessing := commentsProcessing c; useNamespaceStack := useNamespaceStack c;
     mode := Inclusive11 |}.
Definition new_canonicalizer : Canonicalizer :=
  {| commentsProcessing := false; useNamespaceStack := false; mode := Inclusive10 |}.

Record OCSPConf := {
  url : string;
  cert : string;
  skew : Z;
  maxAge : Z }.

Record OCSP := {
  ocsp_url : string;
  ocsp_skew : Z;
  ocsp_maxAge : Z;
  ocsp_certs : list X509Cert }.

(** The code outside this file that the modelled functions call.  A
    result of type [option] is [None] when the call raises a stack
    exception. *)
Record Collaborators := {
  (* crypto/Digest.h *)
  Digest_isSupported : string -> bool;
  Digest_create : string -> option Digest;
  (* crypto/X509Cert.h, crypto/X509CertStore.h *)
  X509Cert_decode : bytes -> option X509Cert;
  compareIssuerToString : X509Cert -> string -> bool;
  X509CertStore : Type;
  X509Cert_verify : X509Cert -> X509CertStore -> bool;
  verifySignature : X509Cert -> Z -> nat -> bytes -> bytes -> bool;
  loadX509Stack : string -> list X509Cert;
  getCert : X509CertStore -> bytes -> option X509Cert;
  (* Xerces-C and XML-Security-C *)
  DOMDocument : Type;
  DOMNode : Type;
  XercesDOMParser_parse : bytes -> option DOMDocument;
  getElementsByTagNameNS : DOMDocument -> string -> string -> list DOMNode;
  outputBuffer : Canonicalizer -> DOMDocument -> DOMNode -> bytes;
  XSECmapURIToHashURI : string -> option string;
  (* whether DSIGConstants.hpp defines the macro URI_ID_C14N11_NOC *)
  defined_URI_ID_C14N11_NOC : bool;
  (* the XSD binder: dsig::signature(input, flags, properties) *)
  dsig_signature : bytes -> option SignatureType;
  (* BDoc.h: ContainerInfo, as a state *)
  ContainerInfo : Type;
  documentCount : ContainerInfo -> nat;
  checkDocumentsBegin : ContainerInfo -> ContainerInfo;
  checkDocument : string -> string -> bytes -> ContainerInfo -> ContainerInfo * bool;
  checkDocumentsResult : ContainerInfo -> bool;
  (* OCSP *)
  OCSP_verifyResponse : OCSP -> bytes -> bool;
  OCSP_getNonce : OCSP -> bytes -> option bytes }.

Record Configuration (W : Collaborators) := {
  getDigestURI : string;
  hasOCSPConf : string -> bool;
  getOCSPConf : string -> OCSPConf;
  getCertStore : X509CertStore W }.
Arguments getDigestURI {W} _.
Arguments hasOCSPConf {W} _ _.
Arguments getOCSPConf {W} _ _.
Arguments getCertStore {W} _.

Record SignatureValidator (W : Collaborators) := {
  _sig : Signature;
  _conf : Configuration W;
  _signingCert : option X509Cert;
  _ocspCerts : option (list X509Cert);
  _issuerX509 : option X509Cert;
  _ocspResponse : bytes }.
Arguments _sig {W} _.
Arguments _conf {W} _.
Arguments _signingCert {W} _.
Arguments _ocspCerts {W} _.
Arguments _issuerX509 {W} _.
Arguments _ocspResponse {W} _.

(** ** class Signature *)

Section SignatureModel.
Context (W : Collaborators).
Import CxxString.

Definition size_is_1 {A : Type} (l : list A) : bool := (List.length l =? 1)%nat.

(** Signature::parse *)
Definition parse (xml_buf : bytes) : outcome Signature :=
  sig <- or_throw (dsig_signature W xml_buf) E_ParseFailed ;;
  let os := object sig in
  (if empty os then throw E_ObjectMissing
   else if negb (size_is_1 os) then throw E_MultipleObjects
   else Return tt) ;;;
  o <- seq_at os 0 ;;
  let qpSeq := qualifyingProperties o in
  let qp1Seq := qualifyingProperties1 o in
  throw_if (empty qpSeq && empty qp1Seq) E_QualifyingPropertiesMissing ;;;
  if empty qpSeq && negb (empty qp1Seq) then
    throw_if (negb (size_is_1 qp1Seq)) E_MultipleQualifyingProperties ;;;
    Return {| _sign := sig; _xml := xml_buf; dialect := XAdES111Signature |}
  else if negb (empty qpSeq) && empty qp1Seq then
    throw_if (negb (size_is_1 qpSeq)) E_MultipleQualifyingProperties ;;;
    Return {| _sign := sig; _xml := xml_buf; dialect := XAdES132Signature |}
  else throw E_MultipleQualifyingProperties.

(** Signature::getSignatureValue *)
Definition getSignatureValue (s : Signature) : bytes :=
  signatureValue (_sign s).

(** Signature::createDom *)
Definition createDom (s : Signature) : outcome (DOMDocument W) :=
  or_throw (XercesDOMParser_parse W (_xml s)) E_ParseFailed.

(** The processing flags chosen by [calcDigestOnNode] for the
    canonicalization method of SignedInfo (the [if] chain on
    [algorithmType]); the two C14N 1.1 branches are compiled only
    under [#ifdef URI_ID_C14N11_NOC]. *)
Definition setProcessingFlags (algorithmType : string) (canonicalizer : Canonicalizer)
  : outcome Canonicalizer :=
  if algorithmType =? URI_ID_C14N_NOC then Return canonicalizer
  else if algorithmType =? URI_ID_C14N_COM then
    Return (setCommentsProcessing true canonicalizer)
  else if algorithmType =? URI_ID_EXC_C14N_NOC then
    Return (setExclusive ["ds"] canonicalizer)
  else if defined_URI_ID_C14N11_NOC W && (algorithmType =? URI_ID_C14N11_NOC) then
    Return (setInclusive11 canonicalizer)
  else if defined_URI_ID_C14N11_NOC W && (algorithmType =? URI_ID_C14N11_COM) then
    Return (setCommentsProcessing true (setInclusive11 canonicalizer))
  else throw (E_UnsupportedCanonicalization algorithmType).

(** Signature::calcDigestOnNode *)
Definition calcDigestOnNode (s : Signature) (calc : Digest) (ns tagName : string)
  : outcome bytes :=
  dom <- createDom s ;;
  let nodeList := getElementsByTagNameNS W dom ns tagName in
  throw_if (List.length nodeList <? 1)%nat (E_NodeNotFound tagName ns) ;;;
  throw_if (1 <? List.length nodeList)%nat
           (E_NodeNotUnique (List.length nodeList) tagName ns) ;;;
  node <- seq_at nodeList 0 ;;
  let canonicalizer :=
    setUseNamespaceStack true (setCommentsProcessing false new_canonicalizer) in
  let algorithmType :=
    dsig.algorithm (dsig.canonicalizationMethod (signedInfo (_sign s))) in
  canonicalizer' <- setProcessingFlags algorithmType canonicalizer ;;
  Return (hash calc (outputBuffer W canonicalizer' dom node)).

(** Signature::getSigningX509CertificateType *)
Definition getSigningX509CertificateType (s : Signature) : outcome bytes :=
  let keyInfoOptional := keyInfo (_sign s) in
  throw_if (negb (present keyInfoOptional)) E_NoSignerCertificate ;;;
  keyInfo <- opt_get keyInfoOptional ;;
  let x509DataSeq := dsig.x509Data keyInfo in
  (if empty x509DataSeq then throw E_NoSignerCertificate
   else if negb (size_is_1 x509DataSeq) then throw E_MultipleSignerCertificates
   else Return tt) ;;;
  x509Data <- seq_at x509DataSeq 0 ;;
  let x509CertSeq := dsig.x509Certificate x509Data in
  (if empty x509CertSeq then throw E_NoSignerCertificate
   else if negb (size_is_1 x509CertSeq) then throw E_MultipleSignerCertificates
   else Return tt) ;;;
  seq_at x509CertSeq 0.

(** Signature::getSigningCertificate *)
Definition getSigningCertificate (s : Signature) : outcome X509Cert :=
  certBlock <- getSigningX509CertificateType s ;;
  or_throw (X509Cert_decode W certBlock) E_Collab_X509.

(** Signature::validateIdentifier *)
Definition validateIdentifier (s : Signature) : outcome unit :=
  let idOptional := id (_sign s) in
  throw_if (negb (present idOptional)) E_IdMissing ;;;
  i <- opt_get idOptional ;;
  throw_if (i =? "") E_IdEmpty.

(** Signature::getSignatureMethodAlgorithmType *)
Definition getSignatureMethodAlgorithmType (s : Signature) : string :=
  dsig.algorithm (dsig.signatureMethod (signedInfo (_sign s))).

(** Signature::checkSignatureMethod *)
Definition checkSignatureMethod (s : Signature) : outcome unit :=
  let algorithmType := getSignatureMethodAlgorithmType s in
  throw_if (negb (algorithmType =? URI_ID_RSA_SHA1)
            && negb (algorithmType =? URI_ID_RSA_SHA224)
            && negb (algorithmType =? URI_ID_RSA_SHA256))
           (E_UnsupportedSignatureMethod algorithmType).

(** Signature::isReferenceToSigProps *)
Definition isReferenceToSigProps (refType : dsig.ReferenceType) : bool :=
  match dsig.type refType with
  | Some typeAttr =>
      (find typeAttr "http://uri.etsi.org/01903" 0 =? 0)%Z
      && (rfind typeAttr "#SignedProperties"
          =? size_t (size typeAttr - size "#SignedProperties"))%Z
  | None => false
  end.

Definition xadesnamespace (s : Signature) : string :=
  match dialect s with
  | XAdES111Signature => XADES111_NAMESPACE
  | XAdES132Signature => XADES132_NAMESPACE
  end.

(** [for (i = 0; i < n; i++) if (a[i] != b[i]) THROW_STACK_EXCEPTION(f);] *)
Fixpoint compare_digests (n : nat) (a b : bytes) (f : Failure) : outcome unit :=
  match n with
  | 0 => Return tt
  | S n' =>
      match a, b with
      | x :: a', y :: b' =>
          if Byte.eqb x y then compare_digests n' a' b' f else throw f
      | _, _ => Undefined IndexOutOfBounds
      end
  end.

(** Signature::checkReferenceToSigProps *)
Definition checkReferenceToSigProps (s : Signature) (refType : dsig.ReferenceType)
  : outcome unit :=
  throw_if (negb (present (dsig.uRI refType))) E_SigPropsRefNoURI ;;;
  let algorithm := dsig.algorithm (dsig.digestMethod refType) in
  throw_if (negb (Digest_isSupported W algorithm))
           (E_SigPropsDigestUnsupported algorithm) ;;;
  let digestValue := dsig.digestValue refType in
  calc <- or_throw (Digest_create W algorithm) (E_Collab_Digest algorithm) ;;
  calculatedDigestValue <- calcDigestOnNode s calc (xadesnamespace s) "SignedProperties" ;;
  throw_if (negb (List.length calculatedDigestValue =? List.length digestValue)%nat)
           E_SigPropsDigestLength ;;;
  compare_digests (List.length calculatedDigestValue) digestValue calculatedDigestValue
                  E_SigPropsDigestValue.

(** The loop of Signature::checkReferences over [refSeq]; the flag is
    [gotSignatureRef]. *)
Fixpoint checkReferences_loop (s : Signature) (refSeq : list dsig.ReferenceType)
         (gotSignatureRef : bool) : outcome bool :=
  match refSeq with
  | [] => Return gotSignatureRef
  | refType :: rest =>
      if isReferenceToSigProps refType then
        throw_if gotSignatureRef E_MultipleSigPropsRefs ;;;
        checkReferenceToSigProps s refType ;;;
        checkReferences_loop s rest true
      else checkReferences_loop s rest gotSignatureRef
  end.

(** [docRefUri.erase(0, 1)] when the URI starts with a slash *)
Definition strip_slash (docRefUri : string) : string :=
  match docRefUri with
  | String "/" rest => rest
  | _ => docRefUri
  end.

(** The loop of Signature::checkReferencesToDocs. *)
Fixpoint checkReferencesToDocs_loop (refSeq : list dsig.ReferenceType)
         (ci : ContainerInfo W) : outcome unit * ContainerInfo W :=
  match refSeq with
  | [] => (Return tt, ci)
  | refType :: rest =>
      if negb (isReferenceToSigProps refType) then
        match dsig.uRI refType with
        | None => (throw E_DocRefNoURI, ci)
        | Some uri =>
            let docRefUri := strip_slash uri in
            let '(ci', ok) :=
              checkDocument W docRefUri (dsig.algorithm (dsig.digestMethod refType))
                            (dsig.digestValue refType) ci in
            if ok then checkReferencesToDocs_loop rest ci'
            else (throw E_Collab_Container, ci')
        end
      else checkReferencesToDocs_loop rest ci
  end.

(** Signature::checkReferencesToDocs *)
Definition checkReferencesToDocs (refSeq : list dsig.ReferenceType)
           (ci : ContainerInfo W) : outcome unit * ContainerInfo W :=
  match checkReferencesToDocs_loop refSeq (checkDocumentsBegin W ci) with
  | (Return _, ci') =>
      (throw_if (negb (checkDocumentsResult W ci')) E_DocRefsMismatch, ci')
  | r => r
  end.

(** Signature::checkReferences *)
Definition checkReferences (s : Signature) (ci : ContainerInfo W)
  : outcome unit * ContainerInfo W :=
  let refSeq := dsig.reference (signedInfo (_sign s)) in
  if negb (List.length refSeq =? documentCount W ci + 1)%nat then
    (throw (E_ReferenceCount (Z.of_nat (List.length refSeq))
                             (Z.of_nat (documentCount W ci + 1))), ci)
  else
    match checkReferences_loop s refSeq false with
    | Return gotSignatureRef =>
        if negb gotSignatureRef then (throw E_NoSigPropsRef, ci)
        else checkReferencesToDocs refSeq ci
    | Throws e => (Throws e, ci)
    | Undefined u => (Undefined u, ci)
    end.

(** Signature::checkSigningCertificate; [None] is the NULL store. *)
Definition checkSigningCertificate (s : Signature) (store : option (X509CertStore W))
  : outcome unit :=
  signingCert <- getSigningCertificate s ;;
  match store with
  | None => throw (E_SigningCertUntrusted (getSubject signingCert))
  | Some st =>
      throw_if (negb (X509Cert_verify W signingCert st))
               (E_SigningCertUntrusted (getSubject signingCert))
  end.

(** Signature::checkSignatureValue *)
Definition checkSignatureValue (s : Signature) : outcome unit :=
  cert <- getSigningCertificate s ;;
  let algorithmUri := getSignatureMethodAlgorithmType s in
  hashMethodUri <- or_throw (XSECmapURIToHashURI W algorithmUri)
                            (E_NoHashMethod algorithmUri) ;;
  calc <- or_throw (Digest_create W hashMethodUri) (E_Collab_Digest hashMethodUri) ;;
  digest <- calcDigestOnNode s calc DSIG_NAMESPACE "SignedInfo" ;;
  let signatureValue := getSignatureValue s in
  throw_if (negb (verifySignature W cert (getMethod calc) (getSize calc)
                                  digest signatureValue))
           E_SignatureNotValid.

End SignatureModel.

(** ** class XAdES111Signature *)

Module XAdES111.
Section Variant.
Context (W : Collaborators).

Definition qualifyingProperties1_0 (s : Signature) : outcome xades111.QualifyingPropertiesType :=
  o <- seq_at (object (_sign s)) 0 ;;
  seq_at (qualifyingProperties1 o) 0.

(** XAdES111Signature::unsignSigProps *)
Definition unsignSigProps (s : Signature)
  : outcome (option xades111.UnsignedSignaturePropertiesType) :=
  qp <- qualifyingProperties1_0 s ;;
  throw_if (negb (present (xades111.unsignedProperties qp))) E_MissingUnsignedProperties ;;;
  qp' <- qualifyingProperties1_0 s ;;
  up <- opt_get (xades111.unsignedProperties qp') ;;
  Return (xades111.unsignedSignatureProperties up).

(** XAdES111Signature::getOCSPResponseValue *)
Definition getOCSPResponseValue (s : Signature) : outcome bytes :=
  usp <- unsignSigProps s ;;
  throw_if (negb (present usp)) E_UnsignedSigPropsMissing ;;;
  usp1 <- unsignSigProps s ;;
  u1 <- opt_get usp1 ;;
  throw_if (negb (present (xades111.revocationValues u1))) E_RevocationValuesMissing ;;;
  usp2 <- unsignSigProps s ;;
  u2 <- opt_get usp2 ;;
  t <- opt_get (xades111.revocationValues u2) ;;
  tt <- opt_get (xades.oCSPValues t) ;;
  seq_at (xades.encapsulatedOCSPValue tt) 0.

(** XAdES111Signature::ocspDigestAlgorithm *)
Definition ocspDigestAlgorithm (s : Signature) : outcome string :=
  usp <- unsignSigProps s ;;
  u <- opt_get usp ;;
  crr <- opt_get (xades111.completeRevocationRefs u) ;;
  refs <- opt_get (xades.oCSPRefs crr) ;;
  ref <- seq_at (xades.oCSPRef refs) 0 ;;
  dav <- opt_get (xades.digestAlgAndValue ref) ;;
  Return (dsig.algorithm (xades.digestMethod dav)).

(** XAdES111Signature::getRevocationOCSPRef *)
Definition getRevocationOCSPRef (s : Signature) : outcome (bytes * string) :=
  usp <- unsignSigProps s ;;
  u <- opt_get usp ;;
  let crrSeq := xades111.completeRevocationRefs u in
  match crrSeq with
  | Some crr =>
      match xades.oCSPRefs crr with
      | Some ocspRefs =>
          match xades.oCSPRef ocspRefs with
          | ref0 :: _ =>
              match xades.digestAlgAndValue ref0 with
              | Some digestOpt =>
                  Return (xades.digestValue digestOpt,
                          dsig.algorithm (xades.digestMethod digestOpt))
              | None => throw E_MissingOCSPRefDigest
              end
          | [] => throw E_MissingOCSPRefDigest
          end
      | None => throw E_MissingOCSPRefDigest
      end
  | None => throw E_MissingOCSPRefDigest
  end.

(** XAdES111Signature::checkKeyInfo *)
Definition checkKeyInfo (s : Signature) : outcome unit :=
  x509 <- getSigningCertificate W s ;;
  let objs := object (_sign s) in
  throw_if (negb (size_is_1 objs)) (E_ObjectCount (List.length objs)) ;;;
  o <- seq_at objs 0 ;;
  let qProps := qualifyingProperties1 o in
  throw_if (negb (size_is_1 qProps)) (E_QualifyingPropertiesCount (List.length qProps)) ;;;
  qp <- seq_at qProps 0 ;;
  let sigProps := xades111.signedProperties qp in
  throw_if (negb (present sigProps)) E_SignedPropertiesNotFound ;;;
  sp <- opt_get sigProps ;;
  let certs :=
    xades.cert (xades111.signingCertificate (xades111.signedSignatureProperties sp)) in
  throw_if (negb (size_is_1 certs)) (E_SigningCertificateCount (List.length certs)) ;;;
  c <- seq_at certs 0 ;;
  let certDigestMethodAlgorithm :=
    dsig.algorithm (xades.digestMethod (xades.certDigest c)) in
  throw_if (negb (Digest_isSupported W certDigestMethodAlgorithm))
           (E_CertDigestUnsupported certDigestMethodAlgorithm) ;;;
  let certIssuerName := dsig.x509IssuerName (xades.issuerSerial c) in
  let certSerialNumber := dsig.x509SerialNumber (xades.issuerSerial c) in
  throw_if (compareIssuerToString W x509 certIssuerName
            || negb (getSerial x509 =? certSerialNumber)%Z)
           E_IssuerInfoInvalid ;;;
  let certDigestValue := xades.digestValue (xades.certDigest c) in
  certDigestCalc <- or_throw (Digest_create W certDigestMethodAlgorithm)
                             (E_Collab_Digest certDigestMethodAlgorithm) ;;
  let calcDigest := hash certDigestCalc (encodeDER x509) in
  throw_if (negb (List.length certDigestValue =? getSize certDigestCalc)%nat)
           E_CertDigestLength ;;;
  compare_digests (getSize certDigestCalc) calcDigest certDigestValue E_CertDigestValue.

(** XAdES111Signature::checkSignedSignatureProperties *)
Definition checkSignedSignatureProperties (s : Signature) : outcome unit :=
  let os := object (_sign s) in
  (if empty os then throw E_ObjectMissing
   else if negb (size_is_1 os) then throw E_MultipleObjects
   else Return tt) ;;;
  o <- seq_at os 0 ;;
  let qpSeq := qualifyingProperties1 o in
  (if empty qpSeq then throw E_QualifyingPropertiesMissing
   else if negb (size_is_1 qpSeq) then throw E_MultipleQualifyingProperties
   else Return tt) ;;;
  qp <- seq_at qpSeq 0 ;;
  let signedPropsOptional := xades111.signedProperties qp in
  throw_if (negb (present signedPropsOptional)) E_SignedPropertiesMissing ;;;
  signedProps <- opt_get (xades111.signedProperties qp) ;;
  let signedSigProps := xades111.signedSignatureProperties signedProps in
  let policyOpt := xades111.signaturePolicyIdentifier signedSigProps in
  Return tt.

(** XAdES111Signature::checkQualifyingProperties *)
Definition checkQualifyingProperties (s : Signature) : outcome unit :=
  o <- seq_at (object (_sign s)) 0 ;;
  let qProps := qualifyingProperties1 o in
  throw_if (negb (size_is_1 qProps)) (E_QualifyingPropertiesCount (List.length qProps)) ;;;
  qp <- seq_at qProps 0 ;;
  i <- opt_get (id (_sign s)) ;;
  throw_if (negb (xades111.target qp =? "#" ++ i)) E_TargetNotSignature ;;;
  checkSignedSignatureProperties s ;;;
  qp' <- seq_at qProps 0 ;;
  if present (xades111.unsignedProperties qp') then
    uProps <- opt_get (xades111.unsignedProperties qp') ;;
    throw_if (present (xades111.unsignedDataObjectProperties uProps))
             E_UnexpectedUnsignedDataObjectProperties
  else Return tt.

End Variant.
End XAdES111.

(** ** class XAdES132Signature *)

Module XAdES132.
Section Variant.
Context (W : Collaborators).

Definition qualifyingProperties_0 (s : Signature) : outcome xades132.QualifyingPropertiesType :=
  o <- seq_at (object (_sign s)) 0 ;;
  seq_at (qualifyingProperties o) 0.

(** XAdES132Signature::unsignSigProps *)
Definition unsignSigProps (s : Signature)
  : outcome (option xades132.UnsignedSignaturePropertiesType) :=
  qp <- qualifyingProperties_0 s ;;
  throw_if (negb (present (xades132.unsignedProperties qp))) E_MissingUnsignedProperties ;;;
  qp' <- qualifyingProperties_0 s ;;
  up <- opt_get (xades132.unsignedProperties qp') ;;
  Return (xades132.unsignedSignatureProperties up).

(** XAdES132Signature::getOCSPResponseValue *)
Definition getOCSPResponseValue (s : Signature) : outcome bytes :=
  usp <- unsignSigProps s ;;
  throw_if (negb (present usp)) E_UnsignedSigPropsMissing ;;;
  usp1 <- unsignSigProps s ;;
  u1 <- opt_get usp1 ;;
  throw_if (empty (xades132.revocationValues u1)) E_RevocationValuesMissing ;;;
  usp2 <- unsignSigProps s ;;
  u2 <- opt_get usp2 ;;
  t <- seq_at (xades132.revocationValues u2) 0 ;;
  tt <- opt_get (xades.oCSPValues t) ;;
  seq_at (xades.encapsulatedOCSPValue tt) 0.

(** XAdES132Signature::ocspDigestAlgorithm *)
Definition ocspDigestAlgorithm (s : Signature) : outcome string :=
  usp <- unsignSigProps s ;;
  u <- opt_get usp ;;
  crr <- seq_at (xades132.completeRevocationRefs u) 0 ;;
  refs <- opt_get (xades.oCSPRefs crr) ;;
  ref <- seq_at (xades.oCSPRef refs) 0 ;;
  dav <- opt_get (xades.digestAlgAndValue ref) ;;
  Return (dsig.algorithm (xades.digestMethod dav)).

(** XAdES132Signature::getRevocationOCSPRef *)
Definition getRevocationOCSPRef (s : Signature) : outcome (bytes * string) :=
  usp <- unsignSigProps s ;;
  u <- opt_get usp ;;
  let crrSeq := xades132.completeRevocationRefs u in
  match crrSeq with
  | crr :: _ =>
      match xades.oCSPRefs crr with
      | Some ocspRefs =>
          match xades.oCSPRef ocspRefs with
          | ref0 :: _ =>
              match xades.digestAlgAndValue ref0 with
              | Some digestOpt =>
                  Return (xades.digestValue digestOpt,
                          dsig.algorithm (xades.digestMethod digestOpt))
              | None => throw E_MissingOCSPRefDigest
              end
          | [] => throw E_MissingOCSPRefDigest
          end
      | None => throw E_MissingOCSPRefDigest
      end
  | [] => throw E_MissingOCSPRefDigest
  end.

(** XAdES132Signature::checkKeyInfo *)
Definition checkKeyInfo (s : Signature) : outcome unit :=
  x509 <- getSigningCertificate W s ;;
  let objs := object (_sign s) in
  throw_if (negb (size_is_1 objs)) (E_ObjectCount (List.length objs)) ;;;
  o <- seq_at objs 0 ;;
  let qProps := qualifyingProperties o in
  throw_if (negb (size_is_1 qProps)) (E_QualifyingPropertiesCount (List.length qProps)) ;;;
  qp <- seq_at qProps 0 ;;
  let sigProps := xades132.signedProperties qp in
  throw_if (negb (present sigProps)) E_SignedPropertiesNotFound ;;;
  sp <- opt_get sigProps ;;
  let sigCertOpt := xades132.signingCertificate (xades132.signedSignatureProperties sp) in
  throw_if (negb (present sigCertOpt)) E_SigningCertificateNotFound ;;;
  sigCert <- opt_get sigCertOpt ;;
  let certs := xades.cert sigCert in
  throw_if (negb (size_is_1 certs)) (E_SigningCertificateCount (List.length certs)) ;;;
  c <- seq_at certs 0 ;;
  let certDigestMethodAlgorithm :=
    dsig.algorithm (xades.digestMethod (xades.certDigest c)) in
  throw_if (negb (Digest_isSupported W certDigestMethodAlgorithm))
           (E_CertDigestUnsupported certDigestMethodAlgorithm) ;;;
  let certIssuerName := dsig.x509IssuerName (xades.issuerSerial c) in
  let certSerialNumber := dsig.x509SerialNumber (xades.issuerSerial c) in
  throw_if (compareIssuerToString W x509 certIssuerName
            || negb (getSerial x509 =? certSerialNumber)%Z)
           E_IssuerInfoInvalid ;;;
  let certDigestValue := xades.digestValue (xades.certDigest c) in
  certDigestCalc <- or_throw (Digest_create W certDigestMethodAlgorithm)
                             (E_Collab_Digest certDigestMethodAlgorithm) ;;
  let calcDigest := hash certDigestCalc (encodeDER x509) in
  throw_if (negb (List.length certDigestValue =? getSize certDigestCalc)%nat)
           E_CertDigestLength ;;;
  compare_digests (getSize certDigestCalc) calcDigest certDigestValue E_CertDigestValue.

(** XAdES132Signature::checkSignedSignatureProperties *)
Definition checkSignedSignatureProperties (s : Signature) : outcome unit :=
  let os := object (_sign s) in
  (if empty os then throw E_ObjectMissing
   else if negb (size_is_1 os) then throw E_MultipleObjects
   else Return tt) ;;;
  o <- seq_at os 0 ;;
  let qpSeq := qualifyingProperties o in
  (if empty qpSeq then throw E_QualifyingPropertiesMissing
   else if negb (size_is_1 qpSeq) then throw E_MultipleQualifyingProperties
   else Return tt) ;;;
  qp <- seq_at qpSeq 0 ;;
  let signedPropsOptional := xades132.signedProperties qp in
  throw_if (negb (present signedPropsOptional)) E_SignedPropertiesMissing ;;;
  signedProps <- opt_get (xades132.signedProperties qp) ;;
  let signedSigProps := xades132.signedSignatureProperties signedProps in
  let policyOpt := xades132.signaturePolicyIdentifier signedSigProps in
  throw_if (present policyOpt) E_SignaturePolicyInvalid.

(** XAdES132Signature::checkQualifyingProperties *)
Definition checkQualifyingProperties (s : Signature) : outcome unit :=
  o <- seq_at (object (_sign s)) 0 ;;
  let qProps := qualifyingProperties o in
  throw_if (negb (size_is_1 qProps)) (E_QualifyingPropertiesCount (List.length qProps)) ;;;
  qp <- seq_at qProps 0 ;;
  i <- opt_get (id (_sign s)) ;;
  throw_if (negb (xades132.target qp =? "#" ++ i)) E_TargetNotSignature ;;;
  checkSignedSignatureProperties s ;;;
  qp' <- seq_at qProps 0 ;;
  if present (xades132.unsignedProperties qp') then
    uProps <- opt_get (xades132.unsignedProperties qp') ;;
    throw_if (present (xades132.unsignedDataObjectProperties uProps))
             E_UnexpectedUnsignedDataObjectProperties
  else Return tt.

End Variant.
End XAdES132.

(** ** Virtual calls and offline validation *)

Section Validation.
Context (W : Collaborators).

Definition checkQualifyingProperties (s : Signature) : outcome unit :=
  match dialect s with
  | XAdES111Signature => XAdES111.checkQualifyingProperties s
  | XAdES132Signature => XAdES132.checkQualifyingProperties s
  end.

Definition checkKeyInfo (s : Signature) : outcome unit :=
  match dialect s with
  | XAdES111Signature => XAdES111.checkKeyInfo W s
  | XAdES132Signature => XAdES132.checkKeyInfo W s
  end.

Definition getOCSPResponseValue (s : Signature) : outcome bytes :=
  match dialect s with
  | XAdES111Signature => XAdES111.getOCSPResponseValue s
  | XAdES132Signature => XAdES132.getOCSPResponseValue s
  end.

Definition ocspDigestAlgorithm (s : Signature) : outcome string :=
  match dialect s with
  | XAdES111Signature => XAdES111.ocspDigestAlgorithm s
  | XAdES132Signature => XAdES132.ocspDigestAlgorithm s
  end.

Definition getRevocationOCSPRef (s : Signature) : outcome (bytes * string) :=
  match dialect s with
  | XAdES111Signature => XAdES111.getRevocationOCSPRef s
  | XAdES132Signature => XAdES132.getRevocationOCSPRef s
  end.

(** The second [try] block of validateOffline. *)
Definition checkIntegrity (s : Signature) (ci : ContainerInfo W)
  : outcome unit * ContainerInfo W :=
  match checkSignatureMethod s with
  | Return _ =>
      match checkReferences W s ci with
      | (Return _, ci') =>
          (checkKeyInfo s ;;; checkSignatureValue W s, ci')
      | r => r
      end
  | r => (r, ci)
  end.

(** [try { body } catch (StackExceptionBase& e) { exc.add(e); }]:
    the causes of [exc] after the block, unless something other than
    a stack exception leaves it. *)
Definition try_add (body : outcome unit) (exc : list Failure) : outcome (list Failure) :=
  match body with
  | Return _ => Return exc
  | Throws (StackException e) => Return (exc ++ [e])%list
  | Throws e => Throws e
  | Undefined u => Undefined u
  end.

Definition hasCauses (exc : list Failure) : bool := negb (empty exc).

(** Signature::validateOffline *)
Definition validateOffline (s : Signature) (store : option (X509CertStore W))
           (ci : ContainerInfo W) : outcome unit * ContainerInfo W :=
  match try_add (checkQualifyingProperties s) [] with
  | Return exc1 =>
      let '(integrity, ci') := checkIntegrity s ci in
      match try_add integrity exc1 with
      | Return exc2 =>
          match try_add (checkSigningCertificate W s store) exc2 with
          | Return exc3 =>
              (if hasCauses exc3 then throw (E_SignatureInvalid exc3) else Return tt, ci')
          | Throws e => (Throws e, ci')
          | Undefined u => (Undefined u, ci')
          end
      | Throws e => (Throws e, ci')
      | Undefined u => (Undefined u, ci')
      end
  | Throws e => (Throws e, ci)
  | Undefined u => (Undefined u, ci)
  end.

End Validation.

(** ** class SignatureValidator *)

Section Validator.
Context (W : Collaborators).
Import CxxString.

(** [issuer.substr(pos, n)], which throws when [pos > issuer.size()] *)
Definition substr (s : string) (pos n : Z) : outcome string :=
  if (size s <? pos)%Z then Throws std_out_of_range
  else Return (substr_in_range s pos n).

(** The issuer common name as [prepare] computes it:
    [int pos = issuer.find("CN=", 0) + 3;
     issuer.substr(pos, issuer.find(",", pos) - pos)]. *)
Definition issure_cn (issuer : string) : outcome string :=
  let pos : Z := to_int (size_t (find issuer "CN=" 0 + 3)) in
  substr issuer (size_t pos) (size_t (find issuer "," (size_t pos) - size_t pos)).

(** SignatureValidator::prepare *)
Definition prepare (v : SignatureValidator W) : outcome (OCSP * SignatureValidator W) :=
  signingCert <- getSigningCertificate W (_sig v) ;;
  let issuer := getIssuerName signingCert in
  cn <- issure_cn issuer ;;
  throw_if (negb (hasOCSPConf (_conf v) cn)) E_NoOCSPResponder ;;;
  let ocspConf := getOCSPConf (_conf v) cn in
  let issuerX509 := getCert W (getCertStore (_conf v)) (getIssuerNameAsn1 signingCert) in
  throw_if (negb (present issuerX509)) E_IssuerUnknown ;;;
  let ocspCerts := loadX509Stack W (cert ocspConf) in
  Return ({| ocsp_url := url ocspConf;
             ocsp_skew := skew ocspConf;
             ocsp_maxAge := maxAge ocspConf;
             ocsp_certs := ocspCerts |},
          {| _sig := _sig v;
             _conf := _conf v;
             _signingCert := Some signingCert;
             _ocspCerts := Some ocspCerts;
             _issuerX509 := issuerX509;
             _ocspResponse := _ocspResponse v |}).

Definition set_ocspResponse (v : SignatureValidator W) (resp : bytes) : SignatureValidator W :=
  {| _sig := _sig v; _conf := _conf v; _signingCert := _signingCert v;
     _ocspCerts := _ocspCerts v; _issuerX509 := _issuerX509 v;
     _ocspResponse := resp |}.

(** SignatureValidator::validateTMOffline *)
Definition validateTMOffline (v : SignatureValidator W) : outcome (SignatureValidator W) :=
  p <- prepare v ;;
  let '(ocsp, v1) := p in
  resp <- getOCSPResponseValue (_sig v1) ;;
  let v2 := set_ocspResponse v1 resp in
  throw_if (negb (OCSP_verifyResponse W ocsp (_ocspResponse v2))) E_Collab_OCSP ;;;
  respNonce <- or_throw (OCSP_getNonce W ocsp (_ocspResponse v2)) E_Collab_OCSP ;;
  method <- ocspDigestAlgorithm (_sig v2) ;;
  calc <- or_throw (Digest_create W method) (E_Collab_Digest method) ;;
  let nonce := hash calc (getSignatureValue (_sig v2)) in
  throw_if (if bytes_eq_dec nonce respNonce then false else true) E_NonceMismatch ;;;
  r <- getRevocationOCSPRef (_sig v2) ;;
  let '(revocationOCSPRefValue, ocspResponseHashUri) := r in
  ocspResponseCalc <- or_throw (Digest_create W ocspResponseHashUri)
                               (E_Collab_Digest ocspResponseHashUri) ;;
  let ocspResponseHash := hash ocspResponseCalc (_ocspResponse v2) in
  throw_if (if bytes_eq_dec ocspResponseHash revocationOCSPRefValue then false else true)
           E_OCSPRefMismatch ;;;
  Return v2.

End Validator.

(** ** The predicates the specification uses *)

(** A reference whose Type attribute is present, starts with the ETSI
    prefix and ends with [#SignedProperties]. *)
Definition refersToSignedProperties (r : dsig.ReferenceType) : Prop :=
  exists t, dsig.type r = Some t
            /\ CxxString.starts_with "http://uri.etsi.org/01903" t
            /\ CxxString.ends_with "#SignedProperties" t.

Definition refersToSignedPropertiesb (r : dsig.ReferenceType) : bool :=
  match dsig.type r with
  | Some t => prefix "http://uri.etsi.org/01903" t
              && CxxString.suffixb "#SignedProperties" t
  | None => false
  end.

(** Attribute values are C++ strings: their size is a [size_t]. *)
Definition fits_size_t (r : dsig.ReferenceType) : Prop :=
  forall t, dsig.type r = Some t -> (CxxString.size t < 2 ^ 64)%Z.

(** The stack exceptions a [try] block of validateOffline hands to [exc.add]. *)
Definition failures {A : Type} (o : outcome A) : list Failure :=
  match o with
  | Throws (StackException f) => [f]
  | _ => []
  end.

(** A call that ends by returning or by raising a stack exception: no
    undefined behaviour and no foreign exception. *)
Definition stack_only {A : Type} (o : outcome A) : Prop :=
  match o with
  | Return _ => True
  | Throws (StackException _) => True
  | Throws std_out_of_range => False
  | Undefined _ => False
  end.

Definition count_sigprops_refs (refSeq : list dsig.ReferenceType) : nat :=
  List.length (filter refersToSignedPropertiesb refSeq).

(** The SignedSignatureProperties element that the v1.3.2 checks read. *)
Definition signedSignatureProperties132 (s : Signature)
  : option xades132.SignedSignaturePropertiesType :=
  match object (_sign s) with
  | o :: _ =>
      match qualifyingProperties o with
      | qp :: _ =>
          option_map xades132.signedSignatureProperties (xades132.signedProperties qp)
      | [] => None
      end
  | [] => None
  end.

Definition hasSignaturePolicyIdentifier132 (s : Signature) : Prop :=
  exists ssp policy,
    signedSignatureProperties132 s = Some ssp
    /\ xades132.signaturePolicyIdentifier ssp = Some policy.

(** The same v1.1.1 signature with another SignaturePolicyIdentifier
    in every SignedSignatureProperties element. *)
Definition with_policy_qp111 (p : xades.SignaturePolicyIdentifierType)
           (qp : xades111.QualifyingPropertiesType) : xades111.QualifyingPropertiesType :=
  {| xades111.target := xades111.target qp;
     xades111.signedProperties :=
       option_map
         (fun sp =>
            {| xades111.signedSignatureProperties :=
                 {| xades111.signingCertificate :=
                      xades111.signingCertificate (xades111.signedSignatureProperties sp);
                    xades111.signaturePolicyIdentifier := p |} |})
         (xades111.signedProperties qp);
     xades111.unsignedProperties := xades111.unsignedProperties qp |}.

Definition with_policy_object111 (p : xades.SignaturePolicyIdentifierType)
           (o : ObjectType) : ObjectType :=
  {| qualifyingProperties := qualifyingProperties o;
     qualifyingProperties1 := map (with_policy_qp111 p) (qualifyingProperties1 o) |}.

Definition with_SignaturePolicyIdentifier111 (p : xades.SignaturePolicyIdentifierType)
           (s : Signature) : Signature :=
  {| _sign := {| id := id (_sign s);
                 signedInfo := signedInfo (_sign s);
                 signatureValue := signatureValue (_sign s);
                 keyInfo := keyInfo (_sign s);
                 object := map (with_policy_object111 p) (object (_sign s)) |};
     _xml := _xml s;
     dialect := dialect s |}.

(** CompleteRevocationRefs/OCSPRefs/OCSPRef[0]/DigestAlgAndValue of a
    time-marked signature, when every element on the path is there. *)
Definition first_OCSPRef_digest (crr : xades.CompleteRevocationRefsType)
  : option xades.DigestAlgAndValueType :=
  match xades.oCSPRefs crr with
  | Some refs =>
      match xades.oCSPRef refs with
      | ref0 :: _ => xades.digestAlgAndValue ref0
      | [] => None
      end
  | None => None
  end.

Definition OCSPRef_DigestAlgAndValue (s : Signature) : option xades.DigestAlgAndValueType :=
  match object (_sign s) with
  | [] => None
  | o :: _ =>
      match dialect s with
      | XAdES111Signature =>
          match qualifyingProperties1 o with
          | [] => None
          | qp :: _ =>
              match xades111.unsignedProperties qp with
              | None => None
              | Some up =>
                  match xades111.unsignedSignatureProperties up with
                  | None => None
                  | Some usp =>
                      match xades111.completeRevocationRefs usp with
                      | None => None
                      | Some crr => first_OCSPRef_digest crr
                      end
                  end
              end
          end
      | XAdES132Signature =>
          match qualifyingProperties o with
          | [] => None
          | qp :: _ =>
              match xades132.unsignedProperties qp with
              | None => None
              | Some up =>
                  match xades132.unsignedSignatureProperties up with
                  | None => None
                  | Some usp =>
                      match xades132.completeRevocationRefs usp with
                      | [] => None
                      | crr :: _ => first_OCSPRef_digest crr
                      end
                  end
              end
          end
      end
  end.

(** ** A small environment and sample documents

    Concrete collaborators and signatures on which the statements
    below are exercised. *)

Module Sample.

Definition SHA256 : string := "http://www.w3.org/2001/04/xmlenc#sha256".

(** A one-byte stand-in for a digest: the first byte of the input. *)
Definition first_byte (data : bytes) : bytes := [List.hd Byte.x00 data].

Definition digest : Digest :=
  {| getUri := SHA256; getMethod := 672; getSize := 1;
     hash := first_byte; hash_size := fun _ => eq_refl |}.

Definition issuerDN : string := "C=EE,O=AS Sertifitseerimiskeskus,CN=ESTEID-SK 2011,E=pki@sk.ee".

Definition decode (der : bytes) : option X509Cert :=
  Some {| getIssuerName := issuerDN; getIssuerNameAsn1 := [Byte.x31];
          getSerial := 7; getSubject := "CN=VOTER"; encodeDER := der |}.

Definition world (doc : SignatureType) : Collaborators :=
  {| Digest_isSupported := fun uri => uri =? SHA256;
     Digest_create := fun uri => if uri =? SHA256 then Some digest else None;
     X509Cert_decode := decode;
     compareIssuerToString := fun c name => negb (getIssuerName c =? name);
     X509CertStore := unit;
     X509Cert_verify := fun _ _ => true;
     verifySignature := fun _ _ _ _ _ => true;
     loadX509Stack := fun _ => [];
     getCert := fun _ _ => decode [Byte.x30; Byte.x01];
     DOMDocument := bytes;
     DOMNode := string;
     XercesDOMParser_parse := fun b => Some b;
     getElementsByTagNameNS := fun _ _ tag => [tag];
     outputBuffer := fun _ _ _ => [Byte.x07];
     XSECmapURIToHashURI := fun uri => if uri =? URI_ID_RSA_SHA256 then Some SHA256 else None;
     defined_URI_ID_C14N11_NOC := true;
     dsig_signature := fun _ => Some doc;
     ContainerInfo := nat;
     documentCount := fun n => n;
     checkDocumentsBegin := fun n => n;
     checkDocument := fun _ _ _ n => (n, true);
     checkDocumentsResult := fun _ => true;
     OCSP_verifyResponse := fun _ _ => true;
     OCSP_getNonce := fun _ _ => Some [Byte.x2a] |}.

Definition sha256 : dsig.MethodType := {| dsig.algorithm := SHA256 |}.

Definition info : dsig.SignedInfoType :=
  {| dsig.canonicalizationMethod := {| dsig.algorithm := URI_ID_C14N_NOC |};
     dsig.signatureMethod := {| dsig.algorithm := URI_ID_RSA_SHA256 |};
     dsig.reference :=
       [ {| dsig.uRI := Some "/vote.txt"; dsig.type := None;
            dsig.digestMethod := sha256; dsig.digestValue := [Byte.x11] |};
         {| dsig.uRI := Some "#S0-SignedProperties";
            dsig.type := Some "http://uri.etsi.org/01903#SignedProperties";
            dsig.digestMethod := sha256; dsig.digestValue := [Byte.x07] |} ] |}.

Definition certID : xades.CertIDType :=
  {| xades.certDigest := {| xades.digestMethod := sha256; xades.digestValue := [Byte.x30] |};
     xades.issuerSerial := {| dsig.x509IssuerName := issuerDN; dsig.x509SerialNumber := 7 |} |}.

Definition ocspResponse : bytes := [Byte.x0c; Byte.x0d].

Definition ocspRefs : xades.CompleteRevocationRefsType :=
  {| xades.oCSPRefs := Some {| xades.oCSPRef :=
       [ {| xades.oCSPIdentifier := {| xades.producedAt := "2013-10-10T10:00:00Z" |};
            xades.digestAlgAndValue :=
              Some {| xades.digestMethod := sha256; xades.digestValue := [Byte.x0c] |} |} ] |} |}.

Definition revocationValues (withOCSPValues : bool) : xades.RevocationValuesType :=
  {| xades.oCSPValues :=
       if withOCSPValues
       then Some {| xades.encapsulatedOCSPValue := [ocspResponse] |}
       else None |}.

Definition qp132 (target : string) (policy : option xades.SignaturePolicyIdentifierType)
           (withOCSPValues : bool) : xades132.QualifyingPropertiesType :=
  {| xades132.target := target;
     xades132.signedProperties := Some
       {| xades132.signedSignatureProperties :=
            {| xades132.signingCertificate := Some {| xades.cert := [certID] |};
               xades132.signaturePolicyIdentifier := policy |} |};
     xades132.unsignedProperties := Some
       {| xades132.unsignedSignatureProperties := Some
            {| xades132.completeRevocationRefs := [ocspRefs];
               xades132.revocationValues := [revocationValues withOCSPValues] |};
          xades132.unsignedDataObjectProperties := None |} |}.

Definition qp111 (target : string) (policy : xades.SignaturePolicyIdentifierType)
           (withOCSPValues : bool) : xades111.QualifyingPropertiesType :=
  {| xades111.target := target;
     xades111.signedProperties := Some
       {| xades111.signedSignatureProperties :=
            {| xades111.signingCertificate := {| xades.cert := [certID] |};
               xades111.signaturePolicyIdentifier := policy |} |};
     xades111.unsignedProperties := Some
       {| xades111.unsignedSignatureProperties := Some
            {| xades111.completeRevocationRefs := Some ocspRefs;
               xades111.revocationValues := Some (revocationValues withOCSPValues) |};
          xades111.unsignedDataObjectProperties := None |} |}.

Definition document (i : option string) (o : ObjectType) : SignatureType :=
  {| id := i;
     signedInfo := info;
     signatureValue := [Byte.x2a; Byte.x2b];
     keyInfo := Some {| dsig.x509Data :=
                          [ {| dsig.x509Certificate := [[Byte.x30; Byte.x82]] |} ] |};
     object := [o] |}.

Definition object132 (target : string) (policy : option xades.SignaturePolicyIdentifierType)
           (withOCSPValues : bool) : ObjectType :=
  {| qualifyingProperties := [qp132 target policy withOCSPValues];
     qualifyingProperties1 := [] |}.

Definition object111 (target : string) (policy : xades.SignaturePolicyIdentifierType)
           (withOCSPValues : bool) : ObjectType :=
  {| qualifyingProperties := [];
     qualifyingProperties1 := [qp111 target policy withOCSPValues] |}.

(** A complete time-marked v1.3.2 signature, and variations of it. *)
Definition tm132 : SignatureType := document (Some "S0") (object132 "#S0" None true).
Definition tm111 : SignatureType :=
  document (Some "S0") (object111 "#S0" xades.SignaturePolicyImplied true).
Definition policy132 : SignatureType :=
  document (Some "S0") (object132 "#S0" (Some xades.SignaturePolicyImplied) true).
Definition noOCSPValues132 : SignatureType := document (Some "S0") (object132 "#S0" None false).
Definition noOCSPValues111 : SignatureType :=
  document (Some "S0") (object111 "#S0" xades.SignaturePolicyImplied false).
Definition noId132 : SignatureType := document None (object132 "#S0" None true).
Definition noId111 : SignatureType :=
  document None (object111 "#S0" xades.SignaturePolicyImplied true).
Definition emptyId132 : SignatureType := document (Some "") (object132 "#" None true).

Definition xml : bytes := [Byte.x3c; Byte.x3f].

Definition signature (doc : SignatureType) (d : Dialect) : Signature :=
  {| _sign := doc; _xml := xml; dialect := d |}.

Definition conf (doc : SignatureType) : Configuration (world doc) :=
  {| getDigestURI := SHA256 : string;
     hasOCSPConf := fun cn => cn =? "ESTEID-SK 2011";
     getOCSPConf := fun _ => {| url := "http://ocsp.sk.ee"; cert := "ocsp.pem";
                                skew := 300; maxAge := 60 |};
     getCertStore := (tt : X509CertStore (world doc)) |}.

Definition validator (doc : SignatureType) (d : Dialect) : SignatureValidator (world doc) :=
  {| _sig := signature doc d; _conf := conf doc; _signingCert := None;
     _ocspCerts := None; _issuerX509 := None; _ocspResponse := [] |}.

End Sample.

(** ** Further functions of the source *)

Section ProducedAt.
(** util::date::xsd2string of DateTime.h *)
Context (xsd2string : string -> string).

(** XAdES111Signature::getProducedAt *)
Definition getProducedAt111 (s : Signature) : outcome string :=
  usp <- XAdES111.unsignSigProps s ;;
  if present usp then
    usp' <- XAdES111.unsignSigProps s ;;
    u <- opt_get usp' ;;
    crr <- opt_get (xades111.completeRevocationRefs u) ;;
    refs <- opt_get (xades.oCSPRefs crr) ;;
    ref <- seq_at (xades.oCSPRef refs) 0 ;;
    Return (xsd2string (xades.producedAt (xades.oCSPIdentifier ref)))
  else Return "".

(** XAdES132Signature::getProducedAt *)
Definition getProducedAt132 (s : Signature) : outcome string :=
  usp <- XAdES132.unsignSigProps s ;;
  if present usp then
    usp' <- XAdES132.unsignSigProps s ;;
    u <- opt_get usp' ;;
    crr <- seq_at (xades132.completeRevocationRefs u) 0 ;;
    refs <- opt_get (xades.oCSPRefs crr) ;;
    ref <- seq_at (xades.oCSPRef refs) 0 ;;
    Return (xsd2string (xades.producedAt (xades.oCSPIdentifier ref)))
  else Return "".

Definition getProducedAt (s : Signature) : outcome string :=
  match dialect s with
  | XAdES111Signature => getProducedAt111 s
  | XAdES132Signature => getProducedAt132 s
  end.

End ProducedAt.

(** OCSP::CertStatus *)
Inductive CertStatus : Type := GOOD | REVOKED | UNKNOWN.

Section OnlineValidation.
Context (W : Collaborators).
(** OCSP::checkCert(cert, issuer, nonce, response, producedAt): the
    status with the two values it writes through its reference
    parameters, [None] when it raises.  The certificates are passed as
    pointers. *)
Context (OCSP_checkCert :
           OCSP -> option X509Cert -> option X509Cert -> bytes ->
           option (CertStatus * bytes * string)).

(** SignatureValidator::validateBESOnline; the result carries the
    validator with [_ocspResponse] set and the value of [_producedAt]. *)
Definition validateBESOnline (v : SignatureValidator W)
  : outcome (CertStatus * SignatureValidator W * string) :=
  p <- prepare W v ;;
  let '(ocsp, v1) := p in
  sigCalc <- or_throw (Digest_create W (getDigestURI (_conf v1)))
                      (E_Collab_Digest (getDigestURI (_conf v1))) ;;
  let nonce := hash sigCalc (getSignatureValue (_sig v1)) in
  r <- or_throw (OCSP_checkCert ocsp (_signingCert v1) (_issuerX509 v1) nonce)
                E_Collab_OCSP ;;
  let '(status, response, producedAt) := r in
  Return (status, set_ocspResponse W v1 response, producedAt).

End OnlineValidation.

(** ** Notions used to state further properties *)

(** CompleteRevocationRefs/OCSPRefs/OCSPRef[0], when the path is there. *)
Definition first_OCSPRef_of (crr : xades.CompleteRevocationRefsType)
  : option xades.OCSPRefType :=
  match xades.oCSPRefs crr with
  | Some refs => List.hd_error (xades.oCSPRef refs)
  | None => None
  end.

Definition first_OCSPRef (s : Signature) : option xades.OCSPRefType :=
  match object (_sign s) with
  | [] => None
  | o :: _ =>
      match dialect s with
      | XAdES111Signature =>
          match qualifyingProperties1 o with
          | [] => None
          | qp :: _ =>
              match xades111.unsignedProperties qp with
              | None => None
              | Some up =>
                  match xades111.unsignedSignatureProperties up with
                  | None => None
                  | Some usp =>
                      match xades111.completeRevocationRefs usp with
                      | None => None
                      | Some crr => first_OCSPRef_of crr
                      end
                  end
              end
          end
      | XAdES132Signature =>
          match qualifyingProperties o with
          | [] => None
          | qp :: _ =>
              match xades132.unsignedProperties qp with
              | None => None
              | Some up =>
                  match xades132.unsignedSignatureProperties up with
                  | None => None
                  | Some usp =>
                      match xades132.completeRevocationRefs usp with
                      | [] => None
                      | crr :: _ => first_OCSPRef_of crr
                      end
                  end
              end
          end
      end
  end.

(** Whether UnsignedProperties/UnsignedSignatureProperties of the first
    QualifyingProperties element is there: [None] when UnsignedProperties
    (or the element above it) is missing. *)
Definition unsignedSignatureProperties_present (s : Signature) : option bool :=
  match object (_sign s) with
  | [] => None
  | o :: _ =>
      match dialect s with
      | XAdES111Signature =>
          match qualifyingProperties1 o with
          | [] => None
          | qp :: _ =>
              option_map (fun up => present (xades111.unsignedSignatureProperties up))
                         (xades111.unsignedProperties qp)
          end
      | XAdES132Signature =>
          match qualifyingProperties o with
          | [] => None
          | qp :: _ =>
              option_map (fun up => present (xades132.unsignedSignatureProperties up))
                         (xades132.unsignedProperties qp)
          end
      end
  end.

(** The references of SignedInfo that stand for container documents. *)
Definition documentReferences (refSeq : list dsig.ReferenceType) : list dsig.ReferenceType :=
  filter (fun r => negb (isReferenceToSigProps r)) refSeq.

(** The container after checkDocument has been called for one document
    reference: the URI without its leading slash, the digest method
    and the digest value. *)
Definition after_checkDocument (W : Collaborators) (ci : ContainerInfo W)
           (r : dsig.ReferenceType) : ContainerInfo W :=
  match dsig.uRI r with
  | Some uri =>
      fst (checkDocument W (strip_slash uri) (dsig.algorithm (dsig.digestMethod r))
                         (dsig.digestValue r) ci)
  | None => ci
  end.

(** SigningCertificate/Cert of the first QualifyingProperties element,
    when there is exactly one Cert. *)
Definition signingCertID (s : Signature) : option xades.CertIDType :=
  match object (_sign s) with
  | [o] =>
      match dialect s with
      | XAdES111Signature =>
          match qualifyingProperties1 o with
          | [qp] =>
              match xades111.signedProperties qp with
              | Some sp =>
                  match xades.cert (xades111.signingCertificate
                                      (xades111.signedSignatureProperties sp)) with
                  | [c] => Some c
                  | _ => None
                  end
              | None => None
              end
          | _ => None
          end
      | XAdES132Signature =>
          match qualifyingProperties o with
          | [qp] =>
              match xades132.signedProperties qp with
              | Some sp =>
                  match xades132.signingCertificate
                          (xades132.signedSignatureProperties sp) with
                  | Some sc =>
                      match xades.cert sc with
                      | [c] => Some c
                      | _ => None
                      end
                  | None => None
                  end
              | None => None
              end
          | _ => None
          end
      end
  | _ => None
  end.

(** The canonicalization methods compiled into calcDigestOnNode. *)
Definition supported_canonicalization (W : Collaborators) : list string :=
  ([URI_ID_C14N_NOC; URI_ID_C14N_COM; URI_ID_EXC_C14N_NOC]
   ++ (if defined_URI_ID_C14N11_NOC W then [URI_ID_C14N11_NOC; URI_ID_C14N11_COM] else []))%list.

(** What checkQualifyingProperties asks of the one QualifyingProperties
    element, apart from its target. *)
Definition properties_acceptable111 (qp : xades111.QualifyingPropertiesType) : Prop :=
  xades111.signedProperties qp <> None
  /\ forall up, xades111.unsignedProperties qp = Some up ->
                xades111.unsignedDataObjectProperties up = None.

Definition properties_acceptable132 (qp : xades132.QualifyingPropertiesType) : Prop :=
  (exists sp, xades132.signedProperties qp = Some sp
              /\ xades132.signaturePolicyIdentifier
                   (xades132.signedSignatureProperties sp) = None)
  /\ forall up, xades132.unsignedProperties qp = Some up ->
                xades132.unsignedDataObjectProperties up = None.

(** Whether every checkDocument call for the given references, made in
    order from the given container state, comes back without raising. *)
Fixpoint documents_accepted (W : Collaborators) (docs : list dsig.ReferenceType)
         (ci : ContainerInfo W) : bool :=
  match docs with
  | [] => true
  | r :: rest =>
      match dsig.uRI r with
      | Some uri =>
          snd (checkDocument W (strip_slash uri) (dsig.algorithm (dsig.digestMethod r))
                             (dsig.digestValue r) ci)
          && documents_accepted W rest (after_checkDocument W ci r)
      | None => false
      end
  end.

(** The canonicalizer as calcDigestOnNode sets it up before it looks at
    the canonicalization method. *)
Definition initial_canonicalizer : Canonicalizer :=
  setUseNamespaceStack true (setCommentsProcessing false new_canonicalizer).

(** A call whose stack exceptions all satisfy [P]. *)
Definition throws_only {A : Type} (P : Failure -> Prop) (o : outcome A) : Prop :=
  forall f, o = throw f -> P f.

(** The stack exceptions that can leave validateTMOffline. *)
Definition validateTMOffline_failure (f : Failure) : Prop :=
  In f [E_NoSignerCertificate; E_MultipleSignerCertificates; E_Collab_X509;
        E_NoOCSPResponder; E_IssuerUnknown;
        E_MissingUnsignedProperties; E_UnsignedSigPropsMissing; E_RevocationValuesMissing;
        E_Collab_OCSP; E_NonceMismatch; E_OCSPRefMismatch]
  \/ exists uri, f = E_Collab_Digest uri.

(** The failures that report a wrong number of Object or
    QualifyingProperties elements. *)
Definition cardinality_error (f : Failure) : bool :=
  match f with
  | E_ObjectMissing | E_MultipleObjects | E_QualifyingPropertiesMissing
  | E_MultipleQualifyingProperties | E_ObjectCount _ | E_QualifyingPropertiesCount _ => true
  | _ => false
  end.

(** ** Further samples *)

Module MoreSamples.

(** The environment [W] with another certificate decoder. *)
Definition with_decoder (W : Collaborators) (decode : bytes -> option X509Cert)
  : Collaborators :=
  {| Digest_isSupported := Digest_isSupported W;
     Digest_create := Digest_create W;
     X509Cert_decode := decode;
     compareIssuerToString := compareIssuerToString W;
     X509CertStore := X509CertStore W;
     X509Cert_verify := X509Cert_verify W;
     verifySignature := verifySignature W;
     loadX509Stack := loadX509Stack W;
     getCert := getCert W;
     DOMDocument := DOMDocument W;
     DOMNode := DOMNode W;
     XercesDOMParser_parse := XercesDOMParser_parse W;
     getElementsByTagNameNS := getElementsByTagNameNS W;
     outputBuffer := outputBuffer W;
     XSECmapURIToHashURI := XSECmapURIToHashURI W;
     defined_URI_ID_C14N11_NOC := defined_URI_ID_C14N11_NOC W;
     dsig_signature := dsig_signature W;
     ContainerInfo := ContainerInfo W;
     documentCount := documentCount W;
     checkDocumentsBegin := checkDocumentsBegin W;
     checkDocument := checkDocument W;
     checkDocumentsResult := checkDocumentsResult W;
     OCSP_verifyResponse := OCSP_verifyResponse W;
     OCSP_getNonce := OCSP_getNonce W |}.

(** A certificate whose issuer name has no common name. *)
Definition certificate_without_CN (der : bytes) : option X509Cert :=
  Some {| getIssuerName := "C=EE,O=AS"; getIssuerNameAsn1 := [Byte.x31];
          getSerial := 7; getSubject := "CN=VOTER"; encodeDER := der |}.

Definition world_without_CN : Collaborators :=
  with_decoder (Sample.world Sample.tm132) certificate_without_CN.

Definition validator_without_CN : SignatureValidator world_without_CN :=
  {| _sig := Sample.signature Sample.tm132 XAdES132Signature;
     _conf := {| getDigestURI := Sample.SHA256;
                 hasOCSPConf := fun cn => cn =? "ESTEID-SK 2011";
                 getOCSPConf := fun _ => {| url := "http://ocsp.sk.ee"; cert := "ocsp.pem";
                                            skew := 300; maxAge := 60 |};
                 getCertStore := (tt : X509CertStore world_without_CN) |};
     _signingCert := None; _ocspCerts := None; _issuerX509 := None;
     _ocspResponse := [] |}.

(** A responder that answers GOOD with the sample response. *)
Definition responder (ocsp : OCSP) (c issuer : option X509Cert) (nonce : bytes)
  : option (CertStatus * bytes * string) :=
  Some (GOOD, Sample.ocspResponse, "2013-10-10T10:00:00Z").

End MoreSamples.

(** * Properties *)

(** ** Strings *)

Module CxxStringFacts.
Import CxxString.

Lemma length_append (a b : string) :
  String.length (a ++ b) = String.length a + String.length b.
Proof. induction a as [|c a IH]; simpl; [reflexivity | now rewrite IH]. Qed.

Lemma append_nil_r (a : string) : a ++ "" = a.
Proof. induction a as [|c a IH]; simpl; [reflexivity | now rewrite IH]. Qed.

Lemma append_assoc (a b c : string) : (a ++ b) ++ c = a ++ b ++ c.
Proof. induction a as [|x a IH]; simpl; [reflexivity | now rewrite IH]. Qed.

Lemma length_zero (a : string) : String.length a = 0 -> a = "".
Proof. destruct a; simpl; [reflexivity | discriminate]. Qed.

Lemma prefix_starts_with (p s : string) :
  prefix p s = true <-> starts_with p s.
Proof.
  revert s; induction p as [|c p IH]; intros s.
  - split; [intros _; now exists s | now destruct s].
  - destruct s as [|d s]; simpl.
    + split; [discriminate | intros [r H]; discriminate].
    + destruct (Ascii.ascii_dec c d) as [->|N].
      * rewrite IH. split; intros [r H].
        -- exists r. simpl. now rewrite H.
        -- exists r. simpl in H. now injection H.
      * split; [discriminate|]. intros [r H]. simpl in H.
        injection H as H _. congruence.
Qed.

Lemma drop_append (a b : string) : drop (String.length a) (a ++ b) = b.
Proof. induction a as [|c a IH]; simpl; [now destruct b | exact IH]. Qed.

Lemma take_append (a b : string) : take (String.length a) (a ++ b) = a.
Proof. induction a as [|c a IH]; simpl; [now destruct b | now rewrite IH]. Qed.

Lemma take_all (n : nat) (s : string) : String.length s <= n -> take n s = s.
Proof.
  revert s; induction n as [|n IH]; intros [|c s]; simpl; intros H;
    try reflexivity; try lia.
  rewrite IH; [reflexivity | lia].
Qed.

(** [first_match] returns the leftmost occurrence. *)
Lemma first_match_Some (pat s : string) (i j : nat) :
  first_match pat s i = Some j ->
  exists pre rest,
    s = pre ++ pat ++ rest /\ j = i + String.length pre
    /\ forall pre' rest', s = pre' ++ pat ++ rest' ->
                          String.length pre <= String.length pre'.
Proof.
  revert i; induction s as [|c s IH]; intros i; cbn [first_match last_match].
  - destruct (prefix pat "") eqn:P; [|discriminate].
    intros [= <-]. apply prefix_starts_with in P. destruct P as [r P].
    exists "", r. simpl. repeat split; [exact P | lia | intros; lia].
  - destruct (prefix pat (String c s)) eqn:P.
    + intros [= <-]. apply prefix_starts_with in P. destruct P as [r P].
      exists "", r. simpl. repeat split; [exact P | lia | intros; lia].
    + intros H. destruct (IH _ H) as (pre & rest & E & J & Min).
      exists (String c pre), rest. simpl. repeat split.
      * now rewrite E.
      * lia.
      * intros [|d pre'] rest' E'; simpl in E'.
        -- assert (starts_with pat (String c s)) as S by (now exists rest').
           apply prefix_starts_with in S. congruence.
        -- injection E' as _ E'. apply Min in E'. simpl. lia.
Qed.

Lemma first_match_None (pat s : string) (i : nat) :
  first_match pat s i = None -> ~ occurs_in pat s.
Proof.
  revert i; induction s as [|c s IH]; intros i; cbn [first_match last_match].
  - destruct (prefix pat "") eqn:P; [discriminate|]. intros _ (pre & rest & E).
    destruct pre; simpl in E; [|discriminate].
    assert (starts_with pat "") as S by (now exists rest).
    apply prefix_starts_with in S. congruence.
  - destruct (prefix pat (String c s)) eqn:P; [discriminate|].
    intros H (pre & rest & E). destruct pre as [|d pre]; simpl in E.
    + assert (starts_with pat (String c s)) as S by (now exists rest).
      apply prefix_starts_with in S. congruence.
    + injection E as _ E. apply (IH _ H). now exists pre, rest.
Qed.

Lemma first_match_ge (pat s : string) (i j : nat) :
  first_match pat s i = Some j -> i <= j.
Proof.
  intros H. destruct (first_match_Some _ _ _ _ H) as (? & ? & _ & -> & _). lia.
Qed.

Lemma first_match_here (pat s : string) (i : nat) :
  first_match pat s i = Some i <-> prefix pat s = true.
Proof.
  destruct s as [|c s]; cbn [first_match]; destruct (prefix pat _) eqn:P;
    try (split; congruence).
  split; [|discriminate]. intros H. apply first_match_ge in H. lia.
Qed.

(** [last_match] returns the rightmost occurrence. *)
Lemma last_match_Some (pat s : string) (i j : nat) :
  last_match pat s i = Some j ->
  exists pre rest,
    s = pre ++ pat ++ rest /\ j = i + String.length pre
    /\ forall pre' rest', s = pre' ++ pat ++ rest' ->
                          String.length pre' <= String.length pre.
Proof.
  revert i; induction s as [|c s IH]; intros i; cbn [first_match last_match].
  - destruct (prefix pat "") eqn:P; [|discriminate].
    intros [= <-]. apply prefix_starts_with in P. destruct P as [r P].
    exists "", r. simpl. repeat split; [exact P | lia |].
    intros [|d pre'] rest' E'; simpl in *; [lia | discriminate].
  - destruct (last_match pat s (S i)) as [k|] eqn:L.
    + intros [= <-]. destruct (IH _ L) as (pre & rest & E & J & Max).
      exists (String c pre), rest. simpl. repeat split.
      * now rewrite E.
      * lia.
      * intros [|d pre'] rest' E'; simpl in *; [lia|].
        injection E' as _ E'. apply Max in E'. lia.
    + destruct (prefix pat (String c s)) eqn:P; [|discriminate].
      intros [= <-]. apply prefix_starts_with in P. destruct P as [r P].
      exists "", r. simpl. repeat split; [exact P | lia |].
      intros [|d pre'] rest' E'; simpl in *; [lia|].
      injection E' as _ E'. exfalso. revert L E'. clear.
      revert i pre'. induction s as [|c s IH]; intros i pre' L E'; cbn [last_match] in L.
      * destruct pre'; simpl in E'; [|discriminate].
        assert (starts_with pat "") as S by (now exists rest').
        apply prefix_starts_with in S. rewrite S in L. discriminate.
      * destruct (last_match pat s (S (S i))) eqn:L'; [discriminate L|].
        destruct pre' as [|d pre']; simpl in E'.
        -- assert (starts_with pat (String c s)) as S by (now exists rest').
           apply prefix_starts_with in S. rewrite S in L. discriminate.
        -- injection E' as _ E'. exact (IH _ _ L' E').
Qed.

Lemma last_match_None (pat s : string) (i : nat) :
  last_match pat s i = None -> ~ occurs_in pat s.
Proof.
  revert i; induction s as [|c s IH]; intros i; cbn [first_match last_match].
  - destruct (prefix pat "") eqn:P; [discriminate|]. intros _ (pre & rest & E).
    destruct pre; simpl in E; [|discriminate].
    assert (starts_with pat "") as S by (now exists rest).
    apply prefix_starts_with in S. congruence.
  - destruct (last_match pat s (S i)) eqn:L; [discriminate|].
    destruct (prefix pat (String c s)) eqn:P; [discriminate|].
    intros _ (pre & rest & E). destruct pre as [|d pre]; simpl in E.
    + assert (starts_with pat (String c s)) as S by (now exists rest).
      apply prefix_starts_with in S. congruence.
    + injection E as _ E. apply (IH _ L). now exists pre, rest.
Qed.

Lemma suffixb_ends_with (pat s : string) :
  suffixb pat s = true <-> ends_with pat s.
Proof.
  induction s as [|c s IH]; simpl.
  - rewrite orb_false_r, andb_true_iff, Nat.eqb_eq, String.eqb_eq. split.
    + intros [_ ->]. now exists "".
    + intros [pre E]. destruct pre; simpl in E; [|discriminate]. now subst.
  - rewrite orb_true_iff, andb_true_iff, Nat.eqb_eq, String.eqb_eq, IH. split.
    + intros [[_ ->] | [pre E]]; [now exists "" | exists (String c pre); simpl; now rewrite E].
    + intros [[|d pre] E]; simpl in E.
      * left. subst. now split.
      * right. injection E as _ E. now exists pre.
Qed.

End CxxStringFacts.

(** ** The result monad *)

Section OutcomeFacts.
Context {A B : Type}.

Lemma bind_Return (c : outcome A) (k : A -> outcome B) (b : B) :
  bind c k = Return b -> exists a, c = Return a /\ k a = Return b.
Proof. destruct c; simpl; intros H; try discriminate. now exists a. Qed.

Lemma stack_only_bind (c : outcome A) (k : A -> outcome B) :
  stack_only c -> (forall a, c = Return a -> stack_only (k a)) ->
  stack_only (bind c k).
Proof. destruct c as [a|[f|]|u]; simpl; intros H K; auto. Qed.

Lemma stack_only_or_throw (o : option A) (f : Failure) : stack_only (or_throw o f).
Proof. now destruct o. Qed.

End OutcomeFacts.

Lemma stack_only_throw_if (cond : bool) (f : Failure) : stack_only (throw_if cond f).
Proof. now destruct cond. Qed.

Lemma throw_if_Return (cond : bool) (f : Failure) (u : unit) :
  throw_if cond f = Return u -> cond = false.
Proof. destruct cond; [discriminate | reflexivity]. Qed.

Create HintDb stack.
#[local] Hint Resolve stack_only_throw_if stack_only_or_throw : stack.

Lemma compare_digests_stack_only (n : nat) (a b : bytes) (f : Failure) :
  n <= List.length a -> n <= List.length b -> stack_only (compare_digests n a b f).
Proof.
  revert a b; induction n as [|n IH]; intros a b La Lb; simpl; [exact I|].
  destruct a as [|x a]; [simpl in La; lia|].
  destruct b as [|y b]; [simpl in Lb; lia|].
  destruct (Byte.eqb x y); [|exact I].
  apply IH; simpl in *; lia.
Qed.

(** The comparison loop succeeds exactly on equal digests. *)
Lemma compare_digests_Return (a b : bytes) (f : Failure) :
  List.length a = List.length b ->
  (compare_digests (List.length a) a b f = Return tt <-> a = b).
Proof.
  revert b; induction a as [|x a IH]; intros [|y b] L; simpl in *; try discriminate.
  - tauto.
  - injection L as L. destruct (Byte.eqb x y) eqn:E.
    + apply Byte.byte_dec_bl in E. subst y. rewrite (IH b L).
      split; [now intros -> | now intros [= ->]].
    + split; [discriminate|]. intros [= -> _].
      rewrite (Byte.byte_dec_lb eq_refl) in E. discriminate.
Qed.

(** ** Reference checks *)

Section ReferenceFacts.
Context (W : Collaborators).
Import CxxString CxxStringFacts.

Lemma find_at_start (t pat : string) :
  (find t pat 0 =? 0)%Z = prefix pat t.
Proof.
  unfold find, size. replace (Z.of_nat (String.length t) <? 0)%Z with false
    by (symmetry; apply Z.ltb_ge; lia).
  change (Z.to_nat 0) with 0. replace (drop 0 t) with t by now destruct t.
  destruct (first_match pat t 0) as [i|] eqn:F.
  - destruct i as [|i].
    + apply first_match_here in F. now rewrite F.
    + destruct (prefix pat t) eqn:P; [|reflexivity].
      apply first_match_here with (i := 0) in P. congruence.
  - destruct (prefix pat t) eqn:P; [|reflexivity].
    apply first_match_here with (i := 0) in P. congruence.
Qed.

Lemma rfind_at_end (t pat : string) :
  (size t < 2 ^ 64)%Z -> 0 < String.length pat <= String.length t ->
  ((rfind t pat =? size_t (size t - size pat))%Z = true <-> ends_with pat t).
Proof.
  intros Fit Len. unfold rfind, size_t, size in *.
  rewrite Z.mod_small by lia. rewrite Z.eqb_eq.
  destruct (last_match pat t 0) as [j|] eqn:L.
  - destruct (last_match_Some _ _ _ _ L) as (pre & rest & E & J & Max).
    simpl in J. subst j.
    assert (String.length t = String.length pre + (String.length pat + String.length rest))
      as Lt by (rewrite E at 1; now rewrite !length_append).
    split.
    + intros H. assert (String.length rest = 0) as R by lia.
      apply length_zero in R. subst rest. rewrite append_nil_r in E. now exists pre.
    + intros [pre' E']. assert (t = pre' ++ pat ++ "") as E2 by now rewrite append_nil_r.
      apply Max in E2.
      assert (String.length t = String.length pre' + String.length pat)
        by (rewrite E' at 1; now rewrite length_append).
      lia.
  - split.
    + unfold npos. lia.
    + intros [pre E]. exfalso. apply (last_match_None _ _ _ L).
      exists pre, "". now rewrite append_nil_r.
Qed.

Lemma refersToSignedPropertiesb_spec (r : dsig.ReferenceType) :
  refersToSignedPropertiesb r = true <-> refersToSignedProperties r.
Proof.
  unfold refersToSignedPropertiesb, refersToSignedProperties.
  destruct (dsig.type r) as [t|].
  - rewrite andb_true_iff, prefix_starts_with, suffixb_ends_with. split.
    + intros [P S]. now exists t.
    + intros (t' & [= <-] & P & S). now split.
  - split; [discriminate | intros (t & E & _); discriminate].
Qed.

(** The test of the source is the predicate of the specification. *)
Lemma isReferenceToSigProps_spec (r : dsig.ReferenceType) :
  fits_size_t r -> isReferenceToSigProps r = refersToSignedPropertiesb r.
Proof.
  intros Fit. unfold isReferenceToSigProps, refersToSignedPropertiesb.
  destruct (dsig.type r) as [t|] eqn:T; [|reflexivity].
  rewrite find_at_start.
  destruct (prefix "http://uri.etsi.org/01903" t) eqn:P; [|reflexivity]. simpl andb.
  assert (0 < String.length "#SignedProperties" <= String.length t) as Len.
  { apply prefix_starts_with in P. destruct P as [rest ->].
    rewrite length_append. simpl. lia. }
  pose proof (rfind_at_end t "#SignedProperties" (Fit t T) Len) as R.
  pose proof (suffixb_ends_with "#SignedProperties" t) as S.
  destruct (rfind t "#SignedProperties" =? _)%Z, (suffixb "#SignedProperties" t);
    try reflexivity; exfalso.
  - assert (false = true) by (apply S, R; reflexivity). discriminate.
  - assert (false = true) by (apply R, S; reflexivity). discriminate.
Qed.

Lemma calcDigestOnNode_stack_only (s : Signature) (calc : Digest) (ns tag : string) :
  stack_only (calcDigestOnNode W s calc ns tag).
Proof.
  unfold calcDigestOnNode, createDom.
  apply stack_only_bind; auto with stack. intros dom _.
  apply stack_only_bind; auto with stack. intros [] H1.
  apply throw_if_Return in H1. apply Nat.ltb_ge in H1.
  apply stack_only_bind; auto with stack. intros [] _.
  destruct (getElementsByTagNameNS W dom ns tag) as [|node l]; [simpl in H1; lia|].
  simpl seq_at. simpl bind. unfold setProcessingFlags.
  repeat match goal with |- context [if ?c then _ else _] => destruct c end;
    exact I.
Qed.

Lemma checkReferenceToSigProps_stack_only (s : Signature) (r : dsig.ReferenceType) :
  stack_only (checkReferenceToSigProps W s r).
Proof.
  unfold checkReferenceToSigProps.
  apply stack_only_bind; auto with stack. intros [] _.
  apply stack_only_bind; auto with stack. intros [] _.
  apply stack_only_bind; auto with stack. intros calc _.
  apply stack_only_bind; [apply calcDigestOnNode_stack_only|]. intros d _.
  apply stack_only_bind; auto with stack. intros [] H.
  apply throw_if_Return, negb_false_iff, Nat.eqb_eq in H.
  apply compare_digests_stack_only; lia.
Qed.

Lemma checkReferences_loop_stack_only (s : Signature) (refSeq : list dsig.ReferenceType)
      (got : bool) :
  stack_only (checkReferences_loop W s refSeq got).
Proof.
  revert got; induction refSeq as [|r rest IH]; intros got; simpl; [exact I|].
  destruct (isReferenceToSigProps r); [|apply IH].
  apply stack_only_bind; auto with stack. intros [] _.
  apply stack_only_bind; [apply checkReferenceToSigProps_stack_only|].
  intros [] _. apply IH.
Qed.

(** What the flag tells when the loop runs to its end. *)
Lemma checkReferences_loop_Return (s : Signature) (refSeq : list dsig.ReferenceType)
      (got got' : bool) :
  checkReferences_loop W s refSeq got = Return got' ->
  let n := List.length (filter isReferenceToSigProps refSeq) in
  if got then n = 0 /\ got' = true
  else (got' = true /\ n = 1) \/ (got' = false /\ n = 0).
Proof.
  revert got; induction refSeq as [|r rest IH]; intros got; simpl.
  - intros [= <-]. destruct got; auto.
  - destruct (isReferenceToSigProps r); [|apply IH].
    intros H. apply bind_Return in H. destruct H as ([] & H1 & H).
    apply throw_if_Return in H1. subst got.
    apply bind_Return in H. destruct H as ([] & _ & H).
    apply IH in H. simpl in *. destruct H as [-> ->]. now left.
Qed.

Lemma checkReferencesToDocs_loop_stack_only (refSeq : list dsig.ReferenceType)
      (ci : ContainerInfo W) :
  stack_only (fst (checkReferencesToDocs_loop W refSeq ci)).
Proof.
  revert ci; induction refSeq as [|r rest IH]; intros ci; simpl; [exact I|].
  destruct (isReferenceToSigProps r); simpl; [apply IH|].
  destruct (dsig.uRI r); [|exact I].
  destruct (checkDocument W _ _ _ ci) as [ci' []]; [apply IH | exact I].
Qed.

Lemma checkReferences_stack_only (s : Signature) (ci : ContainerInfo W) :
  stack_only (fst (checkReferences W s ci)).
Proof.
  unfold checkReferences.
  destruct (negb _); [exact I|].
  pose proof (checkReferences_loop_stack_only s (dsig.reference (signedInfo (_sign s))) false) as L.
  destruct (checkReferences_loop W s _ false) as [got|e|u]; simpl in *; try exact L.
  destruct got; simpl; [|exact I].
  unfold checkReferencesToDocs.
  pose proof (checkReferencesToDocs_loop_stack_only
                (dsig.reference (signedInfo (_sign s))) (checkDocumentsBegin W ci)) as D.
  destruct (checkReferencesToDocs_loop W _ _) as [[[]|e|u] ci']; simpl in *; auto with stack.
Qed.

End ReferenceFacts.

Section ReferenceProperties.
Context (W : Collaborators).

Lemma filter_isReferenceToSigProps (refSeq : list dsig.ReferenceType) :
  Forall fits_size_t refSeq ->
  List.length (filter isReferenceToSigProps refSeq) = count_sigprops_refs refSeq.
Proof.
  unfold count_sigprops_refs. induction 1 as [|r l Fit _ IH]; simpl; [reflexivity|].
  rewrite (isReferenceToSigProps_spec r Fit).
  destruct (refersToSignedPropertiesb r); simpl; now rewrite IH.
Qed.

Lemma checkReferences_loop_none (s : Signature) (refSeq : list dsig.ReferenceType)
      (got : bool) :
  List.length (filter isReferenceToSigProps refSeq) = 0 ->
  checkReferences_loop W s refSeq got = Return got.
Proof.
  induction refSeq as [|r rest IH]; simpl; [reflexivity|].
  destruct (isReferenceToSigProps r); simpl; [discriminate | exact IH].
Qed.

(** C2: checkReferences fails unless SignedInfo holds
    documentCount() + 1 references, and fails unless exactly one of
    them has a Type attribute that is present, starts with
    "http://uri.etsi.org/01903" and ends with "#SignedProperties";
    none, or two or more, is a failure.  The test the source applies
    to a reference is that predicate. *)
Theorem checkReferences_requirements (s : Signature) (ci : ContainerInfo W) :
  let refSeq := dsig.reference (signedInfo (_sign s)) in
  Forall fits_size_t refSeq ->
  (forall r, In r refSeq ->
             (isReferenceToSigProps r = true <-> refersToSignedProperties r))
  /\ (List.length refSeq <> documentCount W ci + 1 ->
      exists f, fst (checkReferences W s ci) = throw f /\ kind f = InvalidStructure)
  /\ (count_sigprops_refs refSeq <> 1 ->
      exists f, fst (checkReferences W s ci) = throw f)
  /\ (List.length refSeq = documentCount W ci + 1 -> count_sigprops_refs refSeq = 0 ->
      fst (checkReferences W s ci) = throw E_NoSigPropsRef)
  /\ (fst (checkReferences W s ci) = Return tt ->
      List.length refSeq = documentCount W ci + 1 /\ count_sigprops_refs refSeq = 1).
Proof.
  intros refSeq Fit.
  pose proof (filter_isReferenceToSigProps refSeq Fit) as Cnt.
  pose proof (checkReferences_loop_stack_only W s refSeq false) as Safe.
  pose proof (checkReferences_loop_Return W s refSeq false) as Ret.
  pose proof (checkReferences_loop_none s refSeq false) as Zero.
  rewrite Cnt in Zero. simpl in Ret. rewrite Cnt in Ret.
  split.
  { intros r Hr. rewrite Forall_forall in Fit.
    rewrite (isReferenceToSigProps_spec r (Fit r Hr)).
    apply refersToSignedPropertiesb_spec. }
  unfold checkReferences. fold refSeq.
  destruct (Nat.eqb_spec (List.length refSeq) (documentCount W ci + 1)) as [E|N];
    simpl negb; cbv iota.
  - split; [intros H; contradiction|].
    destruct (checkReferences_loop W s refSeq false) as [got|[f|]|u]; simpl in Safe;
      try contradiction.
    + destruct (Ret got eq_refl) as [[-> One] | [-> Z0]]; simpl.
      * repeat split; try (intros; lia); assumption.
      * repeat split; intros; try lia; try discriminate; eauto.
    + simpl. split; [intros _; now exists f|]. split; [|discriminate].
      intros _ Z0. specialize (Zero Z0). discriminate.
  - simpl. split; [intros _; eexists; split; reflexivity|].
    split; [intros _; eexists; reflexivity|].
    split; [intros; contradiction | discriminate].
Qed.

End ReferenceProperties.

(** The sample signature has two references, one of them to
    SignedProperties, and passes with a container of one document. *)
Lemma checkReferences_requirements_witness :
  fst (checkReferences (Sample.world Sample.tm132)
                       (Sample.signature Sample.tm132 XAdES132Signature) 1) = Return tt
  /\ count_sigprops_refs (dsig.reference Sample.info) = 1.
Proof.
  assert (Forall fits_size_t (dsig.reference Sample.info)) as Fit
    by (repeat constructor; intros t [= <-]; reflexivity).
  destruct (checkReferences_requirements (Sample.world Sample.tm132)
              (Sample.signature Sample.tm132 XAdES132Signature) 1 Fit)
    as (_ & _ & _ & _ & R).
  split; [reflexivity | exact (proj2 (R eq_refl))].
Defined.

(** ** Algorithm policy *)

Section AlgorithmProperties.
Context (W : Collaborators).

(** C9: checkSignatureMethod throws the unsupported-algorithm error
    if and only if the SignatureMethod URI of SignedInfo is none of
    RSA-SHA1, RSA-SHA224 and RSA-SHA256, and returns normally
    otherwise. *)
Theorem checkSignatureMethod_policy (s : Signature) :
  let uri := dsig.algorithm (dsig.signatureMethod (signedInfo (_sign s))) in
  let supported :=
    uri = URI_ID_RSA_SHA1 \/ uri = URI_ID_RSA_SHA224 \/ uri = URI_ID_RSA_SHA256 in
  (checkSignatureMethod s = throw (E_UnsupportedSignatureMethod uri) <-> ~ supported)
  /\ (checkSignatureMethod s = Return tt <-> supported)
  /\ (forall e, checkSignatureMethod s = Throws e ->
                e = StackException (E_UnsupportedSignatureMethod uri))
  /\ kind (E_UnsupportedSignatureMethod uri) = UnsupportedAlgorithm.
Proof.
  intros uri supported. unfold checkSignatureMethod, getSignatureMethodAlgorithmType.
  fold uri. subst supported.
  destruct (String.eqb_spec uri URI_ID_RSA_SHA1) as [E1|N1];
    destruct (String.eqb_spec uri URI_ID_RSA_SHA224) as [E2|N2];
    destruct (String.eqb_spec uri URI_ID_RSA_SHA256) as [E3|N3];
    simpl; repeat split; intros; try discriminate; try tauto;
    try (inversion H; reflexivity).
Qed.

(** Without the C14N 1.1 constants only the first three methods are
    compiled in. *)
Lemma setProcessingFlags_without_C14N11 (uri : string) (c : Canonicalizer) :
  defined_URI_ID_C14N11_NOC W = false ->
  (setProcessingFlags W uri c = throw (E_UnsupportedCanonicalization uri)
   <-> ~ (uri = URI_ID_C14N_NOC \/ uri = URI_ID_C14N_COM \/ uri = URI_ID_EXC_C14N_NOC)).
Proof.
  intros Off. unfold setProcessingFlags. rewrite Off. simpl.
  destruct (String.eqb_spec uri URI_ID_C14N_NOC);
    destruct (String.eqb_spec uri URI_ID_C14N_COM);
    destruct (String.eqb_spec uri URI_ID_EXC_C14N_NOC);
    split; intros; try discriminate; try tauto.
Qed.

(** C6: calcDigestOnNode dispatches on the CanonicalizationMethod
    URI of SignedInfo over exactly five cases: C14N 1.0 without
    comments (the default settings), C14N 1.0 with comments,
    exclusive C14N 1.0 without comments with the inclusive prefix
    list {"ds"}, C14N 1.1 without and with comments; every other URI
    raises the unsupported-canonicalization error.  The node is
    looked up first, so the statement is about a document in which
    it is found once. *)
Theorem calcDigestOnNode_dispatch (s : Signature) (calc : Digest) (ns tagName : string)
        (dom : DOMDocument W) (node : DOMNode W) :
  defined_URI_ID_C14N11_NOC W = true ->
  createDom W s = Return dom ->
  getElementsByTagNameNS W dom ns tagName = [node] ->
  let uri := dsig.algorithm (dsig.canonicalizationMethod (signedInfo (_sign s))) in
  let digest_with settings := Return (hash calc (outputBuffer W settings dom node)) in
  let result := calcDigestOnNode W s calc ns tagName in
  (uri = URI_ID_C14N_NOC ->
   result = digest_with {| commentsProcessing := false; useNamespaceStack := true;
                           mode := Inclusive10 |})
  /\ (uri = URI_ID_C14N_COM ->
      result = digest_with {| commentsProcessing := true; useNamespaceStack := true;
                              mode := Inclusive10 |})
  /\ (uri = URI_ID_EXC_C14N_NOC ->
      result = digest_with {| commentsProcessing := false; useNamespaceStack := true;
                              mode := Exclusive ["ds"] |})
  /\ (uri = URI_ID_C14N11_NOC ->
      result = digest_with {| commentsProcessing := false; useNamespaceStack := true;
                              mode := Inclusive11 |})
  /\ (uri = URI_ID_C14N11_COM ->
      result = digest_with {| commentsProcessing := true; useNamespaceStack := true;
                              mode := Inclusive11 |})
  /\ (result = throw (E_UnsupportedCanonicalization uri)
      <-> ~ In uri [URI_ID_C14N_NOC; URI_ID_C14N_COM; URI_ID_EXC_C14N_NOC;
                    URI_ID_C14N11_NOC; URI_ID_C14N11_COM])
  /\ kind (E_UnsupportedCanonicalization uri) = UnsupportedAlgorithm.
Proof.
  intros On Dom Nodes uri digest_with result. subst result digest_with.
  unfold calcDigestOnNode. rewrite Dom. simpl bind. rewrite Nodes. simpl bind.
  fold uri. unfold setProcessingFlags. rewrite On. simpl andb.
  repeat split.
  1-5: intros ->; reflexivity.
  - intros H [E|[E|[E|[E|[E|[]]]]]]; rewrite <- E in H; discriminate H.
  - intros N. simpl in N.
    destruct (String.eqb_spec uri URI_ID_C14N_NOC); [exfalso; auto|].
    destruct (String.eqb_spec uri URI_ID_C14N_COM); [exfalso; auto|].
    destruct (String.eqb_spec uri URI_ID_EXC_C14N_NOC); [exfalso; auto|].
    destruct (String.eqb_spec uri URI_ID_C14N11_NOC); [exfalso; auto 6|].
    destruct (String.eqb_spec uri URI_ID_C14N11_COM); [exfalso; auto 7|].
    reflexivity.
Qed.

End AlgorithmProperties.

(** On the sample signature, which names C14N 1.0, the digest of
    SignedInfo is taken with the default settings. *)
Lemma calcDigestOnNode_dispatch_witness :
  calcDigestOnNode (Sample.world Sample.tm132)
                   (Sample.signature Sample.tm132 XAdES132Signature)
                   Sample.digest DSIG_NAMESPACE "SignedInfo"
  = Return [Byte.x07].
Proof.
  exact (proj1 (calcDigestOnNode_dispatch (Sample.world Sample.tm132)
                  (Sample.signature Sample.tm132 XAdES132Signature)
                  Sample.digest DSIG_NAMESPACE "SignedInfo" Sample.xml "SignedInfo"
                  eq_refl eq_refl eq_refl) eq_refl).
Defined.

(** ** Parsing *)

Section ParseProperties.
Context (W : Collaborators).

(** What a successful parse tells about the document. *)
Lemma parse_Return (xml_buf : bytes) (s : Signature) :
  parse W xml_buf = Return s ->
  exists sig o,
    dsig_signature W xml_buf = Some sig /\ _sign s = sig /\ _xml s = xml_buf
    /\ object sig = [o]
    /\ ((exists qp1, qualifyingProperties o = [] /\ qualifyingProperties1 o = [qp1]
                     /\ dialect s = XAdES111Signature)
        \/ (exists qp, qualifyingProperties o = [qp] /\ qualifyingProperties1 o = []
                       /\ dialect s = XAdES132Signature)).
Proof.
  unfold parse. destruct (dsig_signature W xml_buf) as [sig|]; [|discriminate].
  simpl bind. destruct (object sig) as [|o [|o' os]] eqn:Os; simpl; try discriminate.
  destruct (qualifyingProperties o) as [|qp [|qp' qps]] eqn:Q;
    destruct (qualifyingProperties1 o) as [|qp1 [|qp1' qp1s]] eqn:Q1;
    simpl; try discriminate; intros [= <-]; exists sig, o; simpl;
    repeat split; eauto.
Qed.

(** C4: for a schema-valid document, parse fails with a structural
    error unless there is exactly one Object; given one Object it
    fails unless exactly one of the QualifyingProperties (v1.3.2) and
    QualifyingProperties1 (v1.1.1) sequences is non-empty and that
    sequence has exactly one element; when the conditions hold it
    builds an XAdES111Signature for QualifyingProperties1 and an
    XAdES132Signature for QualifyingProperties, over the same parsed
    document and byte buffer. *)
Theorem parse_dialect (xml_buf : bytes) (sig : SignatureType) :
  dsig_signature W xml_buf = Some sig ->
  let only_111 o := qualifyingProperties o = []
                    /\ exists qp1, qualifyingProperties1 o = [qp1] in
  let only_132 o := qualifyingProperties1 o = []
                    /\ exists qp, qualifyingProperties o = [qp] in
  (List.length (object sig) <> 1 ->
   exists f, parse W xml_buf = throw f /\ kind f = InvalidStructure)
  /\ (forall o, object sig = [o] -> ~ only_111 o -> ~ only_132 o ->
                exists f, parse W xml_buf = throw f /\ kind f = InvalidStructure)
  /\ (forall o, object sig = [o] -> only_111 o ->
                parse W xml_buf = Return {| _sign := sig; _xml := xml_buf;
                                            dialect := XAdES111Signature |})
  /\ (forall o, object sig = [o] -> only_132 o ->
                parse W xml_buf = Return {| _sign := sig; _xml := xml_buf;
                                            dialect := XAdES132Signature |}).
Proof.
  intros Doc only_111 only_132. subst only_111 only_132.
  unfold parse. rewrite Doc. simpl bind. repeat split.
  - destruct (object sig) as [|o [|o' os]]; simpl; intros L;
      [ | lia | ]; eexists; split; reflexivity.
  - intros o -> N1 N2. simpl.
    destruct (qualifyingProperties o) as [|qp [|qp' qps]];
      destruct (qualifyingProperties1 o) as [|qp1 [|qp1' qp1s]];
      simpl; try (eexists; split; reflexivity); exfalso.
    + apply N1. split; [reflexivity | now exists qp1].
    + apply N2. split; [reflexivity | now exists qp].
  - intros o Ho [Q [qp1 Q1]]. rewrite Ho. simpl. rewrite Q, Q1. reflexivity.
  - intros o Ho [Q1 [qp Q]]. rewrite Ho. simpl. rewrite Q, Q1. reflexivity.
Qed.

End ParseProperties.

(** The two sample documents select the two dialects. *)
Lemma parse_dialect_witness :
  parse (Sample.world Sample.tm111) Sample.xml
  = Return (Sample.signature Sample.tm111 XAdES111Signature)
  /\ parse (Sample.world Sample.tm132) Sample.xml
     = Return (Sample.signature Sample.tm132 XAdES132Signature).
Proof.
  split.
  - refine (proj1 (proj2 (proj2
      (parse_dialect (Sample.world Sample.tm111) Sample.xml Sample.tm111 eq_refl)))
      _ eq_refl _).
    split; [reflexivity | eexists; reflexivity].
  - refine (proj2 (proj2 (proj2
      (parse_dialect (Sample.world Sample.tm132) Sample.xml Sample.tm132 eq_refl)))
      _ eq_refl _).
    split; [reflexivity | eexists; reflexivity].
Defined.

(** ** Navigation to the OCSP response *)

Section NavigationFacts.

(** XAdES132Signature::getOCSPResponseValue, case by case. *)
Lemma getOCSPResponseValue132_cases (s : Signature) (o : ObjectType)
      (qp : xades132.QualifyingPropertiesType) :
  object (_sign s) = [o] -> qualifyingProperties o = [qp] ->
  XAdES132.getOCSPResponseValue s =
  match xades132.unsignedProperties qp with
  | None => throw E_MissingUnsignedProperties
  | Some up =>
      match xades132.unsignedSignatureProperties up with
      | None => throw E_UnsignedSigPropsMissing
      | Some usp =>
          match xades132.revocationValues usp with
          | [] => throw E_RevocationValuesMissing
          | rv :: _ =>
              match xades.oCSPValues rv with
              | None => Undefined AbsentOptional
              | Some values =>
                  match xades.encapsulatedOCSPValue values with
                  | [] => Undefined IndexOutOfBounds
                  | response :: _ => Return response
                  end
              end
          end
      end
  end.
Proof.
  intros Os Qs.
  unfold XAdES132.getOCSPResponseValue, XAdES132.unsignSigProps,
    XAdES132.qualifyingProperties_0.
  rewrite Os. simpl. rewrite Qs. simpl.
  destruct (xades132.unsignedProperties qp) as [up|]; simpl; [|reflexivity].
  destruct (xades132.unsignedSignatureProperties up) as [usp|]; simpl; [|reflexivity].
  destruct (xades132.revocationValues usp) as [|rv rvs]; simpl; [reflexivity|].
  destruct (xades.oCSPValues rv) as [values|]; simpl; [|reflexivity].
  now destruct (xades.encapsulatedOCSPValue values).
Qed.

(** XAdES111Signature::getOCSPResponseValue, case by case. *)
Lemma getOCSPResponseValue111_cases (s : Signature) (o : ObjectType)
      (qp : xades111.QualifyingPropertiesType) :
  object (_sign s) = [o] -> qualifyingProperties1 o = [qp] ->
  XAdES111.getOCSPResponseValue s =
  match xades111.unsignedProperties qp with
  | None => throw E_MissingUnsignedProperties
  | Some up =>
      match xades111.unsignedSignatureProperties up with
      | None => throw E_UnsignedSigPropsMissing
      | Some usp =>
          match xades111.revocationValues usp with
          | None => throw E_RevocationValuesMissing
          | Some rv =>
              match xades.oCSPValues rv with
              | None => Undefined AbsentOptional
              | Some values =>
                  match xades.encapsulatedOCSPValue values with
                  | [] => Undefined IndexOutOfBounds
                  | response :: _ => Return response
                  end
              end
          end
      end
  end.
Proof.
  intros Os Qs.
  unfold XAdES111.getOCSPResponseValue, XAdES111.unsignSigProps,
    XAdES111.qualifyingProperties1_0.
  rewrite Os. simpl. rewrite Qs. simpl.
  destruct (xades111.unsignedProperties qp) as [up|]; simpl; [|reflexivity].
  destruct (xades111.unsignedSignatureProperties up) as [usp|]; simpl; [|reflexivity].
  destruct (xades111.revocationValues usp) as [rv|]; simpl; [|reflexivity].
  destruct (xades.oCSPValues rv) as [values|]; simpl; [|reflexivity].
  now destruct (xades.encapsulatedOCSPValue values).
Qed.

(** C5 (the code departs from it): getOCSPResponseValue guards
    UnsignedProperties, UnsignedSignatureProperties and
    RevocationValues, but on a parsed signature whose
    RevocationValues element has no OCSPValues child it calls get()
    on the absent optional, in both dialects, where the claim
    promises a missing-element error. *)
Theorem getOCSPResponseValue_absent_OCSPValues :
  parse (Sample.world Sample.noOCSPValues132) Sample.xml
  = Return (Sample.signature Sample.noOCSPValues132 XAdES132Signature)
  /\ getOCSPResponseValue (Sample.signature Sample.noOCSPValues132 XAdES132Signature)
     = Undefined AbsentOptional
  /\ parse (Sample.world Sample.noOCSPValues111) Sample.xml
     = Return (Sample.signature Sample.noOCSPValues111 XAdES111Signature)
  /\ getOCSPResponseValue (Sample.signature Sample.noOCSPValues111 XAdES111Signature)
     = Undefined AbsentOptional.
Proof. repeat split; reflexivity. Qed.

End NavigationFacts.

(** ** Qualifying properties *)

Section QualifyingPropertiesChecks.
Context (W : Collaborators).

(** The errors of validateIdentifier never come out of
    checkQualifyingProperties. *)
Lemma checkQualifyingProperties_not_Id_error (s : Signature) (f : Failure) :
  checkQualifyingProperties s = throw f -> f <> E_IdMissing /\ f <> E_IdEmpty.
Proof.
  unfold checkQualifyingProperties, XAdES111.checkQualifyingProperties,
    XAdES132.checkQualifyingProperties, XAdES111.checkSignedSignatureProperties,
    XAdES132.checkSignedSignatureProperties, throw_if, throw, seq_at, opt_get.
  destruct (dialect s);
    repeat match goal with
           | |- context [match ?x with _ => _ end] =>
               match x with
               | context [match _ with _ => _ end] => fail 1
               | _ => destruct x; simpl
               end
           end;
    intros H; try discriminate H; injection H as <-; split; discriminate.
Qed.

(** C10: on a signature whose Id attribute is absent,
    checkQualifyingProperties of either dialect applies get() to the
    absent optional to build "#" + Id; validateOffline starts with
    that call and never runs validateIdentifier, the one function
    that tests the presence and non-emptiness of Id. *)
Theorem checkQualifyingProperties_absent_Id (xml_buf : bytes) (s : Signature)
        (store : option (X509CertStore W)) (ci : ContainerInfo W) :
  parse W xml_buf = Return s ->
  id (_sign s) = None ->
  checkQualifyingProperties s = Undefined AbsentOptional
  /\ fst (validateOffline W s store ci) = Undefined AbsentOptional
  /\ validateIdentifier s = throw E_IdMissing
  /\ (forall f, checkQualifyingProperties s = throw f ->
                f <> E_IdMissing /\ f <> E_IdEmpty).
Proof.
  intros P NoId.
  assert (checkQualifyingProperties s = Undefined AbsentOptional) as Q.
  { apply parse_Return in P.
    destruct P as (sig & o & _ & <- & _ & Os & [(qp1 & Q & Q1 & D) | (qp & Q & Q1 & D)]);
      unfold checkQualifyingProperties; rewrite D;
      [unfold XAdES111.checkQualifyingProperties
      | unfold XAdES132.checkQualifyingProperties];
      rewrite Os; simpl; [rewrite Q1 | rewrite Q]; simpl; now rewrite NoId. }
  repeat split.
  - exact Q.
  - unfold validateOffline. now rewrite Q.
  - unfold validateIdentifier. now rewrite NoId.
  - apply (checkQualifyingProperties_not_Id_error s f H).
  - apply (checkQualifyingProperties_not_Id_error s f H).
Qed.

End QualifyingPropertiesChecks.

(** validateIdentifier rejects an empty Id, validateOffline accepts the
    document that carries one. *)
Example validateOffline_accepts_empty_Id :
  validateIdentifier (Sample.signature Sample.emptyId132 XAdES132Signature)
  = throw E_IdEmpty
  /\ fst (validateOffline (Sample.world Sample.emptyId132)
            (Sample.signature Sample.emptyId132 XAdES132Signature) (Some tt) 1)
     = Return tt.
Proof. split; reflexivity. Qed.

(** The sample documents without Id, one per dialect. *)
Lemma checkQualifyingProperties_absent_Id_witness :
  checkQualifyingProperties (Sample.signature Sample.noId132 XAdES132Signature)
  = Undefined AbsentOptional
  /\ checkQualifyingProperties (Sample.signature Sample.noId111 XAdES111Signature)
     = Undefined AbsentOptional.
Proof.
  split.
  - exact (proj1 (checkQualifyingProperties_absent_Id (Sample.world Sample.noId132)
                    Sample.xml (Sample.signature Sample.noId132 XAdES132Signature)
                    None 1 eq_refl eq_refl)).
  - exact (proj1 (checkQualifyingProperties_absent_Id (Sample.world Sample.noId111)
                    Sample.xml (Sample.signature Sample.noId111 XAdES111Signature)
                    None 1 eq_refl eq_refl)).
Defined.

Section PolicyProperties.

Lemma checkSignedSignatureProperties132_policy (s : Signature) :
  hasSignaturePolicyIdentifier132 s ->
  XAdES132.checkSignedSignatureProperties s <> Return tt
  /\ stack_only (XAdES132.checkSignedSignatureProperties s).
Proof.
  intros (ssp & policy & Nav & Pol). unfold signedSignatureProperties132 in Nav.
  unfold XAdES132.checkSignedSignatureProperties.
  destruct (object (_sign s)) as [|o [|o' os]]; try discriminate; simpl;
    [|split; [discriminate | exact I]].
  destruct (qualifyingProperties o) as [|qp [|qp' qps]]; try discriminate; simpl;
    [|split; [discriminate | exact I]].
  destruct (xades132.signedProperties qp) as [sp|]; try discriminate; simpl.
  injection Nav as <-. rewrite Pol. simpl. split; [discriminate | exact I].
Qed.

Lemma checkQualifyingProperties111_policy (p : xades.SignaturePolicyIdentifierType)
      (s : Signature) :
  XAdES111.checkQualifyingProperties (with_SignaturePolicyIdentifier111 p s)
  = XAdES111.checkQualifyingProperties s.
Proof.
  unfold XAdES111.checkQualifyingProperties, XAdES111.checkSignedSignatureProperties.
  simpl. destruct (object (_sign s)) as [|o os]; simpl; [reflexivity|].
  destruct (qualifyingProperties1 o) as [|qp [|qp' qps]]; simpl;
    rewrite ?length_map; try reflexivity.
  destruct (id (_sign s)) as [i|]; simpl; [|reflexivity].
  destruct (negb _); simpl; [reflexivity|].
  destruct os; simpl; [|reflexivity].
  destruct (xades111.signedProperties qp); simpl; reflexivity.
Qed.

(** C7: a SignaturePolicyIdentifier in SignedSignatureProperties
    makes checkQualifyingProperties fail, through
    checkSignedSignatureProperties, on every v1.3.2 signature, and
    has no influence on the result for a v1.1.1 signature.  With the
    Id present the v1.3.2 failure is a thrown error (without it the
    absent Id is dereferenced first), and when the target matches it
    is the policy error. *)
Theorem SignaturePolicyIdentifier_enforcement (s : Signature)
        (p : xades.SignaturePolicyIdentifierType) :
  (dialect s = XAdES132Signature -> hasSignaturePolicyIdentifier132 s ->
   checkQualifyingProperties s <> Return tt
   /\ (forall i, id (_sign s) = Some i ->
                 exists f, checkQualifyingProperties s = throw f)
   /\ (forall i o qp,
          id (_sign s) = Some i -> object (_sign s) = [o] ->
          qualifyingProperties o = [qp] -> xades132.target qp = "#" ++ i ->
          checkQualifyingProperties s = throw E_SignaturePolicyInvalid))
  /\ (dialect s = XAdES111Signature ->
      checkQualifyingProperties (with_SignaturePolicyIdentifier111 p s)
      = checkQualifyingProperties s).
Proof.
  split.
  - intros D Has. pose proof (checkSignedSignatureProperties132_policy s Has) as [NR SO].
    unfold checkQualifyingProperties. rewrite D.
    unfold XAdES132.checkQualifyingProperties.
    destruct (XAdES132.checkSignedSignatureProperties s) as [[]|[f|]|u] eqn:C;
      simpl in SO; try contradiction.
    repeat split.
    + destruct (seq_at (object (_sign s)) 0) as [o| |]; simpl; try discriminate.
      destruct (throw_if _ _) as [[]| |]; simpl; try discriminate.
      destruct (seq_at (qualifyingProperties o) 0) as [qp| |]; simpl; try discriminate.
      destruct (opt_get (id (_sign s))) as [i| |]; simpl; try discriminate.
      destruct (throw_if _ _) as [[]| |]; simpl; discriminate.
    + intros i Id. rewrite Id.
      destruct Has as (ssp & policy & Nav & _). unfold signedSignatureProperties132 in Nav.
      destruct (object (_sign s)) as [|o os]; [discriminate|]. simpl.
      destruct (qualifyingProperties o) as [|qp [|qp' qps]]; [discriminate| |];
        simpl; [|eexists; reflexivity].
      destruct (negb _); simpl; eexists; reflexivity.
    + intros i o qp Id Os Qs T. rewrite Os. simpl. rewrite Qs. simpl.
      rewrite Id. simpl. rewrite T, String.eqb_refl. simpl.
      destruct Has as (ssp & policy & Nav & Pol).
      unfold signedSignatureProperties132 in Nav. rewrite Os, Qs in Nav.
      revert C. unfold XAdES132.checkSignedSignatureProperties.
      rewrite Os. simpl. rewrite Qs. simpl.
      destruct (xades132.signedProperties qp) as [sp|]; [|discriminate].
      injection Nav as <-. simpl. rewrite Pol. simpl. now intros [= <-].
  - intros D. unfold checkQualifyingProperties. simpl. rewrite D.
    apply checkQualifyingProperties111_policy.
Qed.

End PolicyProperties.

(** The v1.3.2 sample with a policy identifier is rejected for it; the
    v1.1.1 sample gives the same result with either identifier. *)
Lemma SignaturePolicyIdentifier_enforcement_witness :
  checkQualifyingProperties (Sample.signature Sample.policy132 XAdES132Signature)
  = throw E_SignaturePolicyInvalid
  /\ checkQualifyingProperties
       (with_SignaturePolicyIdentifier111 (xades.SignaturePolicyId "urn:oid:1.3.6.1.4.1.10015")
          (Sample.signature Sample.tm111 XAdES111Signature))
     = checkQualifyingProperties (Sample.signature Sample.tm111 XAdES111Signature).
Proof.
  split.
  - refine (proj2 (proj2 (proj1
      (SignaturePolicyIdentifier_enforcement
         (Sample.signature Sample.policy132 XAdES132Signature) xades.SignaturePolicyImplied)
      eq_refl _)) "S0" _ _ eq_refl eq_refl eq_refl eq_refl).
    eexists; eexists; split; reflexivity.
  - exact (proj2 (SignaturePolicyIdentifier_enforcement
                    (Sample.signature Sample.tm111 XAdES111Signature)
                    (xades.SignaturePolicyId "urn:oid:1.3.6.1.4.1.10015")) eq_refl).
Defined.

(** ** Offline validation *)

Section OfflineProperties.
Context (W : Collaborators).

Lemma getSigningCertificate_stack_only (s : Signature) :
  stack_only (getSigningCertificate W s).
Proof.
  unfold getSigningCertificate, getSigningX509CertificateType.
  destruct (keyInfo (_sign s)) as [ki|]; simpl; [|exact I].
  destruct (dsig.x509Data ki) as [|d [|d' ds]]; simpl; try exact I.
  destruct (dsig.x509Certificate d) as [|c [|c' cs]]; simpl; try exact I.
  apply stack_only_or_throw.
Qed.

Lemma checkSigningCertificate_stack_only (s : Signature)
      (store : option (X509CertStore W)) :
  stack_only (checkSigningCertificate W s store).
Proof.
  unfold checkSigningCertificate.
  apply stack_only_bind; [apply getSigningCertificate_stack_only|].
  intros c _. destruct store; [apply stack_only_throw_if | exact I].
Qed.

Lemma checkSignatureValue_stack_only (s : Signature) :
  stack_only (checkSignatureValue W s).
Proof.
  unfold checkSignatureValue.
  apply stack_only_bind; [apply getSigningCertificate_stack_only|]. intros c _.
  apply stack_only_bind; [apply stack_only_or_throw|]. intros uri _.
  apply stack_only_bind; [apply stack_only_or_throw|]. intros calc _.
  apply stack_only_bind; [apply calcDigestOnNode_stack_only|]. intros d _.
  apply stack_only_throw_if.
Qed.

(** The tail shared by the two checkKeyInfo bodies. *)
Lemma certDigest_check_stack_only (x509 : X509Cert) (c : xades.CertIDType) :
  let alg := dsig.algorithm (xades.digestMethod (xades.certDigest c)) in
  stack_only
    (throw_if (negb (Digest_isSupported W alg)) (E_CertDigestUnsupported alg) ;;;
     throw_if (compareIssuerToString W x509 (dsig.x509IssuerName (xades.issuerSerial c))
               || negb (getSerial x509 =? dsig.x509SerialNumber (xades.issuerSerial c))%Z)
              E_IssuerInfoInvalid ;;;
     certDigestCalc <- or_throw (Digest_create W alg) (E_Collab_Digest alg) ;;
     throw_if (negb (List.length (xades.digestValue (xades.certDigest c))
                     =? getSize certDigestCalc)%nat)
              E_CertDigestLength ;;;
     compare_digests (getSize certDigestCalc) (hash certDigestCalc (encodeDER x509))
                     (xades.digestValue (xades.certDigest c)) E_CertDigestValue).
Proof.
  intros alg.
  apply stack_only_bind; [apply stack_only_throw_if|]. intros [] _.
  apply stack_only_bind; [apply stack_only_throw_if|]. intros [] _.
  apply stack_only_bind; [apply stack_only_or_throw|]. intros calc _.
  apply stack_only_bind; [apply stack_only_throw_if|]. intros [] L.
  apply throw_if_Return, negb_false_iff, Nat.eqb_eq in L.
  apply compare_digests_stack_only; [rewrite hash_size|]; lia.
Qed.

Lemma checkKeyInfo_stack_only (s : Signature) : stack_only (checkKeyInfo W s).
Proof.
  unfold checkKeyInfo.
  destruct (dialect s); [unfold XAdES111.checkKeyInfo | unfold XAdES132.checkKeyInfo];
    (apply stack_only_bind; [apply getSigningCertificate_stack_only|]); intros x509 _;
    (destruct (object (_sign s)) as [|o [|o' os]]; simpl; try exact I).
  - destruct (qualifyingProperties1 o) as [|qp [|qp' qps]]; simpl; try exact I.
    destruct (xades111.signedProperties qp) as [sp|]; simpl; try exact I.
    destruct (xades.cert _) as [|c [|c' cs]]; simpl; try exact I.
    apply certDigest_check_stack_only.
  - destruct (qualifyingProperties o) as [|qp [|qp' qps]]; simpl; try exact I.
    destruct (xades132.signedProperties qp) as [sp|]; simpl; try exact I.
    destruct (xades132.signingCertificate _) as [sc|]; simpl; try exact I.
    destruct (xades.cert sc) as [|c [|c' cs]]; simpl; try exact I.
    apply certDigest_check_stack_only.
Qed.

Lemma checkIntegrity_stack_only (s : Signature) (ci : ContainerInfo W) :
  stack_only (fst (checkIntegrity W s ci)).
Proof.
  unfold checkIntegrity.
  pose proof (stack_only_throw_if
                (negb (getSignatureMethodAlgorithmType s =? URI_ID_RSA_SHA1)
                 && negb (getSignatureMethodAlgorithmType s =? URI_ID_RSA_SHA224)
                 && negb (getSignatureMethodAlgorithmType s =? URI_ID_RSA_SHA256))
                (E_UnsupportedSignatureMethod (getSignatureMethodAlgorithmType s))) as M.
  change (stack_only (checkSignatureMethod s)) in M.
  destruct (checkSignatureMethod s) as [[]|e|u]; simpl; try exact M.
  pose proof (checkReferences_stack_only W s ci) as R.
  destruct (checkReferences W s ci) as [[[]|e|u] ci']; simpl in *; try exact R.
  apply stack_only_bind; [apply checkKeyInfo_stack_only|]. intros [] _.
  apply checkSignatureValue_stack_only.
Qed.

(** With its Id present, a parsed signature passes through
    checkQualifyingProperties without undefined behaviour. *)
Lemma checkQualifyingProperties_stack_only (xml_buf : bytes) (s : Signature) (i : string) :
  parse W xml_buf = Return s -> id (_sign s) = Some i ->
  stack_only (checkQualifyingProperties s).
Proof.
  intros P Id. apply parse_Return in P.
  destruct P as (sig & o & _ & <- & _ & Os & [(qp1 & Q & Q1 & D) | (qp & Q & Q1 & D)]);
    unfold checkQualifyingProperties; rewrite D;
    [unfold XAdES111.checkQualifyingProperties, XAdES111.checkSignedSignatureProperties
    | unfold XAdES132.checkQualifyingProperties, XAdES132.checkSignedSignatureProperties];
    rewrite Os; simpl; [rewrite Q1 | rewrite Q]; simpl; rewrite Id; simpl;
    (destruct (negb _); simpl; [exact I|]).
  - destruct (xades111.signedProperties qp1) as [sp|]; simpl; [|exact I].
    destruct (xades111.unsignedProperties qp1) as [up|]; simpl; [|exact I].
    apply stack_only_throw_if.
  - destruct (xades132.signedProperties qp) as [sp|]; simpl; [|exact I].
    destruct (present _); simpl; [exact I|].
    destruct (xades132.unsignedProperties qp) as [up|]; simpl; [|exact I].
    apply stack_only_throw_if.
Qed.

Lemma checkIntegrity_Return (s : Signature) (ci : ContainerInfo W) :
  fst (checkIntegrity W s ci) = Return tt
  <-> checkSignatureMethod s = Return tt
      /\ fst (checkReferences W s ci) = Return tt
      /\ checkKeyInfo W s = Return tt
      /\ checkSignatureValue W s = Return tt.
Proof.
  unfold checkIntegrity.
  destruct (checkSignatureMethod s) as [[]|e|u]; simpl;
    [|split; [discriminate | intros [H _]; discriminate H] ..].
  destruct (checkReferences W s ci) as [[[]|e|u] ci']; simpl;
    [|split; [discriminate | intros (_ & H & _); discriminate H] ..].
  destruct (checkKeyInfo W s) as [[]|e|u]; simpl;
    [|split; [discriminate | intros (_ & _ & H & _); discriminate H] ..].
  tauto.
Qed.

(** checkQualifyingProperties raises stack exceptions only. *)
Lemma checkQualifyingProperties_no_foreign_exception (s : Signature) :
  checkQualifyingProperties s <> Throws std_out_of_range.
Proof.
  unfold checkQualifyingProperties, XAdES111.checkQualifyingProperties,
    XAdES132.checkQualifyingProperties, XAdES111.checkSignedSignatureProperties,
    XAdES132.checkSignedSignatureProperties, throw_if, throw, seq_at, opt_get.
  destruct (dialect s);
    repeat match goal with
           | |- context [match ?x with _ => _ end] =>
               match x with
               | context [match _ with _ => _ end] => fail 1
               | _ => destruct x; simpl
               end
           end;
    discriminate.
Qed.

(** X22: validateOffline returns normally exactly when its three
    groups of checks (checkQualifyingProperties; checkSignatureMethod,
    checkReferences, checkKeyInfo, checkSignatureValue;
    checkSigningCertificate) all return.  Whenever the first group
    ends by returning or throwing, which it does on every parsed
    signature that carries an Id, each group is evaluated whatever
    the others did, the errors of the failing groups are collected in
    order, and the combined error is thrown exactly when some group
    failed. *)
Theorem validateOffline_accumulates (s : Signature)
        (store : option (X509CertStore W)) (ci : ContainerInfo W) :
  let groupA := checkQualifyingProperties s in
  let groupB := fst (checkIntegrity W s ci) in
  let groupC := checkSigningCertificate W s store in
  let causes := (failures groupA ++ failures groupB ++ failures groupC)%list in
  let result := fst (validateOffline W s store ci) in
  (result = Return tt
   <-> groupA = Return tt /\ groupB = Return tt /\ groupC = Return tt)
  /\ (groupB = Return tt
      <-> checkSignatureMethod s = Return tt
          /\ fst (checkReferences W s ci) = Return tt
          /\ checkKeyInfo W s = Return tt
          /\ checkSignatureValue W s = Return tt)
  /\ ((forall u, groupA <> Undefined u) ->
      result = (if empty causes then Return tt else throw (E_SignatureInvalid causes))
      /\ ((exists f, result = throw f)
          <-> (exists f, groupA = throw f) \/ (exists f, groupB = throw f)
              \/ (exists f, groupC = throw f)))
  /\ (forall xml_buf i,
         parse W xml_buf = Return s -> id (_sign s) = Some i ->
         forall u, groupA <> Undefined u).
Proof.
  cbv zeta.
  pose proof (checkQualifyingProperties_no_foreign_exception s) as SA.
  pose proof (checkIntegrity_stack_only s ci) as SB.
  pose proof (checkSigningCertificate_stack_only s store) as SC.
  pose proof (checkIntegrity_Return s ci) as RB.
  pose proof (checkQualifyingProperties_stack_only) as Parsed.
  specialize (fun x i P I => Parsed x s i P I).
  unfold validateOffline.
  destruct (checkIntegrity W s ci) as [groupB ci']. simpl fst in *.
  split; [|split; [exact RB|split]].
  - destruct (checkQualifyingProperties s) as [[]|[fa|]|ua]; try (now elim SA);
      destruct groupB as [[]|[fb|]|ub]; simpl in SB; try contradiction;
      destruct (checkSigningCertificate W s store) as [[]|[fc|]|uc]; simpl in SC;
      try contradiction; simpl;
      (split; [try discriminate | intros (? & ? & ?); try discriminate]);
      now repeat split.
  - intros Defd.
    destruct (checkQualifyingProperties s) as [[]|[fa|]|ua]; try (now elim SA);
      try (now elim (Defd ua));
      destruct groupB as [[]|[fb|]|ub]; simpl in SB; try contradiction;
      destruct (checkSigningCertificate W s store) as [[]|[fc|]|uc]; simpl in SC;
      try contradiction; simpl; (split; [reflexivity|]);
      try (split; [intros _ | intros _; eexists; reflexivity];
           first [ left; eexists; reflexivity
                 | right; left; eexists; reflexivity
                 | right; right; eexists; reflexivity ]).
    split; [intros [f H]; discriminate H|].
    intros [[f H] | [[f H] | [f H]]]; discriminate H.
  - intros xml_buf i P Id u E. specialize (Parsed xml_buf i P Id).
    rewrite E in Parsed. exact Parsed.
Qed.

(** On a parsed signature without Id the first group applies get() to
    the absent optional. *)
Lemma checkQualifyingProperties_without_Id (xml_buf : bytes) (s : Signature) :
  parse W xml_buf = Return s -> id (_sign s) = None ->
  checkQualifyingProperties s = Undefined AbsentOptional.
Proof.
  intros P NoId. apply parse_Return in P.
  destruct P as (sig & o & _ & <- & _ & Os & [(qp1 & Q & Q1 & D) | (qp & Q & Q1 & D)]);
    unfold checkQualifyingProperties; rewrite D;
    [unfold XAdES111.checkQualifyingProperties
    | unfold XAdES132.checkQualifyingProperties];
    rewrite Os; simpl; [rewrite Q1 | rewrite Q]; simpl; now rewrite NoId.
Qed.

(** C3: validateOffline does not collect the errors of its three
    groups on every signature.  On a parsed signature whose Id
    attribute is absent the first group, checkQualifyingProperties,
    neither returns nor throws a stack exception: it dereferences the
    absent optional, outside what the catch clause of its try block
    handles.  validateOffline then ends there, whatever the trust
    store and the container and whatever the second and third groups
    would report: it throws no combined error, and no error at all,
    and it does not return normally either, although
    validateIdentifier, which validateOffline does not call, reports
    the missing Id as a stack exception. *)
Theorem validateOffline_absent_Id_not_collected (xml_buf : bytes) (s : Signature)
        (store : option (X509CertStore W)) (ci : ContainerInfo W) :
  parse W xml_buf = Return s ->
  id (_sign s) = None ->
  let result := fst (validateOffline W s store ci) in
  checkQualifyingProperties s = Undefined AbsentOptional
  /\ result = Undefined AbsentOptional
  /\ (forall f, result <> throw f)
  /\ result <> Return tt
  /\ validateIdentifier s = throw E_IdMissing.
Proof.
  intros P NoId. cbv zeta.
  pose proof (checkQualifyingProperties_without_Id xml_buf s P NoId) as Q.
  assert (fst (validateOffline W s store ci) = Undefined AbsentOptional) as R.
  { unfold validateOffline. now rewrite Q. }
  rewrite R. split; [exact Q|]. split; [reflexivity|].
  split; [intros f H; discriminate H|].
  split; [intros H; discriminate H|].
  unfold validateIdentifier. now rewrite NoId.
Qed.

End OfflineProperties.

(** On the v1.3.2 sample with a policy identifier, a container of
    three documents and no trust store, all three groups fail and all
    three errors are reported together. *)
Lemma validateOffline_accumulates_witness :
  fst (validateOffline (Sample.world Sample.policy132)
         (Sample.signature Sample.policy132 XAdES132Signature) None 3)
  = throw (E_SignatureInvalid [E_SignaturePolicyInvalid; E_ReferenceCount 2 4;
                               E_SigningCertUntrusted "CN=VOTER"]).
Proof.
  destruct (validateOffline_accumulates (Sample.world Sample.policy132)
              (Sample.signature Sample.policy132 XAdES132Signature) None 3)
    as (_ & _ & Thrown & Defined_on_parsed).
  exact (proj1 (Thrown (Defined_on_parsed Sample.xml "S0" eq_refl eq_refl))).
Defined.

(** The v1.3.2 sample without Id, a container of three documents and
    no trust store: the second group reports the reference count and
    the third the untrusted certificate, and validateOffline reports
    neither. *)
Lemma validateOffline_absent_Id_not_collected_witness :
  fst (checkIntegrity (Sample.world Sample.noId132)
         (Sample.signature Sample.noId132 XAdES132Signature) 3)
  = throw (E_ReferenceCount 2 4)
  /\ checkSigningCertificate (Sample.world Sample.noId132)
       (Sample.signature Sample.noId132 XAdES132Signature) None
     = throw (E_SigningCertUntrusted "CN=VOTER")
  /\ fst (validateOffline (Sample.world Sample.noId132)
            (Sample.signature Sample.noId132 XAdES132Signature) None 3)
     = Undefined AbsentOptional
  /\ forall causes,
       fst (validateOffline (Sample.world Sample.noId132)
              (Sample.signature Sample.noId132 XAdES132Signature) None 3)
       <> throw (E_SignatureInvalid causes).
Proof.
  split; [reflexivity|]. split; [reflexivity|].
  destruct (validateOffline_absent_Id_not_collected (Sample.world Sample.noId132)
              Sample.xml (Sample.signature Sample.noId132 XAdES132Signature) None 3
              eq_refl eq_refl)
    as (_ & Stops & NotThrown & _).
  split; [exact Stops | exact (fun causes => NotThrown (E_SignatureInvalid causes))].
Defined.

(** ** The OCSP prelude *)

Section PrepareProperties.
Context (W : Collaborators).
Import CxxString CxxStringFacts.

(** The common name computed by [prepare], for an issuer name that
    contains "CN=". *)
Lemma issure_cn_spec (issuer : string) :
  (size issuer < 2 ^ 31)%Z -> occurs_in "CN=" issuer ->
  exists pre cn rest,
    issuer = pre ++ "CN=" ++ cn ++ rest
    /\ (forall pre' rest', issuer = pre' ++ "CN=" ++ rest' ->
                           String.length pre <= String.length pre')
    /\ ~ occurs_in "," cn
    /\ (rest = "" \/ starts_with "," rest)
    /\ issure_cn issuer = Return cn.
Proof.
  intros Small Occ.
  assert (exists pre tail,
             issuer = pre ++ "CN=" ++ tail
             /\ (forall pre' rest', issuer = pre' ++ "CN=" ++ rest' ->
                                    String.length pre <= String.length pre')
             /\ find issuer "CN=" 0 = Z.of_nat (String.length pre))
    as (pre & tail & E & Min & Fp).
  { unfold find.
    replace (size issuer <? 0)%Z with false
      by (symmetry; apply Z.ltb_ge; unfold size; lia).
    change (Z.to_nat 0) with 0. replace (drop 0 issuer) with issuer by now destruct issuer.
    destruct (first_match "CN=" issuer 0) as [p|] eqn:F;
      [|now elim (first_match_None _ _ _ F)].
    destruct (first_match_Some _ _ _ _ F) as (pre & tail & E & Pp & Min).
    simpl in Pp. subst p. now exists pre, tail. }
  unfold issure_cn. rewrite Fp.
  assert (size issuer = Z.of_nat (String.length pre) + 3 + Z.of_nat (String.length tail))%Z
    as Sz.
  { unfold size. rewrite E at 1. rewrite !length_append. simpl String.length. lia. }
  set (p := Z.of_nat (String.length pre)) in *.
  assert (to_int (size_t (p + 3)) = p + 3)%Z as Pos.
  { unfold to_int, size_t. rewrite (Z.mod_small (p + 3)) by lia.
    rewrite Z.mod_small; lia. }
  rewrite Pos.
  assert (size_t (p + 3) = p + 3)%Z as Pos' by (unfold size_t; apply Z.mod_small; lia).
  rewrite Pos'.
  assert (drop (Z.to_nat (p + 3)) issuer = tail) as Dr.
  { replace (Z.to_nat (p + 3)) with (String.length (pre ++ "CN=")).
    - rewrite E at 1. rewrite <- append_assoc. apply drop_append.
    - rewrite length_append. simpl. subst p. lia. }
  unfold find, substr.
  replace (size issuer <? p + 3)%Z with false by (symmetry; apply Z.ltb_ge; lia).
  unfold substr_in_range. rewrite Dr.
  destruct (first_match "," tail (Z.to_nat (p + 3))) as [q|] eqn:G.
  - destruct (first_match_Some _ _ _ _ G) as (cn & rest' & Et & Qq & MinC).
    exists pre, cn, ("," ++ rest'). subst q.
    assert (String.length tail = String.length cn + 1 + String.length rest') as Lt.
    { rewrite Et at 1. rewrite !length_append. simpl. lia. }
    repeat split.
    + now rewrite <- Et.
    + exact Min.
    + intros (a & b & Ecn).
      assert (tail = a ++ "," ++ (b ++ "," ++ rest')) as Et'.
      { rewrite Et, Ecn. now rewrite !append_assoc. }
      apply MinC in Et'. rewrite Ecn, !length_append in Et'. simpl in Et'. lia.
    + right. now exists rest'.
    + f_equal.
      replace (Z.to_nat _) with (String.length cn).
      * rewrite Et. apply take_append.
      * unfold size_t. rewrite Z.mod_small by lia. lia.
  - exists pre, tail, "". repeat split.
    + now rewrite append_nil_r.
    + exact Min.
    + exact (first_match_None _ _ _ G).
    + now left.
    + f_equal. apply take_all. unfold size_t, npos.
      rewrite Z.mod_small by lia. lia.
Qed.

(** An issuer name without "CN=": [find] yields [npos], [pos] wraps to
    2 and the name is cut from its third character. *)
Example issure_cn_without_CN :
  issure_cn "C=EE,O=AS" = Return "EE" /\ issure_cn "" = Throws std_out_of_range.
Proof. split; reflexivity. Qed.

(** C8: prepare takes as issuer CN the part of the issuer name that
    starts right after the first "CN=" and ends before the first ","
    that follows it (at the end of the name when no comma follows);
    it fails with the no-responder error when the configuration has
    no OCSPConf for that CN, whatever the certificate store holds,
    and fails with the issuer-unknown error only when that lookup
    succeeded and the store has no issuer certificate. *)
Theorem prepare_issuer_lookup (v : SignatureValidator W) (signingCert : X509Cert) :
  getSigningCertificate W (_sig v) = Return signingCert ->
  (size (getIssuerName signingCert) < 2 ^ 31)%Z ->
  occurs_in "CN=" (getIssuerName signingCert) ->
  exists pre cn rest,
    getIssuerName signingCert = pre ++ "CN=" ++ cn ++ rest
    /\ (forall pre' rest', getIssuerName signingCert = pre' ++ "CN=" ++ rest' ->
                           String.length pre <= String.length pre')
    /\ ~ occurs_in "," cn
    /\ (rest = "" \/ starts_with "," rest)
    /\ (hasOCSPConf (_conf v) cn = false ->
        prepare W v = throw E_NoOCSPResponder)
    /\ (hasOCSPConf (_conf v) cn = true ->
        getCert W (getCertStore (_conf v)) (getIssuerNameAsn1 signingCert) = None ->
        prepare W v = throw E_IssuerUnknown)
    /\ (hasOCSPConf (_conf v) cn = true ->
        getCert W (getCertStore (_conf v)) (getIssuerNameAsn1 signingCert) <> None ->
        exists v',
          prepare W v =
          Return ({| ocsp_url := url (getOCSPConf (_conf v) cn);
                     ocsp_skew := skew (getOCSPConf (_conf v) cn);
                     ocsp_maxAge := maxAge (getOCSPConf (_conf v) cn);
                     ocsp_certs :=
                       loadX509Stack W (cert (getOCSPConf (_conf v) cn)) |}, v')
          /\ _sig v' = _sig v)
    /\ kind E_NoOCSPResponder = NoOCSPResponder
    /\ kind E_IssuerUnknown = IssuerUnknown.
Proof.
  intros Cert Small Occ.
  destruct (issure_cn_spec _ Small Occ) as (pre & cn & rest & E & Min & NoComma & Rest & CN).
  exists pre, cn, rest. do 4 (split; [assumption|]).
  unfold prepare. rewrite Cert. simpl bind. rewrite CN. simpl bind.
  repeat split.
  - intros ->. reflexivity.
  - intros -> ->. reflexivity.
  - intros -> Store.
    destruct (getCert W _ _) as [x|]; [|contradiction]. simpl.
    eexists. split; reflexivity.
Qed.

End PrepareProperties.

(** For the sample issuer name the CN is "ESTEID-SK 2011"; it has a
    responder configured and the store holds the issuer. *)
Lemma prepare_issuer_lookup_witness :
  exists pre cn rest,
    Sample.issuerDN = pre ++ "CN=" ++ cn ++ rest
    /\ hasOCSPConf (Sample.conf Sample.tm132) cn = true.
Proof.
  destruct (prepare_issuer_lookup (Sample.world Sample.tm132)
              (Sample.validator Sample.tm132 XAdES132Signature)
              {| getIssuerName := Sample.issuerDN; getIssuerNameAsn1 := [Byte.x31];
                 getSerial := 7; getSubject := "CN=VOTER";
                 encodeDER := [Byte.x30; Byte.x82] |}
              eq_refl eq_refl
              (ex_intro _ "C=EE,O=AS Sertifitseerimiskeskus,"
                 (ex_intro _ "ESTEID-SK 2011,E=pki@sk.ee" eq_refl)))
    as (pre & cn & rest & E & Min & NoComma & Rest & No & _).
  exists pre, cn, rest. split; [exact E|].
  destruct (hasOCSPConf (Sample.conf Sample.tm132) cn) eqn:H; [reflexivity|].
  specialize (No H). simpl in No. discriminate No.
Defined.

(** ** Offline time-mark validation *)

Section TimeMarkProperties.
Context (W : Collaborators).

(** When the OCSPRef digest is there, [ocspDigestAlgorithm] names its
    method and [getRevocationOCSPRef] returns its value with the same
    method. *)
Lemma OCSPRef_navigation (s : Signature) (dav : xades.DigestAlgAndValueType) :
  OCSPRef_DigestAlgAndValue s = Some dav ->
  ocspDigestAlgorithm s = Return (dsig.algorithm (xades.digestMethod dav))
  /\ getRevocationOCSPRef s
     = Return (xades.digestValue dav, dsig.algorithm (xades.digestMethod dav)).
Proof.
  unfold OCSPRef_DigestAlgAndValue, first_OCSPRef_digest, ocspDigestAlgorithm,
    getRevocationOCSPRef.
  destruct (object (_sign s)) as [|o os] eqn:Os; [discriminate|].
  destruct (dialect s).
  - unfold XAdES111.ocspDigestAlgorithm, XAdES111.getRevocationOCSPRef,
      XAdES111.unsignSigProps, XAdES111.qualifyingProperties1_0.
    rewrite Os. simpl.
    destruct (qualifyingProperties1 o) as [|qp qps]; [discriminate|]. simpl.
    destruct (xades111.unsignedProperties qp) as [up|]; [|discriminate]. simpl.
    destruct (xades111.unsignedSignatureProperties up) as [usp|]; [|discriminate]. simpl.
    destruct (xades111.completeRevocationRefs usp) as [crr|]; [|discriminate]. simpl.
    destruct (xades.oCSPRefs crr) as [refs|]; [|discriminate]. simpl.
    destruct (xades.oCSPRef refs) as [|ref0 rs]; [discriminate|]. simpl.
    intros ->. simpl. now split.
  - unfold XAdES132.ocspDigestAlgorithm, XAdES132.getRevocationOCSPRef,
      XAdES132.unsignSigProps, XAdES132.qualifyingProperties_0.
    rewrite Os. simpl.
    destruct (qualifyingProperties o) as [|qp qps]; [discriminate|]. simpl.
    destruct (xades132.unsignedProperties qp) as [up|]; [|discriminate]. simpl.
    destruct (xades132.unsignedSignatureProperties up) as [usp|]; [|discriminate]. simpl.
    destruct (xades132.completeRevocationRefs usp) as [|crr cs]; [discriminate|]. simpl.
    destruct (xades.oCSPRefs crr) as [refs|]; [|discriminate]. simpl.
    destruct (xades.oCSPRef refs) as [|ref0 rs]; [discriminate|]. simpl.
    intros ->. simpl. now split.
Qed.

Lemma prepare_sig (v v1 : SignatureValidator W) (ocsp : OCSP) :
  prepare W v = Return (ocsp, v1) -> _sig v1 = _sig v.
Proof.
  unfold prepare. intros H.
  apply bind_Return in H. destruct H as (c & _ & H).
  apply bind_Return in H. destruct H as (cn & _ & H).
  apply bind_Return in H. destruct H as ([] & _ & H).
  apply bind_Return in H. destruct H as ([] & _ & H).
  now injection H as _ <-.
Qed.


End TimeMarkProperties.


(** * Further properties of the source *)

(** ** The signer certificate *)

Section CertificateProperties.
Context (W : Collaborators).

(** X1: getSigningX509CertificateType returns a certificate exactly
    when KeyInfo is present with one X509Data holding one
    X509Certificate; a missing KeyInfo or an empty sequence gives the
    no-certificate error, a longer sequence the more-than-one error,
    and no index or optional is used unguarded. *)
Theorem getSigningX509CertificateType_unique (s : Signature) :
  (forall c, getSigningX509CertificateType s = Return c
             <-> exists ki d, keyInfo (_sign s) = Some ki
                              /\ dsig.x509Data ki = [d]
                              /\ dsig.x509Certificate d = [c])
  /\ (getSigningX509CertificateType s = throw E_NoSignerCertificate
      <-> keyInfo (_sign s) = None
          \/ exists ki, keyInfo (_sign s) = Some ki
                        /\ (dsig.x509Data ki = []
                            \/ exists d, dsig.x509Data ki = [d]
                                         /\ dsig.x509Certificate d = []))
  /\ (forall e, getSigningX509CertificateType s = Throws e ->
                e = StackException E_NoSignerCertificate
                \/ e = StackException E_MultipleSignerCertificates)
  /\ (forall u, getSigningX509CertificateType s <> Undefined u).
Proof.
  unfold getSigningX509CertificateType, seq_at.
  destruct (keyInfo (_sign s)) as [ki|] eqn:K; simpl;
    [destruct (dsig.x509Data ki) as [|d [|d' ds]] eqn:Ds; simpl;
     [ | destruct (dsig.x509Certificate d) as [|c [|c' cs]] eqn:Cs; simpl | ] | ];
    (split; [intros c0; split;
             [intros H; try discriminate H; injection H as <-; eauto
             | intros (ki' & d0 & Hk & Hd & Hc); congruence]|]);
    (split; [split;
             [intros H; try discriminate H; eauto 8
             | intros [H | (ki' & Hk & [H | (d0 & Hd & Hc)])];
               first [reflexivity | congruence]]|]);
    (split; [intros e H; try discriminate H; injection H as <-; auto
            | intros u H; discriminate H]).
Qed.

(** X2: checkSigningCertificate never passes without a trust store:
    with the NULL store it throws the untrusted-certificate error for
    every certificate that can be extracted; with a store it passes
    exactly when the signer certificate decodes and verifies against
    that store. *)
Theorem checkSigningCertificate_needs_store (s : Signature) :
  checkSigningCertificate W s None <> Return tt
  /\ (forall c, getSigningCertificate W s = Return c ->
                checkSigningCertificate W s None
                = throw (E_SigningCertUntrusted (getSubject c)))
  /\ (forall st, checkSigningCertificate W s (Some st) = Return tt
                 <-> exists c, getSigningCertificate W s = Return c
                               /\ X509Cert_verify W c st = true)
  /\ (forall store f, checkSigningCertificate W s store = throw f ->
                      kind f = CertificateUntrusted
                      \/ getSigningCertificate W s = throw f).
Proof.
  unfold checkSigningCertificate.
  destruct (getSigningCertificate W s) as [c|e|u]; simpl.
  - repeat split; intros; try discriminate.
    + now injection H as <-.
    + destruct (X509Cert_verify W c st) eqn:V; [now exists c | discriminate].
    + destruct H as (c' & [= <-] & ->). reflexivity.
    + left. destruct store as [st|].
      * destruct (X509Cert_verify W c st); [discriminate|]. now injection H as <-.
      * now injection H as <-.
  - repeat split; intros; try discriminate.
    + destruct H as (c' & H & _). discriminate H.
    + right. assert (e = StackException f) as -> by (destruct store; now injection H).
      reflexivity.
  - repeat split; intros; try discriminate;
      try (destruct H as (c' & H & _); discriminate H);
      destruct store; discriminate H.
Qed.

End CertificateProperties.

(** ** Digests over the document *)

Section DigestProperties.
Context (W : Collaborators).

Lemma setProcessingFlags_Return (uri : string) (c c' : Canonicalizer) :
  setProcessingFlags W uri c = Return c' -> In uri (supported_canonicalization W).
Proof.
  unfold setProcessingFlags, supported_canonicalization.
  destruct (String.eqb_spec uri URI_ID_C14N_NOC) as [->|]; [simpl; auto|].
  destruct (String.eqb_spec uri URI_ID_C14N_COM) as [->|]; [simpl; auto|].
  destruct (String.eqb_spec uri URI_ID_EXC_C14N_NOC) as [->|]; [simpl; auto|].
  destruct (defined_URI_ID_C14N11_NOC W); simpl; [|discriminate].
  destruct (String.eqb_spec uri URI_ID_C14N11_NOC) as [->|]; [auto 6|].
  destruct (String.eqb_spec uri URI_ID_C14N11_COM) as [->|]; [auto 7|].
  discriminate.
Qed.

Lemma calcDigestOnNode_Return (s : Signature) (calc : Digest) (ns tagName : string)
      (d : bytes) :
  calcDigestOnNode W s calc ns tagName = Return d ->
  exists dom node settings,
    XercesDOMParser_parse W (_xml s) = Some dom
    /\ getElementsByTagNameNS W dom ns tagName = [node]
    /\ setProcessingFlags W
         (dsig.algorithm (dsig.canonicalizationMethod (signedInfo (_sign s))))
         initial_canonicalizer = Return settings
    /\ d = hash calc (outputBuffer W settings dom node).
Proof.
  unfold calcDigestOnNode, createDom.
  destruct (XercesDOMParser_parse W (_xml s)) as [dom|]; [|discriminate]. simpl.
  destruct (getElementsByTagNameNS W dom ns tagName) as [|node [|n' l]] eqn:N;
    simpl; try discriminate.
  fold initial_canonicalizer.
  destruct (setProcessingFlags W _ initial_canonicalizer) as [settings| |] eqn:F;
    simpl; try discriminate.
  intros [= <-]. now exists dom, node, settings.
Qed.

(** X3: calcDigestOnNode reports its failures in a fixed order — the
    document that does not parse, then the node that is missing or
    found more than once, and only then the canonicalization method —
    and a digest it returns is the digest of the single matching node
    of the original bytes, canonicalized with the settings that
    setProcessingFlags gives, from the initial ones, for the
    CanonicalizationMethod of SignedInfo, which is a supported one. *)
Theorem calcDigestOnNode_failure_order (s : Signature) (calc : Digest)
        (ns tagName : string) :
  let result := calcDigestOnNode W s calc ns tagName in
  let uri := dsig.algorithm (dsig.canonicalizationMethod (signedInfo (_sign s))) in
  (XercesDOMParser_parse W (_xml s) = None -> result = throw E_ParseFailed)
  /\ (forall dom,
        XercesDOMParser_parse W (_xml s) = Some dom ->
        let nodes := getElementsByTagNameNS W dom ns tagName in
        (nodes = [] -> result = throw (E_NodeNotFound tagName ns))
        /\ (2 <= List.length nodes ->
            result = throw (E_NodeNotUnique (List.length nodes) tagName ns))
        /\ (List.length nodes = 1 -> ~ In uri (supported_canonicalization W) ->
            result = throw (E_UnsupportedCanonicalization uri)))
  /\ (forall d, result = Return d ->
                In uri (supported_canonicalization W)
                /\ exists dom node settings,
                     XercesDOMParser_parse W (_xml s) = Some dom
                     /\ getElementsByTagNameNS W dom ns tagName = [node]
                     /\ setProcessingFlags W uri initial_canonicalizer = Return settings
                     /\ d = hash calc (outputBuffer W settings dom node)).
Proof.
  cbv zeta. split; [|split].
  - intros P. unfold calcDigestOnNode, createDom. now rewrite P.
  - intros dom P. unfold calcDigestOnNode, createDom. rewrite P. simpl.
    destruct (getElementsByTagNameNS W dom ns tagName) as [|node [|n' l]]; simpl.
    + split; [|split]; intros; [reflexivity | lia | discriminate].
    + split; [discriminate | split; [intros; lia |]]. intros _ N.
      fold initial_canonicalizer.
      destruct (setProcessingFlags W _ initial_canonicalizer) as [c| |] eqn:F.
      * elim N. exact (setProcessingFlags_Return _ _ _ F).
      * revert F. unfold setProcessingFlags.
        repeat match goal with |- context [if ?c then _ else _] => destruct c end;
          try discriminate. now intros [= <-].
      * revert F. unfold setProcessingFlags.
        repeat match goal with |- context [if ?c then _ else _] => destruct c end;
          discriminate.
    + split; [|split]; intros; [discriminate | reflexivity | discriminate].
  - intros d R. destruct (calcDigestOnNode_Return _ _ _ _ _ R)
      as (dom & node & settings & P & N & F & ->).
    split; [exact (setProcessingFlags_Return _ _ _ F)|].
    now exists dom, node, settings.
Qed.

(** X4: checkReferenceToSigProps passes exactly when the reference has
    a URI, its digest method is supported and the digest recomputed
    over the SignedProperties element of the signature's XAdES name
    space equals the asserted DigestValue byte for byte; a recomputed
    digest of another length gives the length error and one of the
    same length the value error. *)
Theorem checkReferenceToSigProps_digest (s : Signature) (r : dsig.ReferenceType) :
  let alg := dsig.algorithm (dsig.digestMethod r) in
  let recomputed calc := calcDigestOnNode W s calc (xadesnamespace s) "SignedProperties" in
  (checkReferenceToSigProps W s r = Return tt
   <-> dsig.uRI r <> None /\ Digest_isSupported W alg = true
       /\ exists calc, Digest_create W alg = Some calc
                       /\ recomputed calc = Return (dsig.digestValue r))
  /\ (forall calc d,
        dsig.uRI r <> None -> Digest_isSupported W alg = true ->
        Digest_create W alg = Some calc -> recomputed calc = Return d ->
        (List.length d <> List.length (dsig.digestValue r) ->
         checkReferenceToSigProps W s r = throw E_SigPropsDigestLength)
        /\ (List.length d = List.length (dsig.digestValue r) -> d <> dsig.digestValue r ->
            checkReferenceToSigProps W s r = throw E_SigPropsDigestValue)).
Proof.
  cbv zeta. unfold checkReferenceToSigProps.
  destruct (dsig.uRI r) as [uri|]; simpl.
  2:{ split; [split; [discriminate | intros [H _]; now elim H]|].
      intros calc d H. now elim H. }
  destruct (Digest_isSupported W _) eqn:Sup; simpl.
  2:{ split; [split; [discriminate | intros (_ & H & _); discriminate H]|].
      intros calc d _ H. discriminate H. }
  destruct (Digest_create W _) as [calc|] eqn:Cr; simpl.
  2:{ split; [split; [discriminate | intros (_ & _ & c & H & _); discriminate H]|].
      intros calc d _ _ H. discriminate H. }
  destruct (calcDigestOnNode W s calc (xadesnamespace s) "SignedProperties")
    as [d| |] eqn:Calc; simpl.
  2,3: split; [split; [discriminate
                      | intros (_ & _ & c & [= <-] & H); rewrite Calc in H; discriminate H]
              | intros c d _ _ [= <-] H; rewrite Calc in H; discriminate H].
  destruct (Nat.eqb_spec (List.length d) (List.length (dsig.digestValue r))) as [L|L]; simpl.
  - rewrite L.
    pose proof (compare_digests_Return (dsig.digestValue r) d E_SigPropsDigestValue
                  (eq_sym L)) as CR.
    split.
    + split.
      * intros H. apply CR in H. split; [discriminate|]. split; [reflexivity|].
        exists calc. split; [reflexivity|]. now rewrite H.
      * intros (_ & _ & c & [= <-] & H). rewrite Calc in H. injection H as H.
        apply CR. now symmetry.
    + intros c d' _ _ [= <-] H. rewrite Calc in H. injection H as <-.
      split; [intros N; now elim N|]. intros _ N.
      assert (stack_only (compare_digests (List.length (dsig.digestValue r))
                            (dsig.digestValue r) d E_SigPropsDigestValue)) as SO
          by (apply compare_digests_stack_only; lia).
      destruct (compare_digests _ _ _ _) as [[]|[f|]|u] eqn:C; simpl in SO;
        try contradiction.
      * elim N. symmetry. now apply CR.
      * f_equal. f_equal. clear -C. revert C.
        generalize (List.length (dsig.digestValue r)). intros n.
        revert d. generalize (dsig.digestValue r).
        induction n as [|n IH]; intros a b; simpl; [discriminate|].
        destruct a, b; try discriminate.
        destruct (Byte.eqb _ _); [apply IH | now intros [= ->]].
  - split.
    + split; [discriminate|].
      intros (_ & _ & c & [= <-] & H). rewrite Calc in H. injection H as H.
      elim L. now rewrite H.
    + intros c d' _ _ [= <-] H. rewrite Calc in H. injection H as <-.
      split; [reflexivity | intros E; now elim L].
Qed.

End DigestProperties.

(** ** References to container documents *)

Section DocumentReferenceProperties.
Context (W : Collaborators).

Lemma checkReferencesToDocs_loop_spec (refSeq : list dsig.ReferenceType)
      (ci : ContainerInfo W) :
  (fst (checkReferencesToDocs_loop W refSeq ci) = Return tt
   <-> documents_accepted W (documentReferences refSeq) ci = true)
  /\ (fst (checkReferencesToDocs_loop W refSeq ci) = Return tt ->
      snd (checkReferencesToDocs_loop W refSeq ci)
      = fold_left (after_checkDocument W) (documentReferences refSeq) ci).
Proof.
  revert ci; induction refSeq as [|r rest IH]; intros ci; simpl.
  - split; [split|]; reflexivity.
  - unfold documentReferences in *. simpl.
    destruct (isReferenceToSigProps r); simpl; [apply IH|].
    unfold after_checkDocument at 1 3.
    destruct (dsig.uRI r) as [uri|]; simpl.
    + destruct (checkDocument W _ _ _ ci) as [ci' ok]; simpl.
      destruct ok; simpl; [apply IH|].
      split; [split; discriminate | discriminate].
    + split; [split; discriminate | discriminate].
Qed.

Lemma documents_accepted_URI (docs : list dsig.ReferenceType) (ci : ContainerInfo W) :
  documents_accepted W docs ci = true -> Forall (fun r => dsig.uRI r <> None) docs.
Proof.
  revert ci; induction docs as [|r rest IH]; intros ci; simpl; [constructor|].
  destruct (dsig.uRI r) as [uri|] eqn:U; [|discriminate].
  intros H. apply andb_true_iff in H. destruct H as [_ H].
  constructor; [congruence | exact (IH _ H)].
Qed.

(** X5: checkReferencesToDocs resets the container, then hands it
    every reference that is not the SignedProperties reference, in
    document order and once each, with a leading slash taken off the
    URI; it passes exactly when none of those calls raises, every such
    reference has a URI and checkDocumentsResult holds of the
    container the calls leave behind. *)
Theorem checkReferencesToDocs_record (refSeq : list dsig.ReferenceType)
        (ci : ContainerInfo W) :
  let docs := documentReferences refSeq in
  let start := checkDocumentsBegin W ci in
  let final := fold_left (after_checkDocument W) docs start in
  let result := checkReferencesToDocs W refSeq ci in
  (fst result = Return tt
   <-> documents_accepted W docs start = true /\ checkDocumentsResult W final = true)
  /\ (fst result = Return tt -> snd result = final)
  /\ (documents_accepted W docs start = true -> checkDocumentsResult W final = false ->
      fst result = throw E_DocRefsMismatch)
  /\ (forall r, In r docs -> dsig.uRI r = None -> exists f, fst result = throw f).
Proof.
  cbv zeta.
  destruct (checkReferencesToDocs_loop_spec refSeq (checkDocumentsBegin W ci)) as [Acc Fin].
  pose proof (checkReferencesToDocs_loop_stack_only W refSeq (checkDocumentsBegin W ci)) as SO.
  pose proof (documents_accepted_URI (documentReferences refSeq) (checkDocumentsBegin W ci))
    as URI.
  unfold checkReferencesToDocs.
  destruct (checkReferencesToDocs_loop W refSeq (checkDocumentsBegin W ci))
    as [[[]|[f|]|u] ci']; simpl in *; try contradiction.
  - specialize (Fin eq_refl). subst ci'.
    assert (documents_accepted W (documentReferences refSeq) (checkDocumentsBegin W ci) = true)
      as A by now apply Acc.
    split; [|split; [|split]].
    + destruct (checkDocumentsResult W _); simpl; split; try discriminate; auto.
      intros [_ H]. discriminate H.
    + reflexivity.
    + intros _ ->. reflexivity.
    + intros r In0 U. specialize (URI A). rewrite Forall_forall in URI.
      now elim (URI r In0).
  - assert (documents_accepted W (documentReferences refSeq) (checkDocumentsBegin W ci) <> true)
      as A by (intros A; apply Acc in A; discriminate A).
    split; [|split; [|split]].
    + split; [discriminate | intros [H _]; now elim A].
    + discriminate.
    + intros H. now elim A.
    + intros r _ _. now exists f.
Qed.

End DocumentReferenceProperties.

(** ** The signer certificate and the signature value *)

Section BindingProperties.
Context (W : Collaborators).

Lemma certDigest_check_Return (x509 : X509Cert) (c : xades.CertIDType) :
  let alg := dsig.algorithm (xades.digestMethod (xades.certDigest c)) in
  (throw_if (negb (Digest_isSupported W alg)) (E_CertDigestUnsupported alg) ;;;
   throw_if (compareIssuerToString W x509 (dsig.x509IssuerName (xades.issuerSerial c))
             || negb (getSerial x509 =? dsig.x509SerialNumber (xades.issuerSerial c))%Z)
            E_IssuerInfoInvalid ;;;
   certDigestCalc <- or_throw (Digest_create W alg) (E_Collab_Digest alg) ;;
   throw_if (negb (List.length (xades.digestValue (xades.certDigest c))
                   =? getSize certDigestCalc)%nat)
            E_CertDigestLength ;;;
   compare_digests (getSize certDigestCalc) (hash certDigestCalc (encodeDER x509))
                   (xades.digestValue (xades.certDigest c)) E_CertDigestValue) = Return tt ->
  Digest_isSupported W alg = true
  /\ compareIssuerToString W x509 (dsig.x509IssuerName (xades.issuerSerial c)) = false
  /\ getSerial x509 = dsig.x509SerialNumber (xades.issuerSerial c)
  /\ exists calc, Digest_create W alg = Some calc
                  /\ xades.digestValue (xades.certDigest c) = hash calc (encodeDER x509).
Proof.
  intros alg H.
  apply bind_Return in H. destruct H as ([] & H1 & H).
  apply throw_if_Return, negb_false_iff in H1.
  apply bind_Return in H. destruct H as ([] & H2 & H).
  apply throw_if_Return, orb_false_iff in H2. destruct H2 as [H2 H3].
  apply negb_false_iff, Z.eqb_eq in H3.
  apply bind_Return in H. destruct H as (calc & H4 & H).
  destruct (Digest_create W alg) as [calc'|] eqn:Cr; [|discriminate H4].
  injection H4 as ->.
  apply bind_Return in H. destruct H as ([] & H5 & H).
  apply throw_if_Return, negb_false_iff, Nat.eqb_eq in H5.
  repeat split; try assumption. exists calc. split; [reflexivity|].
  rewrite <- (hash_size calc (encodeDER x509)) in H, H5.
  symmetry. apply (compare_digests_Return _ _ E_CertDigestValue); [now symmetry | exact H].
Qed.

(** X6: when checkKeyInfo passes, the signature has one signer
    certificate and one SigningCertificate/Cert entry that agree: the
    issuer comparison reports no difference, the serial numbers are
    equal, the digest method is supported, and the asserted CertDigest
    value is the digest of the certificate's DER encoding. *)
Theorem checkKeyInfo_binding (s : Signature) :
  checkKeyInfo W s = Return tt ->
  exists x509 c calc,
    getSigningCertificate W s = Return x509
    /\ signingCertID s = Some c
    /\ Digest_isSupported W (dsig.algorithm (xades.digestMethod (xades.certDigest c))) = true
    /\ compareIssuerToString W x509 (dsig.x509IssuerName (xades.issuerSerial c)) = false
    /\ getSerial x509 = dsig.x509SerialNumber (xades.issuerSerial c)
    /\ Digest_create W (dsig.algorithm (xades.digestMethod (xades.certDigest c))) = Some calc
    /\ xades.digestValue (xades.certDigest c) = hash calc (encodeDER x509).
Proof.
  unfold checkKeyInfo, signingCertID.
  destruct (dialect s); [unfold XAdES111.checkKeyInfo | unfold XAdES132.checkKeyInfo];
    intros H; apply bind_Return in H; destruct H as (x509 & Cert & H); revert H;
    (destruct (object (_sign s)) as [|o [|o' os]]; simpl; try discriminate).
  - destruct (qualifyingProperties1 o) as [|qp [|qp' qps]]; simpl; try discriminate.
    destruct (xades111.signedProperties qp) as [sp|]; simpl; try discriminate.
    destruct (xades.cert _) as [|c [|c' cs]]; simpl; try discriminate.
    intros H. destruct (certDigest_check_Return x509 c H) as (S1 & S2 & S3 & calc & S4 & S5).
    now exists x509, c, calc.
  - destruct (qualifyingProperties o) as [|qp [|qp' qps]]; simpl; try discriminate.
    destruct (xades132.signedProperties qp) as [sp|]; simpl; try discriminate.
    destruct (xades132.signingCertificate _) as [sc|]; simpl; try discriminate.
    destruct (xades.cert sc) as [|c [|c' cs]]; simpl; try discriminate.
    intros H. destruct (certDigest_check_Return x509 c H) as (S1 & S2 & S3 & calc & S4 & S5).
    now exists x509, c, calc.
Qed.

(** X7: when checkSignatureValue passes, the signature method maps to
    a hash method that Digest accepts, SignedInfo is found once in
    the XML-DSig name space of the original bytes, the
    canonicalization method is a supported one, and SignatureValue
    verifies under the signer certificate against the digest of the
    canonicalized SignedInfo. *)
Theorem checkSignatureValue_verifies (s : Signature) :
  checkSignatureValue W s = Return tt ->
  exists cert hashUri calc dom node settings,
    getSigningCertificate W s = Return cert
    /\ XSECmapURIToHashURI W (getSignatureMethodAlgorithmType s) = Some hashUri
    /\ Digest_create W hashUri = Some calc
    /\ XercesDOMParser_parse W (_xml s) = Some dom
    /\ getElementsByTagNameNS W dom DSIG_NAMESPACE "SignedInfo" = [node]
    /\ In (dsig.algorithm (dsig.canonicalizationMethod (signedInfo (_sign s))))
          (supported_canonicalization W)
    /\ setProcessingFlags W
         (dsig.algorithm (dsig.canonicalizationMethod (signedInfo (_sign s))))
         initial_canonicalizer = Return settings
    /\ verifySignature W cert (getMethod calc) (getSize calc)
                       (hash calc (outputBuffer W settings dom node))
                       (signatureValue (_sign s)) = true.
Proof.
  unfold checkSignatureValue. intros H.
  apply bind_Return in H. destruct H as (cert & Cert & H).
  apply bind_Return in H. destruct H as (hashUri & Map & H).
  destruct (XSECmapURIToHashURI W _) as [hu|] eqn:M; [|discriminate Map].
  injection Map as ->.
  apply bind_Return in H. destruct H as (calc & Cr & H).
  destruct (Digest_create W hashUri) as [calc'|] eqn:C; [|discriminate Cr].
  injection Cr as ->.
  apply bind_Return in H. destruct H as (digest & Dg & H).
  apply throw_if_Return, negb_false_iff in H.
  destruct (calcDigestOnNode_Return W _ _ _ _ _ Dg) as (dom & node & settings & P & N & F & ->).
  exists cert, hashUri, calc, dom, node, settings.
  repeat split; try assumption. exact (setProcessingFlags_Return W _ _ _ F).
Qed.

End BindingProperties.

(** The sample signature passes checkKeyInfo: its CertDigest is the
    digest of the sample certificate. *)
Lemma checkKeyInfo_binding_witness :
  exists x509 c,
    getSigningCertificate (Sample.world Sample.tm132)
      (Sample.signature Sample.tm132 XAdES132Signature) = Return x509
    /\ signingCertID (Sample.signature Sample.tm132 XAdES132Signature) = Some c
    /\ xades.digestValue (xades.certDigest c) = [Byte.x30].
Proof.
  destruct (checkKeyInfo_binding (Sample.world Sample.tm132)
              (Sample.signature Sample.tm132 XAdES132Signature) eq_refl)
    as (x509 & c & calc & Cert & Id & _).
  exists x509, c. split; [exact Cert|]. split; [exact Id|].
  injection Id as <-. reflexivity.
Defined.

(** The sample signature passes checkSignatureValue. *)
Lemma checkSignatureValue_verifies_witness :
  In (dsig.algorithm (dsig.canonicalizationMethod Sample.info))
     (supported_canonicalization (Sample.world Sample.tm132)).
Proof.
  destruct (checkSignatureValue_verifies (Sample.world Sample.tm132)
              (Sample.signature Sample.tm132 XAdES132Signature) eq_refl)
    as (cert & hashUri & calc & dom & node & settings & _ & _ & _ & _ & _ & Sup & _).
  exact Sup.
Defined.

(** ** What offline validation accepts *)

Section AcceptanceProperties.
Context (W : Collaborators).

(** X8: checkQualifyingProperties passes exactly when the signature
    has one Object with one QualifyingProperties element of its
    dialect, the Id is present, the target is "#" followed by the Id,
    SignedProperties is present (without a SignaturePolicyIdentifier
    in v1.3.2), and UnsignedProperties, if any, has no
    UnsignedDataObjectProperties. *)
Theorem checkQualifyingProperties_accepts (s : Signature) :
  checkQualifyingProperties s = Return tt
  <-> exists o i,
        object (_sign s) = [o] /\ id (_sign s) = Some i
        /\ match dialect s with
           | XAdES111Signature =>
               exists qp, qualifyingProperties1 o = [qp]
                          /\ xades111.target qp = "#" ++ i
                          /\ properties_acceptable111 qp
           | XAdES132Signature =>
               exists qp, qualifyingProperties o = [qp]
                          /\ xades132.target qp = "#" ++ i
                          /\ properties_acceptable132 qp
           end.
Proof.
  unfold checkQualifyingProperties.
  destruct (dialect s) eqn:D.
  - unfold XAdES111.checkQualifyingProperties, XAdES111.checkSignedSignatureProperties,
      seq_at, properties_acceptable111.
    destruct (object (_sign s)) as [|o os] eqn:Os; simpl;
      [split; [discriminate | intros (o0 & i0 & Ho & _); discriminate Ho]|].
    destruct (qualifyingProperties1 o) as [|qp [|qp' qps]] eqn:Q; simpl;
      try (split; [discriminate
                  | intros (o0 & i0 & Ho & Hi & qp0 & Hq & _); congruence]).
    destruct (id (_sign s)) as [i|] eqn:I; simpl;
      [|split; [discriminate | intros (o0 & i0 & Ho & Hi & _); discriminate Hi]].
    destruct (String.eqb_spec (xades111.target qp) (String "#" i)) as [T|T]; simpl;
      [|split; [discriminate
               | intros (o0 & i0 & Ho & Hi & qp0 & Hq & Ht & _); congruence]].
    destruct os as [|o' os]; simpl;
      [|split; [discriminate | intros (o0 & i0 & Ho & _); discriminate Ho]].
    rewrite ?Q. simpl.
    destruct (xades111.signedProperties qp) as [sp|] eqn:SP; simpl;
      [|split; [discriminate
               | intros (o0 & i0 & Ho & Hi & qp0 & Hq & Ht & A1 & A2); congruence]].
    destruct (xades111.unsignedProperties qp) as [up|] eqn:UP; simpl.
    + destruct (xades111.unsignedDataObjectProperties up) as [ud|] eqn:UD; simpl.
      * split; [discriminate|].
        intros (o0 & i0 & Ho & Hi & qp0 & Hq & Ht & A1 & A2).
        assert (qp0 = qp) as -> by congruence.
        specialize (A2 _ UP). congruence.
      * split; [|reflexivity]. intros _. exists o, i. repeat split.
        exists qp. repeat split; try assumption; [congruence|].
        intros up' U. congruence.
    + split; [|reflexivity]. intros _. exists o, i. repeat split.
      exists qp. repeat split; try assumption; [congruence | intros up' U; congruence].
  - unfold XAdES132.checkQualifyingProperties, XAdES132.checkSignedSignatureProperties,
      seq_at, properties_acceptable132.
    destruct (object (_sign s)) as [|o os] eqn:Os; simpl;
      [split; [discriminate | intros (o0 & i0 & Ho & _); discriminate Ho]|].
    destruct (qualifyingProperties o) as [|qp [|qp' qps]] eqn:Q; simpl;
      try (split; [discriminate
                  | intros (o0 & i0 & Ho & Hi & qp0 & Hq & _); congruence]).
    destruct (id (_sign s)) as [i|] eqn:I; simpl;
      [|split; [discriminate | intros (o0 & i0 & Ho & Hi & _); discriminate Hi]].
    destruct (String.eqb_spec (xades132.target qp) (String "#" i)) as [T|T]; simpl;
      [|split; [discriminate
               | intros (o0 & i0 & Ho & Hi & qp0 & Hq & Ht & _); congruence]].
    destruct os as [|o' os]; simpl;
      [|split; [discriminate | intros (o0 & i0 & Ho & _); discriminate Ho]].
    rewrite ?Q. simpl.
    destruct (xades132.signedProperties qp) as [sp|] eqn:SP; simpl;
      [|split; [discriminate
               | intros (o0 & i0 & Ho & Hi & qp0 & Hq & Ht & (sp0 & A1 & _) & A2);
                 congruence]].
    destruct (xades132.signaturePolicyIdentifier (xades132.signedSignatureProperties sp))
      as [pol|] eqn:Pol; simpl;
      [split; [discriminate
              | intros (o0 & i0 & Ho & Hi & qp0 & Hq & Ht & (sp0 & A1 & A1') & A2);
                congruence]|].
    destruct (xades132.unsignedProperties qp) as [up|] eqn:UP; simpl.
    + destruct (xades132.unsignedDataObjectProperties up) as [ud|] eqn:UD; simpl.
      * split; [discriminate|].
        intros (o0 & i0 & Ho & Hi & qp0 & Hq & Ht & A1 & A2).
        assert (qp0 = qp) as -> by congruence.
        specialize (A2 _ UP). congruence.
      * split; [|reflexivity]. intros _. exists o, i. repeat split.
        exists qp. repeat split; try assumption; [now exists sp|].
        intros up' U. congruence.
    + split; [|reflexivity]. intros _. exists o, i. repeat split.
      exists qp. repeat split; try assumption; [now exists sp | intros up' U; congruence].
Qed.

End AcceptanceProperties.

Section OfflineAcceptance.
Context (W : Collaborators).

Lemma validateOffline_Return (s : Signature) (store : option (X509CertStore W))
      (ci : ContainerInfo W) :
  fst (validateOffline W s store ci) = Return tt ->
  checkQualifyingProperties s = Return tt
  /\ fst (checkIntegrity W s ci) = Return tt
  /\ checkSigningCertificate W s store = Return tt
  /\ snd (validateOffline W s store ci) = snd (checkIntegrity W s ci).
Proof.
  unfold validateOffline.
  destruct (checkQualifyingProperties s) as [[]|[fa|]|ua]; simpl; try discriminate;
    destruct (checkIntegrity W s ci) as [[[]|[fb|]|ub] ci']; simpl; try discriminate;
    destruct (checkSigningCertificate W s store) as [[]|[fc|]|uc]; simpl;
    try discriminate.
  intros _. now repeat split.
Qed.

Lemma checkReferences_Return (s : Signature) (ci : ContainerInfo W) :
  fst (checkReferences W s ci) = Return tt ->
  let refSeq := dsig.reference (signedInfo (_sign s)) in
  List.length refSeq = documentCount W ci + 1
  /\ checkReferences_loop W s refSeq false = Return true
  /\ snd (checkReferences W s ci)
     = fold_left (after_checkDocument W) (documentReferences refSeq)
                 (checkDocumentsBegin W ci)
  /\ checkDocumentsResult W (snd (checkReferences W s ci)) = true.
Proof.
  unfold checkReferences. cbv zeta.
  destruct (Nat.eqb_spec (List.length (dsig.reference (signedInfo (_sign s))))
                         (documentCount W ci + 1)) as [L|L]; simpl; [|discriminate].
  destruct (checkReferences_loop W s _ false) as [[|]| |]; simpl; try discriminate.
  destruct (checkReferencesToDocs_loop_spec W (dsig.reference (signedInfo (_sign s)))
              (checkDocumentsBegin W ci)) as [_ Fin].
  unfold checkReferencesToDocs.
  destruct (checkReferencesToDocs_loop W _ (checkDocumentsBegin W ci))
    as [[[]|e|u] ci']; simpl in *; try discriminate.
  specialize (Fin eq_refl). subst ci'.
  destruct (checkDocumentsResult W _) eqn:R; simpl; [|discriminate].
  intros _. now repeat split.
Qed.

(** X9: a signature that validateOffline accepts carries an Id, names
    one of the three RSA signature methods and a supported
    canonicalization method, has documentCount() + 1 references, and
    was checked against a trust store that is not NULL and against
    which its signer certificate verifies; all five checks of the
    first two groups passed. *)
Theorem validateOffline_accepts_only (s : Signature) (store : option (X509CertStore W))
        (ci : ContainerInfo W) :
  fst (validateOffline W s store ci) = Return tt ->
  (exists i, id (_sign s) = Some i)
  /\ In (dsig.algorithm (dsig.signatureMethod (signedInfo (_sign s))))
        [URI_ID_RSA_SHA1; URI_ID_RSA_SHA224; URI_ID_RSA_SHA256]
  /\ In (dsig.algorithm (dsig.canonicalizationMethod (signedInfo (_sign s))))
        (supported_canonicalization W)
  /\ List.length (dsig.reference (signedInfo (_sign s))) = documentCount W ci + 1
  /\ (exists st c, store = Some st
                   /\ getSigningCertificate W s = Return c
                   /\ X509Cert_verify W c st = true)
  /\ checkQualifyingProperties s = Return tt
  /\ checkSignatureMethod s = Return tt
  /\ fst (checkReferences W s ci) = Return tt
  /\ checkKeyInfo W s = Return tt
  /\ checkSignatureValue W s = Return tt.
Proof.
  intros H. destruct (validateOffline_Return s store ci H) as (A & B & C & _).
  apply checkIntegrity_Return in B. destruct B as (M & R & K & V).
  split.
  { revert A. unfold checkQualifyingProperties, XAdES111.checkQualifyingProperties,
      XAdES132.checkQualifyingProperties.
    destruct (id (_sign s)) as [i|]; [intros _; now exists i|].
    destruct (dialect s);
      (destruct (seq_at (object (_sign s)) 0) as [o| |]; simpl; try discriminate);
      (destruct (throw_if _ _) as [[]| |]; simpl; try discriminate);
      (destruct (seq_at _ 0) as [qp| |]; simpl; discriminate). }
  split.
  { revert M. unfold checkSignatureMethod, getSignatureMethodAlgorithmType.
    destruct (String.eqb_spec (dsig.algorithm (dsig.signatureMethod (signedInfo (_sign s))))
                              URI_ID_RSA_SHA1) as [->|]; [simpl; auto|].
    destruct (String.eqb_spec (dsig.algorithm (dsig.signatureMethod (signedInfo (_sign s))))
                              URI_ID_RSA_SHA224) as [->|]; [simpl; auto|].
    destruct (String.eqb_spec (dsig.algorithm (dsig.signatureMethod (signedInfo (_sign s))))
                              URI_ID_RSA_SHA256) as [->|]; [simpl; auto|].
    discriminate. }
  split.
  { pose proof V as V'. unfold checkSignatureValue in V'.
    apply bind_Return in V'. destruct V' as (cert & _ & V').
    apply bind_Return in V'. destruct V' as (hashUri & _ & V').
    apply bind_Return in V'. destruct V' as (calc & _ & V').
    apply bind_Return in V'. destruct V' as (digest & Dg & _).
    destruct (calcDigestOnNode_Return W _ _ _ _ _ Dg) as (dom & node & c & _ & _ & F & _).
    exact (setProcessingFlags_Return W _ _ _ F). }
  split; [exact (proj1 (checkReferences_Return s ci R))|].
  split.
  { revert C. unfold checkSigningCertificate.
    destruct (getSigningCertificate W s) as [c| |]; simpl; try discriminate.
    destruct store as [st|]; [|discriminate].
    destruct (X509Cert_verify W c st) eqn:Ver; [|discriminate].
    intros _. now exists st, c. }
  now repeat split.
Qed.

(** X10: validateOffline touches the container only inside
    checkReferences, and there only after the reference count and the
    SignedProperties reference have been checked: when the signature
    method is unsupported, the count is wrong or the loop over the
    references does not end with one verified SignedProperties
    reference, the container is left as it was; on acceptance it is
    the reset container after one checkDocument call per document
    reference, and checkDocumentsResult holds of it. *)
Theorem validateOffline_container (s : Signature) (store : option (X509CertStore W))
        (ci : ContainerInfo W) :
  let refSeq := dsig.reference (signedInfo (_sign s)) in
  (checkSignatureMethod s <> Return tt -> snd (validateOffline W s store ci) = ci)
  /\ (List.length refSeq <> documentCount W ci + 1 ->
      snd (validateOffline W s store ci) = ci)
  /\ (checkReferences_loop W s refSeq false <> Return true ->
      snd (validateOffline W s store ci) = ci)
  /\ (fst (validateOffline W s store ci) = Return tt ->
      snd (validateOffline W s store ci)
      = fold_left (after_checkDocument W) (documentReferences refSeq)
                  (checkDocumentsBegin W ci)
      /\ checkDocumentsResult W (snd (validateOffline W s store ci)) = true).
Proof.
  cbv zeta.
  assert (snd (validateOffline W s store ci) = ci
          \/ snd (validateOffline W s store ci) = snd (checkIntegrity W s ci)) as Snd.
  { unfold validateOffline.
    destruct (try_add (checkQualifyingProperties s) []) as [exc1| |]; simpl; auto.
    destruct (checkIntegrity W s ci) as [b ci']; simpl.
    destruct (try_add b exc1) as [exc2| |]; simpl; auto.
    destruct (try_add (checkSigningCertificate W s store) exc2) as [exc3| |]; simpl; auto. }
  split; [|split; [|split]].
  - intros M. destruct Snd as [E|E]; [exact E|]. rewrite E. unfold checkIntegrity.
    destruct (checkSignatureMethod s) as [[]| |]; simpl; try reflexivity. now elim M.
  - intros L. destruct Snd as [E|E]; [exact E|]. rewrite E. unfold checkIntegrity.
    destruct (checkSignatureMethod s) as [[]| |]; simpl; try reflexivity.
    unfold checkReferences.
    destruct (Nat.eqb_spec (List.length (dsig.reference (signedInfo (_sign s))))
                           (documentCount W ci + 1)) as [L'|L']; [now elim L|].
    reflexivity.
  - intros Lp. destruct Snd as [E|E]; [exact E|]. rewrite E. unfold checkIntegrity.
    destruct (checkSignatureMethod s) as [[]| |]; simpl; try reflexivity.
    unfold checkReferences.
    destruct (negb _); simpl; [reflexivity|].
    destruct (checkReferences_loop W s _ false) as [[|]| |]; simpl; try reflexivity.
    now elim Lp.
  - intros H. destruct (validateOffline_Return s store ci H) as (_ & B & _ & E).
    rewrite E. apply checkIntegrity_Return in B. destruct B as (M & R & _).
    destruct (checkReferences_Return s ci R) as (_ & _ & Fold & Res).
    unfold checkIntegrity. rewrite M.
    destruct (checkReferences W s ci) as [[[]| |] ci']; simpl in *; try discriminate.
    now split.
Qed.

End OfflineAcceptance.

(** The sample signature is accepted with a store and a container of
    one document. *)
Lemma validateOffline_accepts_only_witness :
  (exists i, id Sample.tm132 = Some i)
  /\ List.length (dsig.reference Sample.info) = 2.
Proof.
  destruct (validateOffline_accepts_only (Sample.world Sample.tm132)
              (Sample.signature Sample.tm132 XAdES132Signature) (Some tt) 1 eq_refl)
    as (Id & _ & _ & Len & _).
  split; [exact Id | exact Len].
Defined.

(** ** Navigation in the unsigned properties *)

Section UnsignedPropertiesNavigation.

Lemma unsignSigProps111_at (s : Signature) (o : ObjectType) (os : list ObjectType)
      (qp : xades111.QualifyingPropertiesType)
      (qps : list xades111.QualifyingPropertiesType) :
  object (_sign s) = o :: os -> qualifyingProperties1 o = qp :: qps ->
  XAdES111.unsignSigProps s =
  match xades111.unsignedProperties qp with
  | None => throw E_MissingUnsignedProperties
  | Some up => Return (xades111.unsignedSignatureProperties up)
  end.
Proof.
  intros Os Q. unfold XAdES111.unsignSigProps, XAdES111.qualifyingProperties1_0, seq_at.
  rewrite Os. simpl. rewrite Q. simpl. now destruct (xades111.unsignedProperties qp).
Qed.

Lemma unsignSigProps132_at (s : Signature) (o : ObjectType) (os : list ObjectType)
      (qp : xades132.QualifyingPropertiesType)
      (qps : list xades132.QualifyingPropertiesType) :
  object (_sign s) = o :: os -> qualifyingProperties o = qp :: qps ->
  XAdES132.unsignSigProps s =
  match xades132.unsignedProperties qp with
  | None => throw E_MissingUnsignedProperties
  | Some up => Return (xades132.unsignedSignatureProperties up)
  end.
Proof.
  intros Os Q. unfold XAdES132.unsignSigProps, XAdES132.qualifyingProperties_0, seq_at.
  rewrite Os. simpl. rewrite Q. simpl. now destruct (xades132.unsignedProperties qp).
Qed.

(** The two OCSPRef navigators side by side, by the shape of the
    unsigned properties. *)
Lemma OCSPRef_navigation_cases (s : Signature) :
  match unsignedSignatureProperties_present s with
  | Some true =>
      match OCSPRef_DigestAlgAndValue s with
      | Some dav =>
          getRevocationOCSPRef s
          = Return (xades.digestValue dav, dsig.algorithm (xades.digestMethod dav))
          /\ ocspDigestAlgorithm s = Return (dsig.algorithm (xades.digestMethod dav))
      | None =>
          getRevocationOCSPRef s = throw E_MissingOCSPRefDigest
          /\ exists u, ocspDigestAlgorithm s = Undefined u
      end
  | Some false =>
      getRevocationOCSPRef s = Undefined AbsentOptional
      /\ ocspDigestAlgorithm s = Undefined AbsentOptional
  | None =>
      (getRevocationOCSPRef s = throw E_MissingUnsignedProperties
       /\ ocspDigestAlgorithm s = throw E_MissingUnsignedProperties)
      \/ (getRevocationOCSPRef s = Undefined IndexOutOfBounds
          /\ ocspDigestAlgorithm s = Undefined IndexOutOfBounds)
  end.
Proof.
  unfold unsignedSignatureProperties_present, OCSPRef_DigestAlgAndValue,
    first_OCSPRef_digest, getRevocationOCSPRef, ocspDigestAlgorithm.
  destruct (object (_sign s)) as [|o os] eqn:Os.
  { right. unfold XAdES111.getRevocationOCSPRef, XAdES111.ocspDigestAlgorithm,
      XAdES132.getRevocationOCSPRef, XAdES132.ocspDigestAlgorithm,
      XAdES111.unsignSigProps, XAdES132.unsignSigProps,
      XAdES111.qualifyingProperties1_0, XAdES132.qualifyingProperties_0, seq_at.
    rewrite Os. now destruct (dialect s). }
  destruct (dialect s).
  - unfold XAdES111.getRevocationOCSPRef, XAdES111.ocspDigestAlgorithm.
    destruct (qualifyingProperties1 o) as [|qp qps] eqn:Q.
    { right. unfold XAdES111.unsignSigProps, XAdES111.qualifyingProperties1_0, seq_at.
      rewrite Os. simpl. now rewrite Q. }
    rewrite (unsignSigProps111_at s o os qp qps Os Q).
    destruct (xades111.unsignedProperties qp) as [up|]; simpl; [|now left].
    destruct (xades111.unsignedSignatureProperties up) as [usp|]; simpl; [|now split].
    destruct (xades111.completeRevocationRefs usp) as [crr|]; simpl;
      [|split; [reflexivity | eexists; reflexivity]].
    destruct (xades.oCSPRefs crr) as [refs|]; simpl;
      [|split; [reflexivity | eexists; reflexivity]].
    unfold seq_at. destruct (xades.oCSPRef refs) as [|ref0 rs]; simpl;
      [split; [reflexivity | eexists; reflexivity]|].
    destruct (xades.digestAlgAndValue ref0) as [dav|]; simpl;
      [now split | split; [reflexivity | eexists; reflexivity]].
  - unfold XAdES132.getRevocationOCSPRef, XAdES132.ocspDigestAlgorithm.
    destruct (qualifyingProperties o) as [|qp qps] eqn:Q.
    { right. unfold XAdES132.unsignSigProps, XAdES132.qualifyingProperties_0, seq_at.
      rewrite Os. simpl. now rewrite Q. }
    rewrite (unsignSigProps132_at s o os qp qps Os Q).
    destruct (xades132.unsignedProperties qp) as [up|]; simpl; [|now left].
    destruct (xades132.unsignedSignatureProperties up) as [usp|]; simpl; [|now split].
    unfold seq_at.
    destruct (xades132.completeRevocationRefs usp) as [|crr cs]; simpl;
      [split; [reflexivity | eexists; reflexivity]|].
    destruct (xades.oCSPRefs crr) as [refs|]; simpl;
      [|split; [reflexivity | eexists; reflexivity]].
    destruct (xades.oCSPRef refs) as [|ref0 rs]; simpl;
      [split; [reflexivity | eexists; reflexivity]|].
    destruct (xades.digestAlgAndValue ref0) as [dav|]; simpl;
      [now split | split; [reflexivity | eexists; reflexivity]].
Qed.

Lemma getOCSPResponseValue_present (s : Signature) (response : bytes) :
  getOCSPResponseValue s = Return response ->
  unsignedSignatureProperties_present s = Some true.
Proof.
  unfold getOCSPResponseValue, unsignedSignatureProperties_present.
  destruct (object (_sign s)) as [|o os] eqn:Os.
  { unfold XAdES111.getOCSPResponseValue, XAdES132.getOCSPResponseValue,
      XAdES111.unsignSigProps, XAdES132.unsignSigProps,
      XAdES111.qualifyingProperties1_0, XAdES132.qualifyingProperties_0, seq_at.
    rewrite Os. now destruct (dialect s). }
  destruct (dialect s).
  - unfold XAdES111.getOCSPResponseValue.
    destruct (qualifyingProperties1 o) as [|qp qps] eqn:Q.
    { unfold XAdES111.unsignSigProps, XAdES111.qualifyingProperties1_0, seq_at.
      rewrite Os. simpl. now rewrite Q. }
    rewrite (unsignSigProps111_at s o os qp qps Os Q).
    destruct (xades111.unsignedProperties qp) as [up|]; simpl; [|discriminate].
    now destruct (xades111.unsignedSignatureProperties up).
  - unfold XAdES132.getOCSPResponseValue.
    destruct (qualifyingProperties o) as [|qp qps] eqn:Q.
    { unfold XAdES132.unsignSigProps, XAdES132.qualifyingProperties_0, seq_at.
      rewrite Os. simpl. now rewrite Q. }
    rewrite (unsignSigProps132_at s o os qp qps Os Q).
    destruct (xades132.unsignedProperties qp) as [up|]; simpl; [|discriminate].
    now destruct (xades132.unsignedSignatureProperties up).
Qed.

(** X11: getRevocationOCSPRef tests every step below
    UnsignedSignatureProperties: with that element present it returns
    the DigestValue and DigestMethod of OCSPRef[0] or throws the
    missing-element error, and this is the situation after
    getOCSPResponseValue has returned; UnsignedSignatureProperties
    itself is reached through operator-> without a test. *)
Theorem getRevocationOCSPRef_guarded (s : Signature) :
  (unsignedSignatureProperties_present s = Some true ->
   getRevocationOCSPRef s =
   match OCSPRef_DigestAlgAndValue s with
   | Some dav => Return (xades.digestValue dav, dsig.algorithm (xades.digestMethod dav))
   | None => throw E_MissingOCSPRefDigest
   end)
  /\ (unsignedSignatureProperties_present s = Some false ->
      getRevocationOCSPRef s = Undefined AbsentOptional)
  /\ (forall response, getOCSPResponseValue s = Return response ->
                       stack_only (getRevocationOCSPRef s)).
Proof.
  pose proof (OCSPRef_navigation_cases s) as N.
  split; [|split].
  - intros P. rewrite P in N. destruct (OCSPRef_DigestAlgAndValue s); apply N.
  - intros P. rewrite P in N. apply N.
  - intros response R. apply getOCSPResponseValue_present in R. rewrite R in N.
    destruct (OCSPRef_DigestAlgAndValue s); destruct N as [-> _]; exact I.
Qed.

(** X12: ocspDigestAlgorithm returns a URI exactly when
    getRevocationOCSPRef returns a digest with that URI; where
    getRevocationOCSPRef throws its missing-element error,
    ocspDigestAlgorithm, which tests nothing, has undefined
    behaviour. *)
Theorem ocspDigestAlgorithm_agrees (s : Signature) :
  (forall uri, ocspDigestAlgorithm s = Return uri
               <-> exists value, getRevocationOCSPRef s = Return (value, uri))
  /\ (getRevocationOCSPRef s = throw E_MissingOCSPRefDigest ->
      exists u, ocspDigestAlgorithm s = Undefined u).
Proof.
  pose proof (OCSPRef_navigation_cases s) as N.
  destruct (unsignedSignatureProperties_present s) as [[|]|].
  - destruct (OCSPRef_DigestAlgAndValue s) as [dav|].
    + destruct N as [-> ->]. split; [|discriminate].
      intros uri. split.
      * intros [= <-]. now exists (xades.digestValue dav).
      * intros [value [= _ <-]]. reflexivity.
    + destruct N as [-> [u ->]]. split; [|intros _; now exists u].
      intros uri. split; [discriminate | intros [value H]; discriminate H].
  - destruct N as [-> ->]. split; [|discriminate].
    intros uri. split; [discriminate | intros [value H]; discriminate H].
  - destruct N as [[-> ->] | [-> ->]]; (split; [|discriminate]);
      intros uri; (split; [discriminate | intros [value H]; discriminate H]).
Qed.

End UnsignedPropertiesNavigation.

(** ** Offline time-mark validation, continued *)

Section ThrowsOnly.
Context {A B : Type} (P : Failure -> Prop).

Lemma throws_only_bind (c : outcome A) (k : A -> outcome B) :
  throws_only P c -> (forall a, c = Return a -> throws_only P (k a)) ->
  throws_only P (bind c k).
Proof.
  unfold throws_only. destruct c as [a|e|u]; simpl; intros Hc Hk f H.
  - exact (Hk a eq_refl f H).
  - apply Hc. injection H as ->. reflexivity.
  - discriminate H.
Qed.

Lemma throws_only_or_throw (o : option A) (f : Failure) :
  P f -> throws_only P (or_throw o f).
Proof. intros Pf g. destruct o; simpl; [discriminate | now intros [= <-]]. Qed.

Lemma throws_only_Return (a : A) : throws_only P (Return a).
Proof. intros f H. discriminate H. Qed.

End ThrowsOnly.

Lemma throws_only_throw_if (P : Failure -> Prop) (cond : bool) (f : Failure) :
  P f -> throws_only P (throw_if cond f).
Proof. intros Pf g. destruct cond; simpl; [now intros [= <-] | discriminate]. Qed.

Section TimeMarkAcceptance.
Context (W : Collaborators).

Lemma ocspDigestAlgorithm_Return (s : Signature) (uri : string) :
  ocspDigestAlgorithm s = Return uri ->
  exists dav, OCSPRef_DigestAlgAndValue s = Some dav
              /\ uri = dsig.algorithm (xades.digestMethod dav)
              /\ getRevocationOCSPRef s = Return (xades.digestValue dav, uri).
Proof.
  pose proof (OCSPRef_navigation_cases s) as N. intros H.
  destruct (unsignedSignatureProperties_present s) as [[|]|].
  - destruct (OCSPRef_DigestAlgAndValue s) as [dav|].
    + destruct N as [R D]. rewrite D in H. injection H as <-. now exists dav.
    + destruct N as [_ [u D]]. rewrite D in H. discriminate H.
  - destruct N as [_ D]. rewrite D in H. discriminate H.
  - destruct N as [[_ D] | [_ D]]; rewrite D in H; discriminate H.
Qed.

Lemma getSigningCertificate_throws (s : Signature) :
  throws_only (fun f => In f [E_NoSignerCertificate; E_MultipleSignerCertificates;
                              E_Collab_X509])
              (getSigningCertificate W s).
Proof.
  unfold getSigningCertificate, getSigningX509CertificateType, seq_at.
  destruct (keyInfo (_sign s)) as [ki|]; simpl; [|intros f [= <-]; simpl; auto].
  destruct (dsig.x509Data ki) as [|d [|d' ds]]; simpl;
    try (intros f [= <-]; simpl; now auto).
  destruct (dsig.x509Certificate d) as [|c [|c' cs]]; simpl;
    try (intros f [= <-]; simpl; now auto).
  apply throws_only_or_throw. simpl. auto.
Qed.

Lemma issure_cn_throws (issuer : string) (f : Failure) : issure_cn issuer <> throw f.
Proof. unfold issure_cn, substr. destruct (_ <? _)%Z; discriminate. Qed.

Lemma prepare_throws (v : SignatureValidator W) :
  throws_only validateTMOffline_failure (prepare W v).
Proof.
  unfold prepare, validateTMOffline_failure.
  apply throws_only_bind.
  { intros f H. left. apply getSigningCertificate_throws in H. simpl in *. tauto. }
  intros c _. apply throws_only_bind.
  { intros f H. now elim (issure_cn_throws _ _ H). }
  intros cn _. apply throws_only_bind; [apply throws_only_throw_if; simpl; tauto|].
  intros [] _. apply throws_only_bind; [apply throws_only_throw_if; simpl; tauto|].
  intros [] _. apply throws_only_Return.
Qed.

Lemma getOCSPResponseValue_throws (s : Signature) :
  throws_only validateTMOffline_failure (getOCSPResponseValue s).
Proof.
  unfold getOCSPResponseValue, validateTMOffline_failure.
  destruct (dialect s);
    [unfold XAdES111.getOCSPResponseValue, XAdES111.unsignSigProps,
       XAdES111.qualifyingProperties1_0
    | unfold XAdES132.getOCSPResponseValue, XAdES132.unsignSigProps,
        XAdES132.qualifyingProperties_0];
    unfold throw_if, throw, seq_at, opt_get, empty;
    repeat match goal with
           | |- context [match ?x with _ => _ end] =>
               match x with
               | context [match _ with _ => _ end] => fail 1
               | _ => destruct x; simpl
               end
           end;
    intros f H; try discriminate H; injection H as <-; simpl; tauto.
Qed.

(** X13: the stack exceptions validateTMOffline can raise are those of
    the certificate extraction, the two lookup errors of prepare, the
    three missing-element errors of getOCSPResponseValue, the errors
    of the OCSP and Digest classes and the two binding errors.  The
    missing-element error of getRevocationOCSPRef is not among them:
    when that call is reached, ocspDigestAlgorithm has already gone
    through the same path. *)
Theorem validateTMOffline_failures (v : SignatureValidator W) (f : Failure) :
  validateTMOffline W v = throw f ->
  validateTMOffline_failure f /\ f <> E_MissingOCSPRefDigest.
Proof.
  intros H.
  assert (validateTMOffline_failure f) as F.
  { revert f H. change (throws_only validateTMOffline_failure (validateTMOffline W v)).
    unfold validateTMOffline.
    apply throws_only_bind; [apply prepare_throws|]. intros [ocsp v1] _.
    apply throws_only_bind; [apply getOCSPResponseValue_throws|]. intros response _.
    apply throws_only_bind;
      [apply throws_only_throw_if; unfold validateTMOffline_failure; simpl; tauto|].
    intros [] _.
    apply throws_only_bind;
      [apply throws_only_or_throw; unfold validateTMOffline_failure; simpl; tauto|].
    intros respNonce _.
    apply throws_only_bind.
    { intros f H.
      pose proof (OCSPRef_navigation_cases (_sig (set_ocspResponse W v1 response))) as N.
      destruct (unsignedSignatureProperties_present _) as [[|]|].
      - destruct (OCSPRef_DigestAlgAndValue _);
          [destruct N as [_ D] | destruct N as [_ [u D]]]; rewrite D in H; discriminate H.
      - destruct N as [_ D]. rewrite D in H. discriminate H.
      - destruct N as [[_ D] | [_ D]]; rewrite D in H; try discriminate H.
        injection H as <-. unfold validateTMOffline_failure. simpl. tauto. }
    intros method M.
    apply throws_only_bind;
      [apply throws_only_or_throw; right; now exists method|].
    intros calc _.
    apply throws_only_bind;
      [apply throws_only_throw_if; unfold validateTMOffline_failure; simpl; tauto|].
    intros [] _.
    destruct (ocspDigestAlgorithm_Return _ _ M) as (dav & _ & _ & ->). simpl bind.
    apply throws_only_bind;
      [apply throws_only_or_throw; right; now exists method|].
    intros calc2 _.
    apply throws_only_bind;
      [apply throws_only_throw_if; unfold validateTMOffline_failure; simpl; tauto|].
    intros [] _. apply throws_only_Return. }
  split; [exact F|].
  intros ->. destruct F as [F | [uri F]]; [|discriminate F].
  simpl in F. repeat (destruct F as [F|F]; [discriminate F|]). exact F.
Qed.


End TimeMarkAcceptance.


(** Without a responder for the issuer the sample fails with the
    no-responder error, one of the listed failures. *)
Lemma validateTMOffline_failures_witness :
  validateTMOffline_failure E_NoOCSPResponder.
Proof.
  exact (proj1 (validateTMOffline_failures (Sample.world Sample.tm132)
    {| _sig := Sample.signature Sample.tm132 XAdES132Signature;
       _conf := {| getDigestURI := Sample.SHA256;
                   hasOCSPConf := fun _ => false;
                   getOCSPConf := getOCSPConf (Sample.conf Sample.tm132);
                   getCertStore := getCertStore (Sample.conf Sample.tm132) |};
       _signingCert := None; _ocspCerts := None; _issuerX509 := None;
       _ocspResponse := [] |}
    E_NoOCSPResponder eq_refl)).
Defined.

(** ** The time of the OCSP response *)

Section ProducedAtProperties.
Context (xsd2string : string -> string).

Lemma getProducedAt_cases (s : Signature) :
  match unsignedSignatureProperties_present s with
  | Some true =>
      match first_OCSPRef s with
      | Some ref =>
          getProducedAt xsd2string s
          = Return (xsd2string (xades.producedAt (xades.oCSPIdentifier ref)))
      | None => exists u, getProducedAt xsd2string s = Undefined u
      end
  | Some false => getProducedAt xsd2string s = Return ""
  | None =>
      getProducedAt xsd2string s = throw E_MissingUnsignedProperties
      \/ getProducedAt xsd2string s = Undefined IndexOutOfBounds
  end.
Proof.
  unfold unsignedSignatureProperties_present, first_OCSPRef, first_OCSPRef_of,
    getProducedAt.
  destruct (object (_sign s)) as [|o os] eqn:Os.
  { right. unfold getProducedAt111, getProducedAt132,
      XAdES111.unsignSigProps, XAdES132.unsignSigProps,
      XAdES111.qualifyingProperties1_0, XAdES132.qualifyingProperties_0, seq_at.
    rewrite Os. now destruct (dialect s). }
  destruct (dialect s).
  - unfold getProducedAt111.
    destruct (qualifyingProperties1 o) as [|qp qps] eqn:Q.
    { right. unfold XAdES111.unsignSigProps, XAdES111.qualifyingProperties1_0, seq_at.
      rewrite Os. simpl. now rewrite Q. }
    rewrite (unsignSigProps111_at s o os qp qps Os Q).
    destruct (xades111.unsignedProperties qp) as [up|]; simpl; [|now left].
    destruct (xades111.unsignedSignatureProperties up) as [usp|]; simpl; [|reflexivity].
    destruct (xades111.completeRevocationRefs usp) as [crr|]; simpl;
      [|eexists; reflexivity].
    destruct (xades.oCSPRefs crr) as [refs|]; simpl; [|eexists; reflexivity].
    unfold seq_at. destruct (xades.oCSPRef refs) as [|ref0 rs]; simpl;
      [eexists; reflexivity | reflexivity].
  - unfold getProducedAt132.
    destruct (qualifyingProperties o) as [|qp qps] eqn:Q.
    { right. unfold XAdES132.unsignSigProps, XAdES132.qualifyingProperties_0, seq_at.
      rewrite Os. simpl. now rewrite Q. }
    rewrite (unsignSigProps132_at s o os qp qps Os Q).
    destruct (xades132.unsignedProperties qp) as [up|]; simpl; [|now left].
    destruct (xades132.unsignedSignatureProperties up) as [usp|]; simpl; [|reflexivity].
    unfold seq_at.
    destruct (xades132.completeRevocationRefs usp) as [|crr cs]; simpl;
      [eexists; reflexivity|].
    destruct (xades.oCSPRefs crr) as [refs|]; simpl; [|eexists; reflexivity].
    destruct (xades.oCSPRef refs) as [|ref0 rs]; simpl;
      [eexists; reflexivity | reflexivity].
Qed.

Lemma OCSPRef_digest_of_first (s : Signature) (dav : xades.DigestAlgAndValueType) :
  OCSPRef_DigestAlgAndValue s = Some dav ->
  exists ref, first_OCSPRef s = Some ref /\ xades.digestAlgAndValue ref = Some dav.
Proof.
  unfold OCSPRef_DigestAlgAndValue, first_OCSPRef, first_OCSPRef_digest, first_OCSPRef_of.
  destruct (object (_sign s)) as [|o os]; [discriminate|].
  destruct (dialect s).
  - destruct (qualifyingProperties1 o) as [|qp qps]; [discriminate|].
    destruct (xades111.unsignedProperties qp) as [up|]; [|discriminate].
    destruct (xades111.unsignedSignatureProperties up) as [usp|]; [|discriminate].
    destruct (xades111.completeRevocationRefs usp) as [crr|]; [|discriminate].
    destruct (xades.oCSPRefs crr) as [refs|]; [|discriminate].
    destruct (xades.oCSPRef refs) as [|ref0 rs]; [discriminate|].
    intros H. now exists ref0.
  - destruct (qualifyingProperties o) as [|qp qps]; [discriminate|].
    destruct (xades132.unsignedProperties qp) as [up|]; [|discriminate].
    destruct (xades132.unsignedSignatureProperties up) as [usp|]; [|discriminate].
    destruct (xades132.completeRevocationRefs usp) as [|crr cs]; [discriminate|].
    destruct (xades.oCSPRefs crr) as [refs|]; [|discriminate].
    destruct (xades.oCSPRef refs) as [|ref0 rs]; [discriminate|].
    intros H. now exists ref0.
Qed.

(** X15: getProducedAt returns the empty string for a signature whose
    UnsignedProperties has no UnsignedSignatureProperties (a BES
    signature); with UnsignedSignatureProperties present it returns
    the ProducedAt of OCSPRef[0], converted by xsd2string, when the
    path down to that reference exists, and has undefined behaviour
    when it does not, since no step of the path is tested. *)
Theorem getProducedAt_value (s : Signature) :
  (unsignedSignatureProperties_present s = Some false ->
   getProducedAt xsd2string s = Return "")
  /\ (unsignedSignatureProperties_present s = Some true ->
      (forall ref, first_OCSPRef s = Some ref ->
                   getProducedAt xsd2string s
                   = Return (xsd2string (xades.producedAt (xades.oCSPIdentifier ref))))
      /\ (first_OCSPRef s = None -> exists u, getProducedAt xsd2string s = Undefined u)).
Proof.
  pose proof (getProducedAt_cases s) as C.
  split; [intros P; now rewrite P in C|].
  intros P. rewrite P in C. split.
  - intros ref R. now rewrite R in C.
  - intros R. now rewrite R in C.
Qed.

(** X16: after validateTMOffline has returned, getProducedAt is
    defined on the signature of the returned validator: it is the
    ProducedAt of the OCSPRef whose digest was just compared with the
    response. *)
Theorem getProducedAt_after_validateTMOffline (W : Collaborators)
        (v v' : SignatureValidator W) :
  validateTMOffline W v = Return v' ->
  exists ref dav,
    first_OCSPRef (_sig v') = Some ref
    /\ xades.digestAlgAndValue ref = Some dav
    /\ OCSPRef_DigestAlgAndValue (_sig v') = Some dav
    /\ getProducedAt xsd2string (_sig v')
       = Return (xsd2string (xades.producedAt (xades.oCSPIdentifier ref))).
Proof.
  unfold validateTMOffline. intros H.
  apply bind_Return in H. destruct H as ([ocsp v1] & Prep & H).
  apply bind_Return in H. destruct H as (response & Resp & H).
  apply bind_Return in H. destruct H as ([] & _ & H).
  apply bind_Return in H. destruct H as (respNonce & _ & H).
  apply bind_Return in H. destruct H as (method & Alg & H).
  apply bind_Return in H. destruct H as (calc & _ & H).
  apply bind_Return in H. destruct H as ([] & _ & H).
  apply bind_Return in H. destruct H as ([value uri] & _ & H).
  apply bind_Return in H. destruct H as (calc2 & _ & H).
  apply bind_Return in H. destruct H as ([] & _ & H).
  injection H as <-. simpl in *.
  destruct (ocspDigestAlgorithm_Return _ _ Alg) as (dav & Ref & _ & _).
  destruct (OCSPRef_digest_of_first _ _ Ref) as (ref & First & Dav).
  apply getOCSPResponseValue_present in Resp.
  pose proof (getProducedAt_cases (_sig v1)) as C. rewrite Resp, First in C.
  now exists ref, dav.
Qed.

End ProducedAtProperties.

(** On the time-marked sample getProducedAt gives the ProducedAt of
    its OCSPRef. *)
Lemma getProducedAt_after_validateTMOffline_witness :
  getProducedAt (fun t => t) (Sample.signature Sample.tm132 XAdES132Signature)
  = Return "2013-10-10T10:00:00Z".
Proof.
  destruct (getProducedAt_after_validateTMOffline (fun t => t)
              (Sample.world Sample.tm132)
              (Sample.validator Sample.tm132 XAdES132Signature) _ eq_refl)
    as (ref & dav & First & _ & _ & P).
  injection First as <-. exact P.
Defined.

(** ** Online validation *)

Section OnlineProperties.
Context (W : Collaborators).

Lemma prepare_Return (v v1 : SignatureValidator W) (ocsp : OCSP) :
  prepare W v = Return (ocsp, v1) ->
  exists c issuer,
    getSigningCertificate W (_sig v) = Return c
    /\ _signingCert v1 = Some c
    /\ getCert W (getCertStore (_conf v)) (getIssuerNameAsn1 c) = Some issuer
    /\ _issuerX509 v1 = Some issuer
    /\ _sig v1 = _sig v /\ _conf v1 = _conf v /\ _ocspResponse v1 = _ocspResponse v.
Proof.
  unfold prepare. intros H.
  apply bind_Return in H. destruct H as (c & Cert & H).
  apply bind_Return in H. destruct H as (cn & _ & H).
  apply bind_Return in H. destruct H as ([] & _ & H).
  apply bind_Return in H. destruct H as ([] & Store & H).
  apply throw_if_Return, negb_false_iff in Store.
  destruct (getCert W _ _) as [issuer|] eqn:G; [|discriminate Store].
  injection H as _ <-. simpl. now exists c, issuer.
Qed.


End OnlineProperties.

(** ** Edge cases of the string tests *)

Section StringEdgeProperties.
Context (W : Collaborators).
Import CxxString CxxStringFacts.

Lemma first_match_not_occurs (pat s : string) (i : nat) :
  ~ occurs_in pat s -> first_match pat s i = None.
Proof.
  intros N. destruct (first_match pat s i) as [j|] eqn:F; [|reflexivity].
  destruct (first_match_Some _ _ _ _ F) as (pre & rest & E & _). elim N. now exists pre, rest.
Qed.

Lemma take_drop (n : nat) (s : string) : take n s ++ drop n s = s.
Proof.
  revert s; induction n as [|n IH]; intros [|c s]; simpl; try reflexivity.
  now rewrite IH.
Qed.

Lemma length_drop (n : nat) (s : string) :
  String.length (drop n s) = String.length s - n.
Proof.
  revert s; induction n as [|n IH]; intros [|c s]; simpl; try reflexivity; try lia.
  apply IH.
Qed.

(** [issuer.substr(p, issuer.find(",", p) - p)] for a position inside
    the name. *)
Lemma substr_to_comma (issuer : string) (p : nat) :
  p <= String.length issuer -> (size issuer < 2 ^ 31)%Z ->
  exists cn rest,
    drop p issuer = cn ++ rest
    /\ ~ occurs_in "," cn
    /\ (rest = "" \/ starts_with "," rest)
    /\ substr issuer (Z.of_nat p)
              (size_t (find issuer "," (Z.of_nat p) - Z.of_nat p)) = Return cn.
Proof.
  intros In Small. unfold substr, find, substr_in_range, size in *.
  replace (Z.of_nat (String.length issuer) <? Z.of_nat p)%Z with false
    by (symmetry; apply Z.ltb_ge; lia).
  rewrite Nat2Z.id.
  pose proof (length_drop p issuer) as Ld.
  destruct (first_match "," (drop p issuer) p) as [q|] eqn:G.
  - destruct (first_match_Some _ _ _ _ G) as (cn & rest' & Et & Qq & MinC).
    exists cn, ("," ++ rest'). subst q.
    assert (String.length (drop p issuer) = String.length cn + 1 + String.length rest') as Lt.
    { rewrite Et at 1. rewrite !length_append. simpl. lia. }
    repeat split.
    + exact Et.
    + intros (a & b & Ecn).
      assert (drop p issuer = a ++ "," ++ (b ++ "," ++ rest')) as Et'.
      { rewrite Et, Ecn. now rewrite !append_assoc. }
      apply MinC in Et'. rewrite Ecn, !length_append in Et'. simpl in Et'. lia.
    + right. now exists rest'.
    + f_equal. replace (Z.to_nat _) with (String.length cn).
      * rewrite Et. apply take_append.
      * unfold size_t. rewrite Z.mod_small by lia. lia.
  - exists (drop p issuer), "". repeat split.
    + now rewrite append_nil_r.
    + exact (first_match_None _ _ _ G).
    + now left.
    + f_equal. apply take_all. unfold size_t, npos.
      rewrite Z.mod_small by lia. lia.
Qed.

(** X18: for a signer certificate whose issuer name has no "CN=",
    prepare does not fail for that reason: find returns npos, pos
    wraps round to 2, and the name is cut from its third character up
    to the next comma, that fragment being looked up as the CN.  Only
    a name of fewer than two characters makes substr throw
    std::out_of_range, which is not a stack exception. *)
Theorem prepare_without_CN (v : SignatureValidator W) (signingCert : X509Cert) :
  getSigningCertificate W (_sig v) = Return signingCert ->
  ~ occurs_in "CN=" (getIssuerName signingCert) ->
  (size (getIssuerName signingCert) < 2 ^ 31)%Z ->
  (String.length (getIssuerName signingCert) < 2 ->
   prepare W v = Throws std_out_of_range)
  /\ (2 <= String.length (getIssuerName signingCert) ->
      exists skipped cn rest,
        getIssuerName signingCert = skipped ++ cn ++ rest
        /\ String.length skipped = 2
        /\ ~ occurs_in "," cn
        /\ (rest = "" \/ starts_with "," rest)
        /\ issure_cn (getIssuerName signingCert) = Return cn
        /\ (hasOCSPConf (_conf v) cn = false -> prepare W v = throw E_NoOCSPResponder)).
Proof.
  intros Cert NoCN Small.
  set (issuer := getIssuerName signingCert) in *.
  assert (find issuer "CN=" 0 = npos) as F.
  { unfold find, size.
    replace (Z.of_nat (String.length issuer) <? 0)%Z with false
      by (symmetry; apply Z.ltb_ge; lia).
    now rewrite (first_match_not_occurs _ _ _ NoCN). }
  assert (size_t (to_int (size_t (npos + 3))) = 2%Z) as Pos by reflexivity.
  assert (issure_cn issuer
          = substr issuer 2 (size_t (find issuer "," 2 - 2))) as CN.
  { unfold issure_cn. now rewrite F, Pos. }
  split.
  - intros Short. unfold prepare. rewrite Cert. simpl bind. fold issuer. rewrite CN.
    unfold substr, size.
    replace (Z.of_nat (String.length issuer) <? 2)%Z with true
      by (symmetry; apply Z.ltb_lt; lia).
    reflexivity.
  - intros Long.
    destruct (substr_to_comma issuer 2 Long Small) as (cn & rest & Dr & NoComma & Rest & Sub).
    change (Z.of_nat 2) with 2%Z in Sub. rewrite <- CN in Sub.
    exists (take 2 issuer), cn, rest. repeat split; try assumption.
    + rewrite <- Dr. symmetry. apply take_drop.
    + pose proof (length_drop 2 issuer) as Ld.
      pose proof (f_equal String.length (take_drop 2 issuer)) as Lt.
      rewrite length_append in Lt. lia.
    + intros NoConf. unfold prepare. rewrite Cert. simpl bind. fold issuer.
      rewrite Sub. simpl bind. now rewrite NoConf.
Qed.

(** X19: taken alone, the suffix comparison of isReferenceToSigProps
    holds of every Type value of 16 characters, because rfind returns
    npos and length minus 17 wraps round to the same value; it is the
    prefix test before it that keeps such a reference from being
    taken for the SignedProperties reference. *)
Theorem suffix_test_wraps (r : dsig.ReferenceType) (t : string) :
  dsig.type r = Some t -> String.length t = 16 ->
  (rfind t "#SignedProperties" =? size_t (size t - size "#SignedProperties"))%Z = true
  /\ (find t "http://uri.etsi.org/01903" 0 =? 0)%Z = false
  /\ isReferenceToSigProps r = false.
Proof.
  intros T L.
  assert (last_match "#SignedProperties" t 0 = None) as Last.
  { destruct (last_match "#SignedProperties" t 0) as [j|] eqn:M; [|reflexivity].
    destruct (last_match_Some _ _ _ _ M) as (pre & rest & E & _).
    apply (f_equal String.length) in E. rewrite !length_append in E. simpl in E. lia. }
  assert (prefix "http://uri.etsi.org/01903" t = false) as Pre.
  { destruct (prefix "http://uri.etsi.org/01903" t) eqn:P; [|reflexivity].
    apply prefix_starts_with in P. destruct P as [rest E].
    apply (f_equal String.length) in E. rewrite length_append in E. simpl in E. lia. }
  split; [|split].
  - unfold rfind, size. rewrite Last, L. reflexivity.
  - now rewrite find_at_start.
  - unfold isReferenceToSigProps. rewrite T, find_at_start, Pre. reflexivity.
Qed.

End StringEdgeProperties.

(** The sample certificate without a common name: "EE", the text
    between "C=" and the first comma, is looked up as the CN. *)
Lemma prepare_without_CN_witness :
  prepare MoreSamples.world_without_CN MoreSamples.validator_without_CN
  = throw E_NoOCSPResponder.
Proof.
  assert (~ CxxString.occurs_in "CN=" "C=EE,O=AS") as NoCN.
  { intros Occ. apply (CxxStringFacts.first_match_None "CN=" "C=EE,O=AS" 0 eq_refl Occ). }
  destruct (proj2 (prepare_without_CN MoreSamples.world_without_CN
                     MoreSamples.validator_without_CN
                     {| getIssuerName := "C=EE,O=AS"; getIssuerNameAsn1 := [Byte.x31];
                        getSerial := 7; getSubject := "CN=VOTER";
                        encodeDER := [Byte.x30; Byte.x82] |}
                     eq_refl NoCN eq_refl))
    as (skipped & cn & rest & _ & _ & _ & _ & CN & NoConf).
  { simpl. lia. }
  apply NoConf. injection CN as <-. reflexivity.
Defined.

(** A sixteen-character Type value. *)
Lemma suffix_test_wraps_witness :
  isReferenceToSigProps {| dsig.uRI := None; dsig.type := Some "0123456789abcdef";
                           dsig.digestMethod := Sample.sha256; dsig.digestValue := [] |}
  = false.
Proof.
  exact (proj2 (proj2 (suffix_test_wraps
    {| dsig.uRI := None; dsig.type := Some "0123456789abcdef";
       dsig.digestMethod := Sample.sha256; dsig.digestValue := [] |}
    "0123456789abcdef" eq_refl eq_refl))).
Defined.

(** ** Cardinality checks after parsing *)

Section ParsedCardinality.
Context (W : Collaborators).

Lemma compare_digests_throws (n : nat) (a b : bytes) (f g : Failure) :
  compare_digests n a b f = throw g -> g = f.
Proof.
  revert a b; induction n as [|n IH]; intros a b; simpl; [discriminate|].
  destruct a as [|x a]; [discriminate|]. destruct b as [|y b]; [discriminate|].
  destruct (Byte.eqb x y); [apply IH | now intros [= <-]].
Qed.

Lemma certDigest_check_throws (x509 : X509Cert) (c : xades.CertIDType) :
  let alg := dsig.algorithm (xades.digestMethod (xades.certDigest c)) in
  throws_only (fun f => cardinality_error f = false)
    (throw_if (negb (Digest_isSupported W alg)) (E_CertDigestUnsupported alg) ;;;
     throw_if (compareIssuerToString W x509 (dsig.x509IssuerName (xades.issuerSerial c))
               || negb (getSerial x509 =? dsig.x509SerialNumber (xades.issuerSerial c))%Z)
              E_IssuerInfoInvalid ;;;
     certDigestCalc <- or_throw (Digest_create W alg) (E_Collab_Digest alg) ;;
     throw_if (negb (List.length (xades.digestValue (xades.certDigest c))
                     =? getSize certDigestCalc)%nat)
              E_CertDigestLength ;;;
     compare_digests (getSize certDigestCalc) (hash certDigestCalc (encodeDER x509))
                     (xades.digestValue (xades.certDigest c)) E_CertDigestValue).
Proof.
  intros alg f.
  destruct (Digest_isSupported W alg); simpl; [|now intros [= <-]].
  destruct (_ || _); simpl; [now intros [= <-]|].
  destruct (Digest_create W alg) as [calc|]; simpl; [|now intros [= <-]].
  destruct (negb _); simpl; [now intros [= <-]|].
  intros H. now rewrite (compare_digests_throws _ _ _ _ _ H).
Qed.

(** X20: on a signature that parse has returned, the checks of
    validateOffline never report a wrong number of Object or
    QualifyingProperties elements: checkQualifyingProperties (with
    checkSignedSignatureProperties) and checkKeyInfo count them again,
    but parse has already fixed both numbers at one, for the dialect
    it has chosen. *)
Theorem parsed_cardinality (xml_buf : bytes) (s : Signature) :
  parse W xml_buf = Return s ->
  throws_only (fun f => cardinality_error f = false) (checkQualifyingProperties s)
  /\ throws_only (fun f => cardinality_error f = false) (checkKeyInfo W s).
Proof.
  intros P. apply parse_Return in P.
  destruct P as (sig & o & _ & <- & _ & Os & [(qp1 & Q & Q1 & D) | (qp & Q & Q1 & D)]);
    (split;
     [ unfold checkQualifyingProperties; rewrite D;
       unfold XAdES111.checkQualifyingProperties, XAdES111.checkSignedSignatureProperties,
         XAdES132.checkQualifyingProperties, XAdES132.checkSignedSignatureProperties;
       rewrite Os; simpl; rewrite ?Q1, ?Q; simpl; intros f;
       unfold throw_if, throw, opt_get;
       repeat match goal with
              | |- context [match ?x with _ => _ end] =>
                  match x with
                  | context [match _ with _ => _ end] => fail 1
                  | _ => destruct x; simpl
                  end
              end;
       first [discriminate | now intros [= <-]]
     | unfold checkKeyInfo; rewrite D;
       unfold XAdES111.checkKeyInfo, XAdES132.checkKeyInfo;
       apply throws_only_bind;
       [ intros f G; apply getSigningCertificate_throws in G; simpl in G;
         destruct G as [<-|[<-|[<-|[]]]]; reflexivity
       | intros x509 _; rewrite Os; simpl; rewrite ?Q1, ?Q; simpl ] ]).
  - destruct (xades111.signedProperties qp1) as [sp|]; simpl; [|now intros f [= <-]].
    destruct (xades.cert _) as [|c [|c' cs]]; simpl; try (now intros f [= <-]).
    apply certDigest_check_throws.
  - destruct (xades132.signedProperties qp) as [sp|]; simpl; [|now intros f [= <-]].
    destruct (xades132.signingCertificate _) as [sc|]; simpl; [|now intros f [= <-]].
    destruct (xades.cert sc) as [|c [|c' cs]]; simpl; try (now intros f [= <-]).
    apply certDigest_check_throws.
Qed.

End ParsedCardinality.

(** The sample time-marked documents, as parsed. *)
Lemma parsed_cardinality_witness :
  throws_only (fun f => cardinality_error f = false)
    (checkQualifyingProperties (Sample.signature Sample.tm132 XAdES132Signature))
  /\ throws_only (fun f => cardinality_error f = false)
       (checkKeyInfo (Sample.world Sample.tm132)
                     (Sample.signature Sample.tm132 XAdES132Signature)).
Proof.
  exact (parsed_cardinality (Sample.world Sample.tm132) Sample.xml
           (Sample.signature Sample.tm132 XAdES132Signature) eq_refl).
Defined.

(** ** From the online check to the offline one *)

Section OnlineThenOffline.
Context (W : Collaborators).

(** Conditions under which validateTMOffline returns. *)
Lemma validateTMOffline_Return_if (v v1 : SignatureValidator W) (ocsp : OCSP)
      (response : bytes) (dav : xades.DigestAlgAndValueType) (calc : Digest) :
  prepare W v = Return (ocsp, v1) ->
  getOCSPResponseValue (_sig v) = Return response ->
  OCSP_verifyResponse W ocsp response = true ->
  OCSP_getNonce W ocsp response = Some (hash calc (getSignatureValue (_sig v))) ->
  OCSPRef_DigestAlgAndValue (_sig v) = Some dav ->
  Digest_create W (dsig.algorithm (xades.digestMethod dav)) = Some calc ->
  hash calc response = xades.digestValue dav ->
  validateTMOffline W v = Return (set_ocspResponse W v1 response).
Proof.
  intros Prep Resp Ver Nonce Ref DC HashEq.
  destruct (OCSPRef_navigation _ _ Ref) as [Alg Rev].
  unfold validateTMOffline. rewrite Prep. simpl bind.
  rewrite (prepare_sig W _ _ _ Prep), Resp. simpl.
  rewrite ?(prepare_sig W _ _ _ Prep), Ver. simpl. rewrite Nonce. simpl.
  rewrite Alg. simpl. rewrite DC. simpl.
  destruct (bytes_eq_dec _ _) as [_|N]; [|now elim N]. simpl.
  rewrite Rev. simpl. rewrite DC. simpl.
  destruct (bytes_eq_dec _ _) as [_|N]; [|now elim N]. reflexivity.
Qed.

(** X21: the response obtained by validateBESOnline validates
    offline.  Let validateBESOnline return for a signature, and let a
    second signature with the same signer certificate and the same
    SignatureValue carry that response as EncapsulatedOCSPValue and,
    in OCSPRef[0], its digest together with a DigestMethod that gives
    the digest of the configured URI (what getTMSignature writes).  If
    the response verifies and its nonce is the one that was sent, then
    validateTMOffline under the same configuration returns, with the
    response stored.  The offline nonce is computed under the
    DigestMethod of OCSPRef[0], the online one under the configured
    URI: they agree since both name the same digest. *)
Theorem online_response_validates_offline
        (OCSP_checkCert : OCSP -> option X509Cert -> option X509Cert -> bytes ->
                          option (CertStatus * bytes * string))
        (v vt v' : SignatureValidator W) (status : CertStatus) (producedAt : string)
        (dav : xades.DigestAlgAndValueType) (calc : Digest) :
  validateBESOnline W OCSP_checkCert v = Return (status, v', producedAt) ->
  _conf vt = _conf v ->
  getSigningCertificate W (_sig vt) = getSigningCertificate W (_sig v) ->
  getSignatureValue (_sig vt) = getSignatureValue (_sig v) ->
  getOCSPResponseValue (_sig vt) = Return (_ocspResponse v') ->
  OCSPRef_DigestAlgAndValue (_sig vt) = Some dav ->
  Digest_create W (getDigestURI (_conf v)) = Some calc ->
  Digest_create W (dsig.algorithm (xades.digestMethod dav)) = Some calc ->
  xades.digestValue dav = hash calc (_ocspResponse v') ->
  (forall ocsp r,
      OCSP_checkCert ocsp (_signingCert v') (_issuerX509 v')
                     (hash calc (getSignatureValue (_sig v))) = Some r ->
      OCSP_verifyResponse W ocsp (snd (fst r)) = true
      /\ OCSP_getNonce W ocsp (snd (fst r))
         = Some (hash calc (getSignatureValue (_sig v)))) ->
  exists v'',
    validateTMOffline W vt = Return v''
    /\ _ocspResponse v'' = _ocspResponse v'
    /\ _signingCert v'' = _signingCert v'
    /\ _issuerX509 v'' = _issuerX509 v'.
Proof.
  intros Online Conf Cert Value Resp Ref DC DC' HashEq Responder.
  unfold validateBESOnline in Online.
  apply bind_Return in Online. destruct Online as ([ocsp v1] & Prep & Online).
  assert (_conf v1 = _conf v) as Conf1.
  { destruct (prepare_Return W _ _ _ Prep) as (_ & _ & _ & _ & _ & _ & _ & C & _).
    exact C. }
  rewrite Conf1, DC in Online. simpl bind in Online.
  destruct (OCSP_checkCert ocsp _ _ _) as [[[st response] pa]|] eqn:Check;
    [|discriminate Online].
  simpl in Online. injection Online as _ <- _. simpl in *.
  rewrite (prepare_sig W _ _ _ Prep) in Check.
  destruct (Responder _ _ Check) as [Ver Nonce]. simpl in Ver, Nonce.
  assert (exists vt1, prepare W vt = Return (ocsp, vt1)
                      /\ _signingCert vt1 = _signingCert v1
                      /\ _issuerX509 vt1 = _issuerX509 v1) as (vt1 & PrepT & SC & IX).
  { revert Prep. unfold prepare. rewrite Cert, Conf.
    destruct (getSigningCertificate W (_sig v)) as [c| |]; simpl; try discriminate.
    destruct (issure_cn (getIssuerName c)) as [cn| |]; simpl; try discriminate.
    destruct (hasOCSPConf (_conf v) cn); simpl; try discriminate.
    destruct (getCert W _ _) as [issuer|]; simpl; try discriminate.
    intros [= <- <-]. eexists. repeat split; reflexivity. }
  exists (set_ocspResponse W vt1 response). repeat split; try assumption.
  apply (validateTMOffline_Return_if vt vt1 ocsp response dav calc); try assumption.
  - now rewrite Value.
  - now symmetry.
Qed.

End OnlineThenOffline.

(** The sample responder's answer, written into the sample
    time-marked document, is accepted offline. *)
Lemma online_response_validates_offline_witness :
  exists v'',
    validateTMOffline (Sample.world Sample.tm132)
                      (Sample.validator Sample.tm132 XAdES132Signature) = Return v''
    /\ _ocspResponse v'' = Sample.ocspResponse.
Proof.
  destruct (online_response_validates_offline (Sample.world Sample.tm132)
              MoreSamples.responder
              (Sample.validator Sample.tm132 XAdES132Signature)
              (Sample.validator Sample.tm132 XAdES132Signature)
              _ GOOD "2013-10-10T10:00:00Z"
              {| xades.digestMethod := Sample.sha256;
                 xades.digestValue := [Byte.x0c] |}
              Sample.digest
              eq_refl eq_refl eq_refl eq_refl eq_refl eq_refl eq_refl eq_refl eq_refl)
    as (v'' & Ok & Stored & _).
  - intros ocsp r [= <-]. split; reflexivity.
  - exists v''. split; [exact Ok | exact Stored].
Defined.
